(** * LifeGuard risk pipeline: a shallow embedding and its properties

    The development embeds four classes of the repository:

    - [RiskStateMachine]      (riskStateMachine.js)
    - [AdaptiveRiskEngine]    (adaptiveRiskEngine.js)
    - [RiskBreakdownAnalyzer] (riskBreakdownAnalyzer.js)
    - [RiskSimulation]        (riskSimulation.js, with [assessRisk] of
                               riskAnalyzer.js)

    Conventions of the embedding.

    - JavaScript numbers are exact rationals in lowest terms ([Qc]); the
      rounding error of IEEE doubles, [NaN] and the infinities are outside
      the model.
    - [x || d] on a number is [d] when [x] is [undefined] or [0].
    - A lookup in an object literal is a lookup in an association list.
      The keys inherited from [Object.prototype] ([JS.inherited]) are
      told apart where the state machine looks a name up; the lookups in
      the score tables are those of the code on the other keys.
    - Strings are sequences of 8-bit characters, and the case conversions
      are JavaScript's on ASCII strings ([JS.is_ascii]).
    - The wall clock ([new Date()]), [Math.random()] and the transcendental
      functions are inputs of the functions that read them.
    - An exception is a value ([inl message]); [try]/[catch] is a [match]. *)

From Stdlib Require Import ZArith QArith Qcanon Qround Lqa Lia.
From Stdlib Require Import List Sorted Permutation String Ascii Bool DecimalString.
Import ListNotations.

Local Open Scope Z_scope.
Local Open Scope Qc_scope.
Local Open Scope string_scope.
Local Open Scope list_scope.

(** ** JavaScript primitives used by the classes *)

Module JS.

(** [String.prototype.toLowerCase], on ASCII letters: JavaScript's on the
    strings of [is_ascii] below. *)
Definition lower_ascii (c : ascii) : ascii :=
  let n := nat_of_ascii c in
  if (Nat.leb 65 n && Nat.leb n 90)%bool then ascii_of_nat (n + 32) else c.

Fixpoint toLowerCase (s : string) : string :=
  match s with
  | EmptyString => EmptyString
  | String c r => String (lower_ascii c) (toLowerCase r)
  end.

(** [String.prototype.includes]. *)
Fixpoint includes (s sub : string) : bool :=
  if String.prefix sub s then true
  else match s with
       | EmptyString => false
       | String _ r => includes r sub
       end.

(** [Array.prototype.includes] on strings. *)
Definition mem (x : string) (l : list string) : bool :=
  existsb (String.eqb x) l.

(** [table[key]] for an object literal with numeric values, on the keys
    that are not [inherited] (below): for those JavaScript finds the
    inherited value, which is no number. *)
Fixpoint lookup {A : Type} (key : string) (table : list (string * A)) : option A :=
  match table with
  | [] => None
  | (k, v) :: r => if String.eqb key k then Some v else lookup key r
  end.

(** [table[key?.toLowerCase()]]: an [undefined] key finds nothing. *)
Definition lookup_lower {A : Type} (key : option string) (table : list (string * A)) : option A :=
  match key with
  | None => None
  | Some k => lookup (toLowerCase k) table
  end.

(** Number literals and integers as numbers. *)
Definition num (q : Q) : Qc := Q2Qc q.
Definition int (z : Z) : Qc := Q2Qc (inject_Z z).

(** [a <= b], [a < b] and [a === b] on numbers. *)
Definition leb (a b : Qc) : bool := Qle_bool a b.
Definition ltb (a b : Qc) : bool := negb (Qle_bool b a).
Definition eqb (a b : Qc) : bool := Qeq_bool a b.

(** [x || d] for a possibly undefined number. *)
Definition or_default (x : option Qc) (d : Qc) : Qc :=
  match x with
  | None => d
  | Some v => if eqb v 0 then d else v
  end.

Definition Math_max (a b : Qc) : Qc := if leb a b then b else a.
Definition Math_min (a b : Qc) : Qc := if leb a b then a else b.
Definition Math_abs (a : Qc) : Qc := if leb 0 a then a else - a.
Definition Math_floor (a : Qc) : Z := Qfloor a.
Definition Math_ceil (a : Qc) : Z := Qceiling a.
(** [Math.round] rounds halves towards plus infinity. *)
Definition Math_round (a : Qc) : Z := Qfloor (a + num 0.5).

(** [Math.round(x * 10) / 10]. *)
Definition round1 (x : Qc) : Qc := int (Math_round (x * num 10)) / num 10.

(** [a % b] on integers: the sign of the dividend; [None] is [NaN]. *)
Definition rem (a b : Z) : option Z :=
  if (b =? 0)%Z then None else Some (Z.rem a b).

(** [arr.slice(start)]. *)
Definition slice_from {A : Type} (start : Z) (l : list A) : list A :=
  let len := Z.of_nat (List.length l) in
  let k := if (start <? 0)%Z then Z.max (len + start) 0 else Z.min start len in
  skipn (Z.to_nat k) l.

(** [arr.slice(0, n)] for a natural [n]. *)
Definition slice_to {A : Type} (n : nat) (l : list A) : list A := firstn n l.

(** [reduce((sum, x) => sum + x, 0)]. *)
Definition sum (l : list Qc) : Qc := fold_left Qcplus l 0.

(** [arr.sort((a, b) => key(b) - key(a))]: descending by [key], and stable
    (ECMAScript 2019): of two entries with equal keys the earlier stays
    first. *)
Fixpoint insert_desc {A : Type} (key : A -> Qc) (x : A) (l : list A) : list A :=
  match l with
  | [] => [x]
  | y :: r => if leb (key y) (key x) then x :: y :: r
              else y :: insert_desc key x r
  end.

Definition sort_desc {A : Type} (key : A -> Qc) (l : list A) : list A :=
  fold_right (insert_desc key) [] l.

(** [arr.indexOf(x)] on strings: [-1] when absent. *)
Fixpoint indexOf (x : string) (l : list string) : Z :=
  match l with
  | [] => -1
  | y :: r => if String.eqb x y then 0%Z
              else let i := indexOf x r in if (i <? 0)%Z then (-1)%Z else (i + 1)%Z
  end.

(** [arr[i]] for an integer [i]: [undefined] outside the array. *)
Definition at_index {A : Type} (l : list A) (i : Z) : option A :=
  if (i <? 0)%Z then None else nth_error l (Z.to_nat i).

(** The integer part of a number, as [new Date(t)] takes it. *)
Definition trunc (a : Qc) : Z := Z.quot (Qnum a) (Zpos (Qden a)).

(** [String.prototype.toUpperCase], on ASCII letters: JavaScript's on the
    strings of [is_ascii] below. *)
Definition upper_ascii (c : ascii) : ascii :=
  let n := nat_of_ascii c in
  if (Nat.leb 97 n && Nat.leb n 122)%bool then ascii_of_nat (n - 32) else c.

Fixpoint toUpperCase (s : string) : string :=
  match s with
  | EmptyString => EmptyString
  | String c r => String (upper_ascii c) (toUpperCase r)
  end.

(** The strings of ASCII characters.  On these [toLowerCase] and
    [toUpperCase] above are JavaScript's; on other characters JavaScript
    follows the Unicode case mappings, which the two functions do not. *)
Definition is_ascii (s : string) : bool :=
  forallb (fun c => Nat.ltb (nat_of_ascii c) 128) (list_ascii_of_string s).

(** The property names that every object literal inherits from
    [Object.prototype] (ECMAScript, with its Annex B).  For such a key
    [table[key]] is not [undefined] but a function or, for [__proto__],
    the prototype object: a truthy value that is no entry of the table. *)
Definition Object_prototype_keys : list string :=
  ["constructor"; "hasOwnProperty"; "isPrototypeOf"; "propertyIsEnumerable";
   "toLocaleString"; "toString"; "valueOf"; "__proto__"; "__defineGetter__";
   "__defineSetter__"; "__lookupGetter__"; "__lookupSetter__"].

Definition inherited (key : string) : bool := mem key Object_prototype_keys.

End JS.

Arguments JS.num q%_Q.

(** ** riskStateMachine.js *)

Module RiskStateMachine.

Inductive state_id : Type :=
| INITIALIZING | MONITORING | LOW_RISK | MEDIUM_RISK | HIGH_RISK
| CRITICAL_RISK | EMERGENCY_MODE | RECOVERY | MAINTENANCE | ERROR.

Record behaviors : Type := Behaviors {
  ui_mode : string;
  monitoring_frequency : Z;
  alert_level : string;
  user_actions : list string;
  data_collection : string;
  notifications : option string;
  auto_actions : option (list string)
}.

(** One entry of [this.states]. *)
Record state : Type := State {
  name : string;
  description : string;
  allowedTransitions : list string;
  state_behaviors : behaviors
}.

Definition state_of (s : state_id) : state :=
  match s with
  | INITIALIZING =>
      State "INITIALIZING" "System starting up and gathering initial data"
        ["MONITORING"; "ERROR"]
        (Behaviors "loading" 0 "none" ["wait"] "basic" None None)
  | MONITORING =>
      State "MONITORING" "Normal operation - monitoring environmental conditions"
        ["LOW_RISK"; "MEDIUM_RISK"; "HIGH_RISK"; "CRITICAL_RISK"; "ERROR"; "MAINTENANCE"]
        (Behaviors "normal" 30000 "info"
           ["view_status"; "manual_assessment"; "settings"] "standard" None None)
  | LOW_RISK =>
      State "LOW_RISK" "Low risk conditions detected"
        ["MONITORING"; "MEDIUM_RISK"; "HIGH_RISK"; "CRITICAL_RISK"; "ERROR"]
        (Behaviors "normal" 60000 "success"
           ["continue_activity"; "view_details"; "manual_check"] "standard"
           (Some "minimal") None)
  | MEDIUM_RISK =>
      State "MEDIUM_RISK" "Medium risk conditions - increased caution required"
        ["LOW_RISK"; "MONITORING"; "HIGH_RISK"; "CRITICAL_RISK"; "ERROR"]
        (Behaviors "caution" 15000 "warning"
           ["review_conditions"; "get_recommendations"; "contact_others"; "prepare_exit"]
           "enhanced" (Some "standard") None)
  | HIGH_RISK =>
      State "HIGH_RISK" "High risk conditions - immediate attention required"
        ["MEDIUM_RISK"; "CRITICAL_RISK"; "EMERGENCY_MODE"; "ERROR"]
        (Behaviors "alert" 5000 "danger"
           ["take_shelter"; "evacuate_area"; "call_emergency"; "follow_plan"]
           "intensive" (Some "urgent") (Some ["send_location"; "log_incident"]))
  | CRITICAL_RISK =>
      State "CRITICAL_RISK" "Critical risk - emergency protocols activated"
        ["EMERGENCY_MODE"; "HIGH_RISK"; "ERROR"]
        (Behaviors "emergency" 2000 "critical"
           ["emergency_evacuation"; "call_911"; "follow_emergency_plan"]
           "maximum" (Some "emergency")
           (Some ["emergency_contacts"; "location_broadcast"; "incident_logging"]))
  | EMERGENCY_MODE =>
      State "EMERGENCY_MODE" "Emergency mode - all safety protocols active"
        ["CRITICAL_RISK"; "HIGH_RISK"; "RECOVERY"; "ERROR"]
        (Behaviors "emergency_full" 1000 "emergency"
           ["follow_emergency_instructions"; "confirm_safety"]
           "emergency" (Some "continuous")
           (Some ["continuous_location"; "emergency_services"; "family_notification"]))
  | RECOVERY =>
      State "RECOVERY" "Recovering from emergency - assessing situation"
        ["MONITORING"; "LOW_RISK"; "MEDIUM_RISK"; "HIGH_RISK"; "ERROR"]
        (Behaviors "recovery" 10000 "info"
           ["assess_damage"; "report_status"; "seek_help"; "return_to_safety"]
           "assessment" (Some "recovery") None)
  | MAINTENANCE =>
      State "MAINTENANCE" "System maintenance mode"
        ["MONITORING"; "ERROR"]
        (Behaviors "maintenance" 0 "info" ["wait"; "contact_support"] "none" None None)
  | ERROR =>
      State "ERROR" "System error - limited functionality"
        ["INITIALIZING"; "MONITORING"; "MAINTENANCE"]
        (Behaviors "error" 0 "error"
           ["restart"; "contact_support"; "manual_mode"] "error_logging" None None)
  end.

Definition all_states : list state_id :=
  [INITIALIZING; MONITORING; LOW_RISK; MEDIUM_RISK; HIGH_RISK;
   CRITICAL_RISK; EMERGENCY_MODE; RECOVERY; MAINTENANCE; ERROR].

(** [this.states[newStateName]]. *)
Definition states (newStateName : string) : option state_id :=
  find (fun s => String.eqb newStateName (name (state_of s))) all_states.

(** The context object of a transition, as key/value pairs; a value is a
    text or a time. *)
Inductive context_value : Type :=
| Text (s : string)
| Instant (t : Z).

Definition context : Type := list (string * context_value).

(** An entry of [this.stateHistory]. *)
Record transition_record : Type := TransitionRecord {
  from : option string;
  to : string;
  timestamp : Z;
  record_context : context
}.

(** The mutable fields of the machine.  [currentState] and
    [previousState] point into the static table [this.states];
    [monitoringTimer] holds the period of the running interval timer.
    [transitionTimer] is never set by the class and is left out, and the
    machine is the one with no behaviour handler and no transition
    listener registered; console output is not part of the state. *)
Record machine : Type := Machine {
  currentState : state_id;
  previousState : option state_id;
  stateHistory : list transition_record;
  maxStateHistory : Z;
  entryTime : Z;
  transitionCount : Z;
  monitoringFrequency : option Z;
  monitoringTimer : option Z
}.

Definition isTransitionAllowed (m : machine) (targetStateName : string) : bool :=
  JS.mem targetStateName (allowedTransitions (state_of (currentState m))).

Definition stopMonitoring (m : machine) : machine :=
  Machine (currentState m) (previousState m) (stateHistory m) (maxStateHistory m)
    (entryTime m) (transitionCount m) (monitoringFrequency m) None.

Definition startMonitoring (m : machine) : machine :=
  let m1 := stopMonitoring m in
  match monitoringFrequency m1 with
  | Some frequency =>
      if (0 <? frequency)%Z then
        Machine (currentState m1) (previousState m1) (stateHistory m1)
          (maxStateHistory m1) (entryTime m1) (transitionCount m1)
          (monitoringFrequency m1) (Some frequency)
      else m1
  | None => m1
  end.

(** [exitState]: [cleanupStateBehaviors] finds no timer and no cleanup
    handler, then the monitoring timer is stopped. *)
Definition exitState (m : machine) : machine := stopMonitoring m.

Definition recordTransition (now : Z) (newState : state_id) (ctx : context)
    (m : machine) : machine :=
  let h := stateHistory m ++
           [TransitionRecord (Some (name (state_of (currentState m))))
              (name (state_of newState)) now ctx] in
  let h' := if (maxStateHistory m <? Z.of_nat (List.length h))%Z
            then JS.slice_from (- maxStateHistory m) h else h in
  Machine (currentState m) (previousState m) h' (maxStateHistory m)
    (entryTime m) (transitionCount m) (monitoringFrequency m) (monitoringTimer m).

(** [enterState]: of [applyStateBehaviors] only [setMonitoringFrequency]
    writes to the machine. *)
Definition enterState (now : Z) (st : state_id) (m : machine) : machine :=
  startMonitoring
    (Machine st (Some (currentState m)) (stateHistory m) (maxStateHistory m)
       now (transitionCount m + 1)
       (Some (monitoring_frequency (state_behaviors (state_of st))))
       (monitoringTimer m)).

(** [executeTransition] cannot throw without handlers: it returns
    [{ success: true }]. *)
Definition executeTransition (now : Z) (newState : state_id) (ctx : context)
    (m : machine) : bool * machine :=
  (true, enterState now newState (recordTransition now newState ctx (exitState m))).

(** The body of [transition] once [this.states[newStateName]] is found. *)
Definition transition_found (now : Z) (newStateName : string) (newState : state_id)
    (ctx : context) (m : machine) : bool * machine :=
  if negb (isTransitionAllowed m newStateName) then (false, m)
  else
    let (success, m') := executeTransition now newState ctx m in
    if success then (true, m') else (false, m').

(** [handleError]: go to ERROR unless already there.  The nested call
    names a state of the table, so it cannot reach the handler again. *)
Definition handleError (now : Z) (message : string) (m : machine) : machine :=
  if negb (String.eqb (name (state_of (currentState m))) "ERROR") then
    snd (transition_found now "ERROR" ERROR
           [("reason", Text "error"); ("error", Text message); ("timestamp", Instant now)]
           m)
  else m.

(** [transition].  For a name that is no key of [this.states] but is
    inherited from [Object.prototype], [this.states[newStateName]] is a
    truthy value, so no [Error] is thrown; [isTransitionAllowed] then
    rejects the name, which is in no [allowedTransitions] list of the
    table, and the method returns [false]. *)
Definition transition (now : Z) (newStateName : string) (ctx : context)
    (m : machine) : bool * machine :=
  match states newStateName with
  | None =>
      if JS.inherited newStateName then (false, m)
      else (false, handleError now ("Invalid state: " ++ newStateName)%string m)
  | Some newState => transition_found now newStateName newState ctx m
  end.

(** The machine right after the constructor has run [initialize]:
    [enterState(INITIALIZING)] on the fresh fields. *)
Definition initial (now : Z) : machine :=
  enterState now INITIALIZING
    (Machine INITIALIZING None [] 50 now 0 None None).

(** *** Risk-driven and manual transitions *)

Record anomaly : Type := Anomaly { severity : string }.

(** The fields of a risk assessment that the machine reads. *)
Record risk_assessment : Type := RiskAssessment {
  risk_level : option string;
  risk_score : option Qc;
  anomalies_detected : option (list anomaly)
}.

Definition determineStateFromRisk (a : risk_assessment) : string :=
  let riskLevel := option_map JS.toUpperCase (risk_level a) in
  let riskScore := JS.or_default (risk_score a) 0 in
  let critical :=
    match anomalies_detected a with
    | Some l =>
        if (0 <? List.length l)%nat then
          let criticalAnomalies :=
            filter (fun x => String.eqb (severity x) "CRITICAL") l in
          (0 <? List.length criticalAnomalies)%nat
        else false
    | None => false
    end in
  if critical then "CRITICAL_RISK"
  else
    match riskLevel with
    | None => "MONITORING"
    | Some l =>
        if String.eqb l "LOW" then "LOW_RISK"
        else if String.eqb l "MEDIUM" then "MEDIUM_RISK"
        else if String.eqb l "HIGH" then
          if JS.leb (JS.num 8) riskScore then "CRITICAL_RISK" else "HIGH_RISK"
        else if String.eqb l "CRITICAL" then "CRITICAL_RISK"
        else "MONITORING"
    end.

(** The machine together with [stateData.lastRiskAssessment]. *)
Record controller : Type := Controller {
  core : machine;
  lastRiskAssessment : option risk_assessment
}.

(** [processRiskAssessment].  [ctx] stands for the context object
    [{ reason: 'risk_assessment', riskAssessment }] that the method hands
    to [transition]. *)
Definition processRiskAssessment (now : Z) (a : risk_assessment) (ctx : context)
    (c : controller) : bool * controller :=
  let targetState := determineStateFromRisk a in
  if negb (String.eqb targetState (name (state_of (currentState (core c))))) then
    let (r, m') := transition now targetState ctx (core c) in
    (r, Controller m' (Some a))
  else (false, Controller (core c) (Some a)).

(** [handleEmergency] and [handleRecovery]; the result of [transition] is
    dropped. *)
Definition handleEmergency (now : Z) (emergencyData : context_value) (m : machine)
    : machine :=
  snd (transition now "EMERGENCY_MODE"
         [("reason", Text "emergency_escalation"); ("emergency_data", emergencyData);
          ("timestamp", Instant now)] m).

Definition handleRecovery (now : Z) (recoveryData : context_value) (m : machine)
    : machine :=
  snd (transition now "RECOVERY"
         [("reason", Text "emergency_recovery"); ("recovery_data", recoveryData);
          ("timestamp", Instant now)] m).

(** [forceTransition]: the [Error] for an unknown name is not caught
    ([inl] is its message).  [ctx] stands for the context
    [{ ...context, forced: true, reason: 'manual_override' }].  For a name
    inherited from [Object.prototype] the guard [!newState] passes and
    [executeTransition] runs on a value that is no state: [enterState]
    makes it the current state before [applyStateBehaviors] throws on its
    missing [behaviors].  The machine is then outside the type [machine],
    whose [currentState] is a state of the table: the result is [None]. *)
Definition forceTransition (now : Z) (stateName : string) (ctx : context)
    (m : machine) : option (string + bool * machine) :=
  match states stateName with
  | None =>
      if JS.inherited stateName then None
      else Some (inl ("Invalid state: " ++ stateName)%string)
  | Some newState => Some (inr (executeTransition now newState ctx m))
  end.

(** A call on the machine, and the machine after a sequence of calls:
    [None] once a call has left the type [machine]. *)
Inductive call : Type :=
| Transition (now : Z) (newStateName : string) (ctx : context)
| ProcessRiskAssessment (now : Z) (a : risk_assessment) (ctx : context)
| HandleEmergency (now : Z) (emergencyData : context_value)
| HandleRecovery (now : Z) (recoveryData : context_value)
| ForceTransition (now : Z) (stateName : string) (ctx : context).

Definition step (c : controller) (k : call) : option controller :=
  match k with
  | Transition now t ctx =>
      Some (Controller (snd (transition now t ctx (core c))) (lastRiskAssessment c))
  | ProcessRiskAssessment now a ctx => Some (snd (processRiskAssessment now a ctx c))
  | HandleEmergency now d =>
      Some (Controller (handleEmergency now d (core c)) (lastRiskAssessment c))
  | HandleRecovery now d =>
      Some (Controller (handleRecovery now d (core c)) (lastRiskAssessment c))
  | ForceTransition now t ctx =>
      match forceTransition now t ctx (core c) with
      | None => None
      | Some (inl _) => Some c
      | Some (inr (_, m')) => Some (Controller m' (lastRiskAssessment c))
      end
  end.

Definition run_from (calls : list call) (start : option controller) : option controller :=
  fold_left (fun oc k => match oc with Some c => step c k | None => None end)
    calls start.

Definition run (calls : list call) (c : controller) : option controller :=
  run_from calls (Some c).



End RiskStateMachine.

(** ** The condition object shared by the classes *)

Module Conditions.

(** [conditions.visibility] is a number or a label. *)
Inductive visibility_value : Type :=
| Number (v : Qc)
| Label (s : string).

(** A missing field is [None] ([undefined]). *)
Record t : Type := Make {
  weather : option string;
  time : option string;
  crowd_density : option string;
  location : option string;
  visibility : option visibility_value;
  temperature_factor : option Qc
}.

(** A key read from the conditions on which [table[key.toLowerCase()]] is
    the lookup of [JS.lookup_lower]: missing, or an ASCII string that,
    lower-cased, names no property inherited from [Object.prototype]. *)
Definition own_key (key : option string) : bool :=
  match key with
  | None => true
  | Some k => (JS.is_ascii k && negb (JS.inherited (JS.toLowerCase k)))%bool
  end.

(** Conditions whose texts are ASCII and whose table keys are own keys. *)
Definition plain (c : t) : bool :=
  (own_key (weather c) && own_key (time c) && own_key (crowd_density c)
   && match location c with Some l => JS.is_ascii l | None => true end
   && match visibility c with Some (Label l) => own_key (Some l) | _ => true end)%bool.

End Conditions.

(** ** adaptiveRiskEngine.js *)

Module AdaptiveRiskEngine.

(** The keys of [this.weights] and of the base scores, in insertion
    order. *)
Inductive factor : Type := Weather | Time | Crowd | Location | Visibility.

Definition factor_name (f : factor) : string :=
  match f with
  | Weather => "weather" | Time => "time" | Crowd => "crowd"
  | Location => "location" | Visibility => "visibility"
  end.

Definition factor_eqb (a b : factor) : bool :=
  String.eqb (factor_name a) (factor_name b).

(** An object with one number per factor. *)
Record per_factor : Type := PerFactor {
  weather : Qc; time : Qc; crowd : Qc; location : Qc; visibility : Qc
}.

Definition get (m : per_factor) (f : factor) : Qc :=
  match f with
  | Weather => weather m | Time => time m | Crowd => crowd m
  | Location => location m | Visibility => visibility m
  end.

Definition set (m : per_factor) (f : factor) (v : Qc) : per_factor :=
  match f with
  | Weather => PerFactor v (time m) (crowd m) (location m) (visibility m)
  | Time => PerFactor (weather m) v (crowd m) (location m) (visibility m)
  | Crowd => PerFactor (weather m) (time m) v (location m) (visibility m)
  | Location => PerFactor (weather m) (time m) (crowd m) v (visibility m)
  | Visibility => PerFactor (weather m) (time m) (crowd m) (location m) v
  end.

Definition keys : list factor := [Weather; Time; Crowd; Location; Visibility].

(** [Object.entries] and [Object.values]. *)
Definition entries (m : per_factor) : list (factor * Qc) :=
  map (fun f => (f, get m f)) keys.
Definition values (m : per_factor) : list Qc := map (get m) keys.

Record thresholds_t : Type := Thresholds {
  low_to_medium : Qc;
  medium_to_high : Qc
}.

Inductive threshold_key : Type := Low_to_medium | Medium_to_high.

Record metrics : Type := Metrics {
  totalPredictions : Z;
  correctPredictions : Z;
  falsePositives : Z;
  falseNegatives : Z;
  accuracy : Qc
}.

Record prediction : Type := Prediction {
  id : string;
  timestamp : Z;
  conditions : Conditions.t;
  base_scores : per_factor;
  weights_used : per_factor;
  weighted_score : Qc;
  risk_level : string;
  thresholds_used : thresholds_t;
  confidence : Qc;
  awaiting_outcome : bool
}.

(** The [actualOutcome] argument of [recordOutcome]. *)
Record actual_outcome : Type := ActualOutcome {
  ao_actual_risk_level : option string;
  ao_incident_occurred : option bool;
  ao_incident_severity : option Qc;
  ao_user_feedback : option string;
  ao_environmental_accuracy : option Qc
}.

(** The [outcome] record built by [recordOutcome]. *)
Record outcome : Type := Outcome {
  prediction_id : string;
  outcome_timestamp : Z;
  actual_risk_level : option string;
  incident_occurred : bool;
  incident_severity : Qc;
  user_feedback : option string;
  environmental_accuracy : Qc
}.

(** An entry of [this.outcomeHistory]:
    [{ ...outcome, prediction, accuracy }]. *)
Record history_entry : Type := HistoryEntry {
  entry_outcome : outcome;
  entry_prediction : prediction;
  entry_accuracy : Qc
}.

Record adaptation : Type := Adaptation {
  adaptation_timestamp : Z;
  old_weights : per_factor;
  new_weights : per_factor;
  weight_adjustments : list (factor * Qc);
  threshold_adjustments : list (threshold_key * Qc);
  outcomes_analyzed : nat;
  trigger_reason : string
}.

(** The fields of an engine.  [recentPredictions] is [undefined] until
    the first prediction is stored. *)
Record engine : Type := Engine {
  weights : per_factor;
  learningRate : Qc;
  adaptationThreshold : Z;
  maxWeightChange : Qc;
  confidenceDecay : Qc;
  outcomeHistory : list history_entry;
  adaptationHistory : list adaptation;
  performanceMetrics : metrics;
  thresholds : thresholds_t;
  recentPredictions : option (list prediction)
}.

(** The constructor. *)
Definition new : engine :=
  Engine (PerFactor (JS.num 0.30) (JS.num 0.20) (JS.num 0.25) (JS.num 0.15) (JS.num 0.10))
    (JS.num 0.05) 5 (JS.num 0.1) (JS.num 0.95) [] [] (Metrics 0 0 0 0 0)
    (Thresholds (JS.num 2.5) (JS.num 4.0)) None.

Definition with_weights (e : engine) (w : per_factor) : engine :=
  Engine w (learningRate e) (adaptationThreshold e) (maxWeightChange e)
    (confidenceDecay e) (outcomeHistory e) (adaptationHistory e)
    (performanceMetrics e) (thresholds e) (recentPredictions e).

Definition with_thresholds (e : engine) (t : thresholds_t) : engine :=
  Engine (weights e) (learningRate e) (adaptationThreshold e) (maxWeightChange e)
    (confidenceDecay e) (outcomeHistory e) (adaptationHistory e)
    (performanceMetrics e) t (recentPredictions e).

Definition with_outcomeHistory (e : engine) (h : list history_entry) : engine :=
  Engine (weights e) (learningRate e) (adaptationThreshold e) (maxWeightChange e)
    (confidenceDecay e) h (adaptationHistory e)
    (performanceMetrics e) (thresholds e) (recentPredictions e).

Definition with_adaptationHistory (e : engine) (h : list adaptation) : engine :=
  Engine (weights e) (learningRate e) (adaptationThreshold e) (maxWeightChange e)
    (confidenceDecay e) (outcomeHistory e) h
    (performanceMetrics e) (thresholds e) (recentPredictions e).

Definition with_performanceMetrics (e : engine) (p : metrics) : engine :=
  Engine (weights e) (learningRate e) (adaptationThreshold e) (maxWeightChange e)
    (confidenceDecay e) (outcomeHistory e) (adaptationHistory e)
    p (thresholds e) (recentPredictions e).

Definition with_recentPredictions (e : engine) (p : option (list prediction)) : engine :=
  Engine (weights e) (learningRate e) (adaptationThreshold e) (maxWeightChange e)
    (confidenceDecay e) (outcomeHistory e) (adaptationHistory e)
    (performanceMetrics e) (thresholds e) p.

(** *** Base scores *)

Definition weatherScores : list (string * Qc) :=
  [("clear", 0); ("sunny", 0); ("cloudy", 1); ("overcast", JS.num 1.5);
   ("light_rain", JS.num 2); ("rainy", JS.num 3); ("heavy_rain", JS.num 4);
   ("thunderstorm", JS.num 5); ("stormy", JS.num 5); ("foggy", JS.num 3);
   ("snow", JS.num 3); ("blizzard", JS.num 5); ("tornado", JS.num 10); ("hurricane", JS.num 10)].

Definition timeScores : list (string * Qc) :=
  [("morning", 0); ("afternoon", 0); ("evening", 1);
   ("night", JS.num 2); ("late_night", JS.num 3); ("dawn", 1)].

Definition crowdScores : list (string * Qc) :=
  [("isolated", JS.num 2); ("light", 0); ("moderate", 1);
   ("heavy", JS.num 2); ("overcrowded", JS.num 4); ("dangerous", JS.num 5)].

Definition visibilityScores : list (string * Qc) :=
  [("excellent", 0); ("good", 0); ("fair", 1);
   ("poor", JS.num 2); ("very_poor", JS.num 3); ("zero", JS.num 4)].

Definition calculateLocationScore (loc : option string) : Qc :=
  match loc with
  | None => 0
  | Some "" => 0
  | Some l =>
      let locationStr := JS.toLowerCase l in
      let has := JS.includes locationStr in
      let score := 0 in
      let score := if (has "construction" || has "industrial")%bool then score + JS.num 2 else score in
      let score := if (has "remote" || has "isolated")%bool then score + 1 else score in
      let score := if (has "water" || has "beach")%bool then score + 1 else score in
      let score := if (has "mountain" || has "cliff")%bool then score + JS.num 2 else score in
      let score := if (has "urban" || has "city")%bool then score + (JS.num 0.5) else score in
      JS.Math_min score (JS.num 5)
  end.

Definition calculateVisibilityScore (v : option Conditions.visibility_value) : Qc :=
  match v with
  | Some (Conditions.Number x) => JS.Math_max 0 ((1 - x) * JS.num 3)
  | Some (Conditions.Label s) =>
      JS.or_default (JS.lookup (JS.toLowerCase s) visibilityScores) 1
  | None => JS.or_default None 1
  end.

Definition calculateBaseScores (c : Conditions.t) : per_factor :=
  PerFactor
    (JS.or_default (JS.lookup_lower (Conditions.weather c) weatherScores) 1)
    (JS.or_default (JS.lookup_lower (Conditions.time c) timeScores) 0)
    (JS.or_default (JS.lookup_lower (Conditions.crowd_density c) crowdScores) 1)
    (calculateLocationScore (Conditions.location c))
    (calculateVisibilityScore (Conditions.visibility c)).

(** *** Weighted score and level *)

Definition applyAdaptiveWeights (e : engine) (baseScores : per_factor) : Qc :=
  let weightedScore :=
    fold_left (fun acc fs =>
                 let weight := JS.or_default (Some (get (weights e) (fst fs))) 0 in
                 acc + snd fs * weight)
              (entries baseScores) 0 in
  JS.round1 weightedScore.

Record level_info : Type := LevelInfo {
  level : string;
  color : string;
  level_description : string
}.

Definition determineAdaptiveRiskLevel (e : engine) (score : Qc) : level_info :=
  if JS.leb (medium_to_high (thresholds e)) score then
    LevelInfo "HIGH" "#dc2626" "High risk conditions detected"
  else if JS.leb (low_to_medium (thresholds e)) score then
    LevelInfo "MEDIUM" "#d97706" "Moderate risk conditions"
  else
    LevelInfo "LOW" "#16a34a" "Low risk conditions".

Definition calculatePredictionConfidence (e : engine) : Qc :=
  if (List.length (outcomeHistory e) <? 3)%nat then JS.num 0.7
  else
    let recentOutcomes := JS.slice_from (-10) (outcomeHistory e) in
    let recentAccuracy :=
      JS.sum (map entry_accuracy recentOutcomes)
      / JS.int (Z.of_nat (List.length recentOutcomes)) in
    let dataVolumeBonus :=
      JS.Math_min (JS.num 0.2)
        (JS.int (Z.of_nat (List.length (outcomeHistory e))) * (JS.num 0.01)) in
    JS.Math_min (JS.num 0.95) (JS.Math_max (JS.num 0.3) (recentAccuracy + dataVolumeBonus)).

(** *** Accuracy of one prediction *)

Definition levelMap : list (string * Qc) := [("LOW", 0); ("MEDIUM", 1); ("HIGH", JS.num 2)].

Definition level_index (l : option string) : Qc :=
  JS.or_default (match l with Some s => JS.lookup s levelMap | None => None end) 1.

Definition same_level (a : string) (b : option string) : bool :=
  match b with Some s => String.eqb a s | None => false end.

Definition calculatePredictionAccuracy (p : prediction) (o : outcome) : Qc :=
  let accuracy := 0 in
  let accuracy :=
    if same_level (risk_level p) (actual_risk_level o) then accuracy + (JS.num 0.6)
    else
      let predictedLevel := level_index (Some (risk_level p)) in
      let actualLevel := level_index (actual_risk_level o) in
      let levelDiff := JS.Math_abs (predictedLevel - actualLevel) in
      accuracy + JS.Math_max 0 ((JS.num 0.6) - levelDiff * (JS.num 0.3)) in
  let predictedIncidentRisk := String.eqb (risk_level p) "HIGH" in
  let actualIncident := incident_occurred o in
  let accuracy :=
    if Bool.eqb predictedIncidentRisk actualIncident then accuracy + (JS.num 0.3)
    else accuracy in
  let accuracy :=
    accuracy + JS.or_default (Some (environmental_accuracy o)) (JS.num 1.0) * JS.num 0.1 in
  JS.Math_min (JS.num 1.0) accuracy.

Definition updatePerformanceMetrics (p : prediction) (o : outcome) (acc : Qc)
    (e : engine) : engine :=
  let m := performanceMetrics e in
  let total := (totalPredictions m + 1)%Z in
  let correct := if JS.leb (JS.num 0.7) acc then (correctPredictions m + 1)%Z
                 else correctPredictions m in
  let high := String.eqb (risk_level p) "HIGH" in
  let fp := if (high && negb (incident_occurred o))%bool
            then (falsePositives m + 1)%Z else falsePositives m in
  let fn := if (negb high && incident_occurred o)%bool
            then (falseNegatives m + 1)%Z else falseNegatives m in
  with_performanceMetrics e
    (Metrics total correct fp fn (JS.int correct / JS.int total)).

Definition shouldTriggerAdaptation (e : engine) : bool :=
  let len := Z.of_nat (List.length (outcomeHistory e)) in
  ((adaptationThreshold e <=? len)%Z &&
   match JS.rem len (adaptationThreshold e) with
   | Some r => (r =? 0)%Z
   | None => false
   end)%bool.


(** *** Adaptation *)

Section Adaptation.

(** [Math.pow], read by [analyzeFactorPerformance] at a real exponent. *)
Variable Math_pow : Qc -> Qc -> Qc.

Definition day_ms : Qc := JS.num 1000 * JS.num 60 * JS.num 60 * JS.num 24.

Definition not_level (l : string) (a : option string) : bool :=
  negb (match a with Some s => String.eqb s l | None => false end).

(** One round of the loop of [analyzeFactorPerformance]; the state is
    [(correctPredictions, totalWeight)]. *)
Definition performance_step (e : engine) (now : Z) (f : factor)
    (acc : Qc * Qc) (h : history_entry) : Qc * Qc :=
  let p := entry_prediction h in
  let factorScore := JS.or_default (Some (get (base_scores p) f)) 0 in
  let age := JS.int (now - outcome_timestamp (entry_outcome h)) / day_ms in
  let recencyWeight := Math_pow (confidenceDecay e) age in
  let totalWeight := snd acc + recencyWeight in
  let actual := actual_risk_level (entry_outcome h) in
  if ((JS.leb (JS.num 2) factorScore && not_level "LOW" actual) ||
      (JS.ltb factorScore (JS.num 2) && negb (not_level "LOW" actual)))%bool
  then (fst acc + recencyWeight, totalWeight)
  else (fst acc, totalWeight).

Definition analyzeFactorPerformance (e : engine) (now : Z) (f : factor)
    (outcomes : list history_entry) : Qc :=
  let '(correctPredictions, totalWeight) :=
    fold_left (performance_step e now f) outcomes (0, 0) in
  if JS.ltb 0 totalWeight then correctPredictions / totalWeight
  else JS.num 0.5.

Definition calculateWeightAdjustment (e : engine) (performance : Qc) : Qc :=
  let targetPerformance := JS.num 0.7 in
  let performanceDiff := performance - targetPerformance in
  JS.Math_max (- maxWeightChange e)
    (JS.Math_min (maxWeightChange e) (performanceDiff * learningRate e)).

(** The first loop of [applyWeightAdjustments]. *)
Definition clamp_weight (w : per_factor) (fa : factor * Qc) : per_factor :=
  set w (fst fa)
    (JS.Math_max (JS.num 0.05) (JS.Math_min (JS.num 0.5) (get w (fst fa) + snd fa))).

(** The second loop: every weight is divided by the total taken before
    the loop. *)
Definition normalize (w : per_factor) : per_factor :=
  let totalWeight := JS.sum (values w) in
  fold_left (fun w' f => set w' f (get w' f / totalWeight)) keys w.

Definition applyWeightAdjustments (adjustments : list (factor * Qc))
    (e : engine) : engine :=
  with_weights e (normalize (fold_left clamp_weight adjustments (weights e))).

Definition calculateThresholdAdjustments (outcomes : list history_entry)
    : list (threshold_key * Qc) :=
  let is_high h := String.eqb (risk_level (entry_prediction h)) "HIGH" in
  let falsePositives :=
    List.length
      (filter (fun h => (is_high h &&
                         not_level "HIGH" (actual_risk_level (entry_outcome h)))%bool)
              outcomes) in
  let highPredictions := List.length (filter is_high outcomes) in
  let falsePositiveRate :=
    if (0 <? highPredictions)%nat
    then JS.int (Z.of_nat falsePositives) / JS.int (Z.of_nat highPredictions)
    else 0 in
  if JS.ltb (JS.num 0.3) falsePositiveRate then
    [(Medium_to_high, JS.num 0.2); (Low_to_medium, JS.num 0.1)]
  else if JS.ltb falsePositiveRate (JS.num 0.1) then
    [(Medium_to_high, - (JS.num 0.1)); (Low_to_medium, - (JS.num 0.05))]
  else [].

Definition clamp_threshold (t : thresholds_t) (ka : threshold_key * Qc) : thresholds_t :=
  let bound x := JS.Math_max (JS.num 1.0) (JS.Math_min (JS.num 6.0) (x + snd ka)) in
  match fst ka with
  | Low_to_medium => Thresholds (bound (low_to_medium t)) (medium_to_high t)
  | Medium_to_high => Thresholds (low_to_medium t) (bound (medium_to_high t))
  end.

Definition applyThresholdAdjustments (adjustments : list (threshold_key * Qc))
    (e : engine) : engine :=
  with_thresholds e (fold_left clamp_threshold adjustments (thresholds e)).

(** [performAdaptation].  Line 378 of the source spells the call
    [this.analyzeFactor Performance(factor, recentOutcomes)], with a
    blank inside the name; it is read as the call of the method
    [analyzeFactorPerformance] declared on line 409. *)
Definition performAdaptation (now : Z) (e : engine) : adaptation * engine :=
  let recentOutcomes :=
    JS.slice_from (- (adaptationThreshold e * 2)) (outcomeHistory e) in
  let weightAdjustments :=
    map (fun f =>
           (f, calculateWeightAdjustment e
                 (analyzeFactorPerformance e now f recentOutcomes)))
        keys in
  let oldWeights := weights e in
  let e1 := applyWeightAdjustments weightAdjustments e in
  let thresholdAdjustments := calculateThresholdAdjustments recentOutcomes in
  let e2 := applyThresholdAdjustments thresholdAdjustments e1 in
  let a := Adaptation now oldWeights (weights e2) weightAdjustments
             thresholdAdjustments (List.length recentOutcomes)
             "scheduled_adaptation" in
  (a, with_adaptationHistory e2 (adaptationHistory e2 ++ [a])).

(** *** Recording an outcome *)

Definition findPrediction (e : engine) (predictionId : string) : option prediction :=
  match recentPredictions e with
  | None => None
  | Some l => find (fun p => String.eqb (id p) predictionId) l
  end.

(** [validateOutcome]: [inl] is the thrown message. *)
Definition validateOutcome (o : actual_outcome) : string + unit :=
  let validRiskLevels := ["LOW"; "MEDIUM"; "HIGH"] in
  match ao_actual_risk_level o with
  | Some l =>
      if JS.mem l validRiskLevels then inr tt
      else inl "Invalid actual_risk_level. Must be LOW, MEDIUM, or HIGH"
  | None => inl "Invalid actual_risk_level. Must be LOW, MEDIUM, or HIGH"
  end.

Inductive record_result : Type :=
| RecordSuccess (outcome_recorded : bool) (result_accuracy : Qc)
    (performance_metrics : metrics) (adaptation_triggered : bool)
    (adaptation_result : option adaptation)
| RecordFailure (error : string) (failure_timestamp : Z).

Definition success (r : record_result) : bool :=
  match r with RecordSuccess _ _ _ _ _ => true | RecordFailure _ _ => false end.

Definition adaptation_triggered_of (r : record_result) : bool :=
  match r with RecordSuccess _ _ _ t _ => t | RecordFailure _ _ => false end.

Definition recordOutcome (now : Z) (predictionId : string) (actualOutcome : actual_outcome)
    (e : engine) : record_result * engine :=
  match findPrediction e predictionId with
  | None =>
      (RecordFailure ("Prediction " ++ predictionId ++ " not found")%string now, e)
  | Some p =>
      match validateOutcome actualOutcome with
      | inl message => (RecordFailure message now, e)
      | inr _ =>
          let o := Outcome predictionId now
                     (ao_actual_risk_level actualOutcome)
                     (match ao_incident_occurred actualOutcome with
                      | Some b => b | None => false end)
                     (JS.or_default (ao_incident_severity actualOutcome) 0)
                     (match ao_user_feedback actualOutcome with
                      | Some "" => None
                      | f => f
                      end)
                     (JS.or_default (ao_environmental_accuracy actualOutcome) (JS.num 1.0)) in
          let acc := calculatePredictionAccuracy p o in
          let e1 := with_outcomeHistory e
                      (outcomeHistory e ++ [HistoryEntry o p acc]) in
          let e2 := updatePerformanceMetrics p o acc e1 in
          if shouldTriggerAdaptation e2 then
            let (a, e3) := performAdaptation now e2 in
            (RecordSuccess true acc (performanceMetrics e3) true (Some a), e3)
          else
            (RecordSuccess true acc (performanceMetrics e2) false None, e2)
      end
  end.

End Adaptation.

(** *** Recommendations and the assessment *)

Definition getFactorRecommendations (f : factor) (score : Qc) : list string :=
  match f with
  | Weather =>
      if JS.leb (JS.num 4) score then ["Severe weather - seek immediate shelter"]
      else if JS.leb (JS.num 2) score then ["Monitor weather conditions closely"]
      else []
  | Crowd =>
      if JS.leb (JS.num 3) score then ["Avoid crowded areas or identify exit routes"]
      else if JS.leb (JS.num 2) score then ["Stay aware in crowded conditions"]
      else []
  | Time =>
      if JS.leb (JS.num 2) score then ["Use additional lighting and stay in populated areas"]
      else []
  | Location =>
      if JS.leb (JS.num 2) score then ["Exercise extra caution in this location type"]
      else []
  | Visibility =>
      if JS.leb (JS.num 2) score then ["Improve visibility with lights or reflective gear"]
      else []
  end.

Definition generateAdaptiveRecommendations (e : engine) (baseScores : per_factor)
    (riskLevel : level_info) : list string :=
  let base :=
    if String.eqb (level riskLevel) "HIGH" then
      ["High risk detected - take immediate precautions"]
    else if String.eqb (level riskLevel) "MEDIUM" then
      ["Moderate risk - stay alert and prepared"]
    else ["Low risk - maintain basic awareness"] in
  let sortedFactors := JS.slice_to 2 (JS.sort_desc snd (entries baseScores)) in
  let specific :=
    flat_map (fun fs => if JS.leb (JS.num 2) (snd fs)
                        then getFactorRecommendations (fst fs) (snd fs) else [])
             sortedFactors in
  let adaptive :=
    if (falseNegatives (performanceMetrics e) <? falsePositives (performanceMetrics e))%Z
    then ["System tends toward caution - verify conditions independently"]
    else [] in
  base ++ specific ++ adaptive.

Definition storePrediction (p : prediction) (e : engine) : engine :=
  let l := match recentPredictions e with Some l => l | None => [] end ++ [p] in
  with_recentPredictions e
    (Some (if (100 <? List.length l)%nat then JS.slice_from (-100) l else l)).

Record assessment : Type := Assessment {
  assessed_prediction_id : string;
  assessed_risk_level : string;
  risk_score : Qc;
  assessed_confidence : Qc;
  assessed_base_scores : per_factor;
  recommendations : list string;
  total_outcomes : nat
}.

(** [assessRiskAdaptive].  [fresh] is the identifier that
    [generatePredictionId] draws from the clock and [Math.random]; an
    empty [outcomeId] is falsy.  Nothing in the body throws on a
    condition object of type [Conditions.t]. *)
Definition assessRiskAdaptive (now : Z) (fresh : string) (c : Conditions.t)
    (outcomeId : option string) (e : engine) : assessment * engine :=
  let baseScores := calculateBaseScores c in
  let weightedScore := applyAdaptiveWeights e baseScores in
  let riskLevel := determineAdaptiveRiskLevel e weightedScore in
  let recs := generateAdaptiveRecommendations e baseScores riskLevel in
  let pid := match outcomeId with
             | Some "" => fresh
             | Some i => i
             | None => fresh
             end in
  let p := Prediction pid now c baseScores (weights e) weightedScore
             (level riskLevel) (thresholds e) (calculatePredictionConfidence e) true in
  let e' := storePrediction p e in
  (Assessment pid (level riskLevel) weightedScore (confidence p) baseScores recs
     (List.length (outcomeHistory e')),
   e').

(** *** Sequences of calls on one engine *)

Section Driver.

Variable Math_pow : Qc -> Qc -> Qc.

(** A call of the public interface, with the clock reading it sees. *)
Inductive call : Type :=
| Assess (now : Z) (fresh : string) (c : Conditions.t) (outcomeId : option string)
| Record (now : Z) (predictionId : string) (actualOutcome : actual_outcome).

(** One call: the result of a [recordOutcome], if it is one, and the
    engine after the call. *)
Definition step (c : call) (e : engine) : option record_result * engine :=
  match c with
  | Assess now fresh cond outcomeId =>
      (None, snd (assessRiskAdaptive now fresh cond outcomeId e))
  | Record now predictionId actualOutcome =>
      let (r, e') := recordOutcome Math_pow now predictionId actualOutcome e in
      (Some r, e')
  end.

(** The results and engines after each call of a sequence, in order. *)
Fixpoint trace (calls : list call) (e : engine) : list (option record_result * engine) :=
  match calls with
  | [] => []
  | c :: rest => let (r, e') := step c e in (r, e') :: trace rest e'
  end.

(** The engine after a sequence of calls. *)
Definition run (calls : list call) (e : engine) : engine :=
  fold_left (fun e c => snd (step c e)) calls e.

End Driver.

End AdaptiveRiskEngine.

(** ** riskBreakdownAnalyzer.js *)

Module RiskBreakdownAnalyzer.

(** What a call reads from [new Date()]: the hour, the day of the week and
    the month of the local time (one reading for the whole call). *)
Record clock : Type := Clock { getHours : Z; getDay : Z; getMonth : Z }.

(** A computation that calls [Math.random]: from the number of calls made
    so far to its result and the number of calls made after it. *)
Definition Rand (A : Type) : Type := nat -> A * nat.

Definition ret {A : Type} (a : A) : Rand A := fun n => (a, n).

Definition bind {A B : Type} (m : Rand A) (k : A -> Rand B) : Rand B :=
  fun n => let (a, n') := m n in k a n'.

Notation "x <- m ;; k" := (bind m (fun x => k))
  (at level 61, m at next level, right associativity).

Record factor_score : Type := FactorScore {
  total_score : Qc;
  sub_scores : list (string * Qc);
  confidence : Qc
}.

Record factor_scores : Type := FactorScores {
  weather : factor_score;
  time : factor_score;
  crowd : factor_score;
  location : factor_score;
  visibility : factor_score
}.

(** [factorScores[factor]]. *)
Definition score_of (fs : factor_scores) (factor : string) : option factor_score :=
  JS.lookup factor
    [("weather", weather fs); ("time", time fs); ("crowd", crowd fs);
     ("location", location fs); ("visibility", visibility fs)].

Record contribution : Type := Contribution {
  raw_score : Qc;
  weight : Qc;
  weighted_score : Qc;
  normalized_contribution : Qc
}.

Record breakdown : Type := Breakdown {
  percentage : Qc;
  breakdown_raw_score : Qc;
  breakdown_weighted_score : Qc;
  breakdown_weight : Qc;
  impact_level : string;
  rank : nat
}.

Record interaction : Type := Interaction {
  factors : string * string;
  interaction_type : string;
  strength : string;
  interaction_description : string;
  impact_multiplier : Qc
}.

(** The [riskAssessment] argument, and [overall_risk] of the result. *)
Record risk : Type := Risk { risk_level : string; risk_score : Qc }.

(** The part of the result that is embedded: the scores, contributions,
    percentages and ranks, interactions and overall risk.  The texts, the
    decision tree, the sub-factor analysis and the chart data are derived
    from these without further reads of the clock or of [Math.random]. *)
Record analysis : Type := Analysis {
  overall_risk : risk;
  result_factor_scores : factor_scores;
  weighted_contributions : list (string * contribution);
  percentage_breakdown : list (string * breakdown);
  factor_interactions : list interaction;
  weights_used : list (string * Qc)
}.

Definition defaultWeights : list (string * Qc) :=
  [("weather", JS.num 0.30); ("time", JS.num 0.20); ("crowd", JS.num 0.25);
   ("location", JS.num 0.15); ("visibility", JS.num 0.10)].

(** *** Helpers that read neither the clock nor [Math.random] *)

Definition intensityMap : list (string * Qc) :=
  [("clear", 0); ("sunny", 0); ("cloudy", 1); ("overcast", JS.num 1.5);
   ("light_rain", JS.num 2); ("rainy", JS.num 3); ("heavy_rain", JS.num 4);
   ("thunderstorm", JS.num 5); ("stormy", JS.num 5); ("foggy", JS.num 3);
   ("snow", JS.num 3); ("blizzard", JS.num 5); ("tornado", JS.num 10);
   ("hurricane", JS.num 10)].

Definition getWeatherIntensity (w : option string) : Qc :=
  JS.or_default (JS.lookup_lower w intensityMap) 1.

Definition getDurationRisk : Qc := 1.

Definition densityMap : list (string * Qc) :=
  [("isolated", 0); ("light", 1); ("moderate", JS.num 2);
   ("heavy", JS.num 3); ("overcrowded", JS.num 4); ("dangerous", JS.num 5)].

Definition getCrowdDensity (c : option string) : Qc :=
  JS.or_default (JS.lookup_lower c densityMap) (JS.num 2).

Definition getLocationInherentRisk (loc : option string) : Qc :=
  match loc with
  | None => 1
  | Some "" => 1
  | Some l =>
      let locationStr := JS.toLowerCase l in
      let has := JS.includes locationStr in
      let risk := 1 in
      let risk := if has "construction" then risk + JS.num 2 else risk in
      let risk := if has "water" then risk + 1 else risk in
      let risk := if has "mountain" then risk + JS.num 1.5 else risk in
      let risk := if has "industrial" then risk + JS.num 2 else risk in
      JS.Math_min risk (JS.num 5)
  end.

Definition visibilityMap : list (string * Qc) :=
  [("excellent", 0); ("good", 1); ("fair", JS.num 2);
   ("poor", JS.num 3); ("very_poor", JS.num 4); ("zero", JS.num 5)].

Definition getCurrentVisibilityConditions (v : option Conditions.visibility_value) : Qc :=
  match v with
  | Some (Conditions.Number x) => (1 - x) * JS.num 4
  | Some (Conditions.Label l) =>
      JS.or_default (JS.lookup (JS.toLowerCase l) visibilityMap) (JS.num 2)
  | None => JS.num 2
  end.

Definition truthy (s : option string) : bool :=
  match s with
  | None => false
  | Some "" => false
  | Some _ => true
  end.

Definition calculateWeatherConfidence (c : Conditions.t) : Qc :=
  if truthy (Conditions.weather c) then JS.num 0.9 else JS.num 0.5.
Definition calculateTimeConfidence (c : Conditions.t) : Qc := JS.num 0.95.
Definition calculateCrowdConfidence (c : Conditions.t) : Qc :=
  if truthy (Conditions.crowd_density c) then JS.num 0.8 else JS.num 0.4.
Definition calculateLocationConfidence (c : Conditions.t) : Qc :=
  if truthy (Conditions.location c) then JS.num 0.85 else JS.num 0.3.
Definition calculateVisibilityConfidence (c : Conditions.t) : Qc :=
  match Conditions.visibility c with
  | Some _ => JS.num 0.8
  | None => JS.num 0.5
  end.

Definition classifyImpactLevel (p : Qc) : string :=
  if JS.leb (JS.num 40) p then "CRITICAL"
  else if JS.leb (JS.num 25) p then "HIGH"
  else if JS.leb (JS.num 15) p then "MEDIUM"
  else if JS.leb (JS.num 5) p then "LOW"
  else "MINIMAL".

Definition determineRiskLevel (score : Qc) : string :=
  if JS.leb (JS.num 4) score then "HIGH"
  else if JS.leb (JS.num 2.5) score then "MEDIUM"
  else "LOW".

(** *** Helpers that read the clock *)

Section Clock.

Variable now : clock.

Definition getHourOfDayRisk : Qc :=
  let hour := getHours now in
  if ((22 <=? hour) || (hour <=? 5))%Z%bool then JS.num 3
  else if ((18 <=? hour) || (hour <=? 7))%Z%bool then JS.num 2
  else 1.

Definition getDayOfWeekRisk : Qc :=
  let day := getDay now in
  if ((day =? 0) || (day =? 6))%Z%bool then JS.num 1.5 else 1.

Definition getSeasonalRisk : Qc :=
  let month := getMonth now in
  if ((11 <=? month) || (month <=? 2))%Z%bool then JS.num 2 else 1.

Definition getLightingConditions : Qc :=
  let hour := getHours now in
  if ((20 <=? hour) || (hour <=? 6))%Z%bool then JS.num 3
  else if ((18 <=? hour) || (hour <=? 8))%Z%bool then JS.num 2
  else 1.

Definition calculateTimeScore (c : Conditions.t) : factor_score :=
  let hourRisk := getHourOfDayRisk in
  let dayRisk := getDayOfWeekRisk in
  let seasonalRisk := getSeasonalRisk in
  let durationRisk := getDurationRisk in
  FactorScore
    (hourRisk * JS.num 0.5 + dayRisk * JS.num 0.2 + seasonalRisk * JS.num 0.2
     + durationRisk * JS.num 0.1)
    [("hour_of_day", hourRisk); ("day_of_week", dayRisk);
     ("seasonal_factor", seasonalRisk); ("duration_factor", durationRisk)]
    (calculateTimeConfidence c).

(** *** Helpers that call [Math.random] *)

Section Random.

(** [random i] is what the [i]-th call of [Math.random()] returns. *)
Variable random : nat -> Qc.

Definition Math_random : Rand Qc := fun n => (random n, S n).

(** The placeholders: [Math.random() * 2 + 1] and, for the crowd
    behaviour, [Math.random() * 3 + 1]. *)
Definition placeholder (scale : Qc) : Rand Qc :=
  r <- Math_random ;; ret (r * scale + 1).

Definition getWeatherStability : Rand Qc := placeholder (JS.num 2).
Definition getForecastTrend : Rand Qc := placeholder (JS.num 2).
Definition getSeasonalAppropriateness : Rand Qc := placeholder (JS.num 2).
Definition getCrowdBehavior : Rand Qc := placeholder (JS.num 3).
Definition getCrowdFlowPattern : Rand Qc := placeholder (JS.num 2).
Definition getCrowdDemographics : Rand Qc := placeholder (JS.num 2).
Definition getLocationAccessibility : Rand Qc := placeholder (JS.num 2).
Definition getInfrastructureQuality : Rand Qc := placeholder (JS.num 2).
Definition getHistoricalIncidentRisk : Rand Qc := placeholder (JS.num 2).
Definition getVisibilityObstacles : Rand Qc := placeholder (JS.num 2).

Definition calculateWeatherScore (c : Conditions.t) : Rand factor_score :=
  let weatherIntensity := getWeatherIntensity (Conditions.weather c) in
  weatherStability <- getWeatherStability ;;
  forecastTrend <- getForecastTrend ;;
  seasonalAppropriate <- getSeasonalAppropriateness ;;
  ret (FactorScore
         (weatherIntensity * JS.num 0.4 + weatherStability * JS.num 0.3
          + forecastTrend * JS.num 0.2 + seasonalAppropriate * JS.num 0.1)
         [("intensity", weatherIntensity); ("stability", weatherStability);
          ("forecast_trend", forecastTrend);
          ("seasonal_appropriateness", seasonalAppropriate)]
         (calculateWeatherConfidence c)).

Definition calculateCrowdScore (c : Conditions.t) : Rand factor_score :=
  let density := getCrowdDensity (Conditions.crowd_density c) in
  behavior <- getCrowdBehavior ;;
  flowPattern <- getCrowdFlowPattern ;;
  demographics <- getCrowdDemographics ;;
  ret (FactorScore
         (density * JS.num 0.4 + behavior * JS.num 0.3 + flowPattern * JS.num 0.2
          + demographics * JS.num 0.1)
         [("density", density); ("behavior", behavior);
          ("flow_pattern", flowPattern); ("demographics", demographics)]
         (calculateCrowdConfidence c)).

Definition calculateLocationScore (c : Conditions.t) : Rand factor_score :=
  let inherentRisk := getLocationInherentRisk (Conditions.location c) in
  accessibility <- getLocationAccessibility ;;
  infrastructure <- getInfrastructureQuality ;;
  historicalRisk <- getHistoricalIncidentRisk ;;
  ret (FactorScore
         (inherentRisk * JS.num 0.4 + accessibility * JS.num 0.2
          + infrastructure * JS.num 0.2 + historicalRisk * JS.num 0.2)
         [("inherent_risk", inherentRisk); ("accessibility", accessibility);
          ("infrastructure", infrastructure);
          ("historical_incidents", historicalRisk)]
         (calculateLocationConfidence c)).

Definition calculateVisibilityScore (c : Conditions.t) : Rand factor_score :=
  let currentConditions := getCurrentVisibilityConditions (Conditions.visibility c) in
  let lighting := getLightingConditions in
  obstacles <- getVisibilityObstacles ;;
  ret (FactorScore
         (currentConditions * JS.num 0.5 + lighting * JS.num 0.3
          + obstacles * JS.num 0.2)
         [("current_conditions", currentConditions); ("lighting", lighting);
          ("obstacles", obstacles)]
         (calculateVisibilityConfidence c)).

(** The five scores, computed in the order of the object literal. *)
Definition calculateFactorScores (c : Conditions.t) : Rand factor_scores :=
  w <- calculateWeatherScore c ;;
  let t := calculateTimeScore c in
  cr <- calculateCrowdScore c ;;
  l <- calculateLocationScore c ;;
  v <- calculateVisibilityScore c ;;
  ret (FactorScores w t cr l v).

End Random.

End Clock.

(** *** Contributions, percentages and ranks *)

Definition calculateWeightedContributions (fs : factor_scores)
    (weights : list (string * Qc)) : list (string * contribution) :=
  map (fun fw =>
         let score :=
           JS.or_default (option_map total_score (score_of fs (fst fw))) 0 in
         (fst fw, Contribution score (snd fw) (score * snd fw) 0))
      weights.

(** The place of [factor] in the sorted entries, counted from 1. *)
Fixpoint rank_in (factor : string) (sorted : list (string * breakdown)) : nat :=
  match sorted with
  | [] => 0
  | (f, _) :: rest => if String.eqb factor f then 1 else S (rank_in factor rest)
  end.

Definition calculatePercentageBreakdown (contributions : list (string * contribution))
    : list (string * breakdown) :=
  let totalWeightedScore := JS.sum (map (fun fc => weighted_score (snd fc)) contributions) in
  let percentageBreakdown :=
    map (fun fc =>
           let c := snd fc in
           let p := if JS.ltb 0 totalWeightedScore
                    then weighted_score c / totalWeightedScore * JS.num 100
                    else 0 in
           (fst fc,
            Breakdown (JS.round1 p) (raw_score c) (weighted_score c) (weight c)
              (classifyImpactLevel p) 0))
        contributions in
  let sortedFactors := JS.sort_desc (fun fb => percentage (snd fb)) percentageBreakdown in
  map (fun fb =>
         let b := snd fb in
         (fst fb,
          Breakdown (percentage b) (breakdown_raw_score b) (breakdown_weighted_score b)
            (breakdown_weight b) (impact_level b) (rank_in (fst fb) sortedFactors)))
      percentageBreakdown.

Definition analyzeFactorInteractions (fs : factor_scores) : list interaction :=
  let weatherScore := JS.or_default (Some (total_score (weather fs))) 0 in
  let visibilityScore := JS.or_default (Some (total_score (visibility fs))) 0 in
  let timeScore := JS.or_default (Some (total_score (time fs))) 0 in
  let crowdScore := JS.or_default (Some (total_score (crowd fs))) 0 in
  let locationScore := JS.or_default (Some (total_score (location fs))) 0 in
  (if (JS.ltb (JS.num 3) weatherScore && JS.ltb (JS.num 2) visibilityScore)%bool
   then [Interaction ("weather", "visibility") "amplifying" "high"
           "Poor weather conditions are significantly reducing visibility"
           (JS.num 1.3)]
   else []) ++
  (if (JS.ltb (JS.num 2) timeScore && JS.ltb (JS.num 3) crowdScore)%bool
   then [Interaction ("time", "crowd") "amplifying" "medium"
           "High crowd density during risky time periods" (JS.num 1.2)]
   else []) ++
  (if (JS.ltb (JS.num 2) locationScore && JS.ltb (JS.num 3) weatherScore)%bool
   then [Interaction ("location", "weather") "amplifying" "high"
           "Hazardous location combined with severe weather" (JS.num 1.4)]
   else []) ++
  (if (JS.ltb (JS.num 3) crowdScore && JS.ltb (JS.num 2) visibilityScore)%bool
   then [Interaction ("crowd", "visibility") "amplifying" "medium"
           "Poor visibility in crowded conditions increases collision risk"
           (JS.num 1.25)]
   else []).

Definition calculateOverallRisk (contributions : list (string * contribution)) : risk :=
  let totalScore := JS.sum (map (fun fc => weighted_score (snd fc)) contributions) in
  Risk (determineRiskLevel totalScore) totalScore.

(** [analyzeRiskBreakdown].  The body throws in two places, both in the
    texts built from the percentages: [reduce] without an initial value on
    no entry at all ([generateSummaryExplanation]), and [topTwoFactors[1][1]]
    on a single entry ([generateKeyInsights]).  The [catch] turns either
    into the failure object, here [inl] of the message. *)
Definition analyzeRiskBreakdown (now : clock) (random : nat -> Qc)
    (c : Conditions.t) (weights : option (list (string * Qc)))
    (riskAssessment : option risk) : Rand (string + analysis) :=
  let activeWeights := match weights with Some w => w | None => defaultWeights end in
  factorScores <- calculateFactorScores now random c ;;
  let weightedContributions := calculateWeightedContributions factorScores activeWeights in
  let percentageBreakdown := calculatePercentageBreakdown weightedContributions in
  let interactions := analyzeFactorInteractions factorScores in
  match percentageBreakdown with
  | [] => ret (inl "Reduce of empty array with no initial value")
  | [_] => ret (inl "Cannot read properties of undefined (reading '1')")
  | _ =>
      ret (inr (Analysis
                  (match riskAssessment with
                   | Some r => r
                   | None => calculateOverallRisk weightedContributions
                   end)
                  factorScores weightedContributions percentageBreakdown
                  interactions activeWeights))
  end.

(** The percentages and the ranks of a result, factor by factor. *)
Definition percentages_and_ranks (r : string + analysis) : option (list (string * Qc * nat)) :=
  match r with
  | inl _ => None
  | inr a => Some (map (fun fb => (fst fb, percentage (snd fb), rank (snd fb)))
                       (percentage_breakdown a))
  end.

End RiskBreakdownAnalyzer.

(** ** The function [assessRisk] (simple risk assessment) *)

Module SimpleRiskAssessment.

(** The fields of the result that the simulation reads; the list of
    preventive steps is left out. *)
Record assessment : Type := Assessment {
  risk_level : string;
  risk_score : Qc;
  factors : list string
}.

Definition assessRisk (location time weather crowdDensity : string) : assessment :=
  let riskScore := 0 in
  let riskFactors := [] in
  let weatherLower := JS.toLowerCase weather in
  let '(riskScore, riskFactors) :=
    if (JS.includes weatherLower "storm" || JS.includes weatherLower "tornado"
        || JS.includes weatherLower "hurricane")%bool
    then (riskScore + JS.num 3, riskFactors ++ ["severe weather"])
    else if (JS.includes weatherLower "rain" || JS.includes weatherLower "snow"
             || JS.includes weatherLower "fog")%bool
    then (riskScore + JS.num 2, riskFactors ++ ["adverse weather"])
    else if (JS.includes weatherLower "cloudy" || JS.includes weatherLower "overcast")%bool
    then (riskScore + 1, riskFactors ++ ["reduced visibility"])
    else (riskScore, riskFactors) in
  let timeLower := JS.toLowerCase time in
  let '(riskScore, riskFactors) :=
    if (JS.includes timeLower "night" || JS.includes timeLower "midnight"
        || JS.includes timeLower "late")%bool
    then (riskScore + JS.num 2, riskFactors ++ ["nighttime conditions"])
    else if (JS.includes timeLower "evening" || JS.includes timeLower "dawn"
             || JS.includes timeLower "dusk")%bool
    then (riskScore + 1, riskFactors ++ ["low light conditions"])
    else (riskScore, riskFactors) in
  let crowdLower := JS.toLowerCase crowdDensity in
  let '(riskScore, riskFactors) :=
    if (JS.includes crowdLower "overcrowded" || JS.includes crowdLower "packed"
        || JS.includes crowdLower "dangerous")%bool
    then (riskScore + JS.num 3, riskFactors ++ ["overcrowding hazard"])
    else if (JS.includes crowdLower "heavy" || JS.includes crowdLower "dense")%bool
    then (riskScore + JS.num 2, riskFactors ++ ["high crowd density"])
    else if (JS.includes crowdLower "isolated" || JS.includes crowdLower "alone"
             || JS.includes crowdLower "remote")%bool
    then (riskScore + 1, riskFactors ++ ["isolation risk"])
    else (riskScore, riskFactors) in
  let locationLower := JS.toLowerCase location in
  let '(riskScore, riskFactors) :=
    if (JS.includes locationLower "construction" || JS.includes locationLower "industrial"
        || JS.includes locationLower "hazardous")%bool
    then (riskScore + JS.num 2, riskFactors ++ ["hazardous area"])
    else if (JS.includes locationLower "remote" || JS.includes locationLower "wilderness"
             || JS.includes locationLower "isolated")%bool
    then (riskScore + 1, riskFactors ++ ["remote location"])
    else if (JS.includes locationLower "water" || JS.includes locationLower "beach"
             || JS.includes locationLower "river")%bool
    then (riskScore + 1, riskFactors ++ ["water proximity"])
    else (riskScore, riskFactors) in
  let riskLevel :=
    if JS.leb (JS.num 5) riskScore then "HIGH"
    else if JS.leb (JS.num 3) riskScore then "MEDIUM"
    else "LOW" in
  Assessment riskLevel riskScore riskFactors.

End SimpleRiskAssessment.

(** ** riskSimulation.js *)

Module RiskSimulation.

Record weather_trend_t : Type := WeatherTrend {
  weather_direction : string;
  weather_rate : Qc;
  volatility : Qc
}.

Record crowd_trend_t : Type := CrowdTrend {
  crowd_direction : string;
  peak_times : list Z;
  base_growth_rate : Qc
}.

Record visibility_trend_t : Type := VisibilityTrend {
  weather_dependent : bool;
  time_dependent : bool;
  base_visibility : Qc
}.

Record temperature_trend_t : Type := TemperatureTrend {
  temperature_direction : string;
  daily_variation : Qc;
  temperature_rate : Qc
}.

(** The [trends] argument: each of its four keys may be missing. *)
Record trends_argument : Type := TrendsArgument {
  given_weather_trend : option weather_trend_t;
  given_crowd_trend : option crowd_trend_t;
  given_visibility_trend : option visibility_trend_t;
  given_temperature_trend : option temperature_trend_t
}.

(** The default value [{}] of the argument. *)
Definition no_trends : trends_argument := TrendsArgument None None None None.

Record trends : Type := Trends {
  weather_trend : weather_trend_t;
  crowd_trend : crowd_trend_t;
  visibility_trend : visibility_trend_t;
  temperature_trend : temperature_trend_t
}.

Definition generateDefaultTrends : trends :=
  Trends (WeatherTrend "stable" (JS.num 0.1) (JS.num 0.2))
         (CrowdTrend "cyclical" [9; 13; 18]%Z (JS.num 0.05))
         (VisibilityTrend true true (JS.num 0.8))
         (TemperatureTrend "stable" (JS.num 10) (JS.num 0.5)).

(** [{ ...defaultTrends, ...trends }]. *)
Definition merge_trends (d : trends) (t : trends_argument) : trends :=
  Trends (match given_weather_trend t with Some x => x | None => weather_trend d end)
         (match given_crowd_trend t with Some x => x | None => crowd_trend d end)
         (match given_visibility_trend t with Some x => x | None => visibility_trend d end)
         (match given_temperature_trend t with Some x => x | None => temperature_trend d end).

Record prediction : Type := Prediction {
  time : Z;
  hours_from_start : Qc;
  conditions : Conditions.t;
  risk_assessment : SimpleRiskAssessment.assessment;
  confidence : Qc
}.

Record risk_change : Type := RiskChange {
  change_time : Z;
  change_from : string;
  change_to : string
}.

Record trend_analysis_t : Type := TrendAnalysis {
  trend_direction : string;
  peak_time : Z;
  peak_level : string;
  peak_score : Qc;
  risk_changes : list risk_change;
  average_score : Qc;
  analysis_volatility : Qc
}.

Record simulation : Type := Simulation {
  start_time : Z;
  hours_ahead : Qc;
  interval_minutes : Qc;
  total_predictions : nat;
  initial_conditions : Conditions.t;
  trends_used : trends;
  predictions : list prediction;
  trend_analysis : trend_analysis_t;
  recommendations : list string
}.

(** What [simulateRiskProgression] returns: the object of the [try] block
    or the object of the [catch] block. *)
Inductive result : Type :=
| Success (s : simulation)
| Failure (error : string) (timestamp : Z).

(** The keys of the returned object literal. *)
Definition keys (r : result) : list string :=
  match r with
  | Success _ =>
      ["success"; "simulation_parameters"; "initial_conditions"; "trends_used";
       "predictions"; "trend_analysis"; "recommendations"]
  | Failure _ _ => ["success"; "error"; "timestamp"]
  end.

Definition success (r : result) : bool :=
  match r with Success _ => true | Failure _ _ => false end.

(** A computation that may throw and may call [Math.random]: from the
    number of calls made so far to the message thrown or the result, and
    the number of calls made after it. *)
Definition Sim (A : Type) : Type := nat -> (string + A) * nat.

Definition ret {A : Type} (a : A) : Sim A := fun n => (inr a, n).

Definition throw {A : Type} (message : string) : Sim A := fun n => (inl message, n).

Definition bind {A B : Type} (m : Sim A) (k : A -> Sim B) : Sim B :=
  fun n => match m n with
           | (inl message, n') => (inl message, n')
           | (inr a, n') => k a n'
           end.

Notation "x <- m ;; k" := (bind m (fun x => k))
  (at level 61, m at next level, right associativity).

(** The message of the [TypeError] for [undefined.toLowerCase()]. *)
Definition no_toLowerCase : string :=
  "Cannot read properties of undefined (reading 'toLowerCase')".

(** The messages of [validateSimulationInputs]. *)
Definition bad_conditions : string := "Initial conditions must be a valid object".
Definition bad_hours : string := "Hours ahead must be between 1 and 48".
Definition bad_interval : string := "Interval minutes must be between 1 and 240".

(** [validateSimulationInputs]: [inl] is the message thrown. *)
Definition validateSimulationInputs (c : option Conditions.t)
    (hoursAhead intervalMinutes : Qc) : string + unit :=
  match c with
  | None => inl bad_conditions
  | Some _ =>
      if (JS.leb hoursAhead 0 || JS.ltb (JS.num 48) hoursAhead)%bool
      then inl bad_hours
      else if (JS.leb intervalMinutes 0 || JS.ltb (JS.num 240) intervalMinutes)%bool
      then inl bad_interval
      else inr tt
  end.

Definition getTimeContext (hour : Z) : string :=
  if ((5 <=? hour) && (hour <? 8))%Z%bool then "dawn"
  else if ((8 <=? hour) && (hour <? 12))%Z%bool then "morning"
  else if ((12 <=? hour) && (hour <? 17))%Z%bool then "afternoon"
  else if ((17 <=? hour) && (hour <? 20))%Z%bool then "evening"
  else if ((20 <=? hour) && (hour <? 24))%Z%bool then "night"
  else "late_night".

Definition weatherImpact : list (string * Qc) :=
  [("clear", JS.num 1.0); ("cloudy", JS.num 0.8); ("rainy", JS.num 0.5);
   ("stormy", JS.num 0.3); ("foggy", JS.num 0.2)].

(** [this.timeFactors[timeContext]?.visibility_factor]. *)
Definition visibility_factor : list (string * Qc) :=
  [("dawn", JS.num 0.6); ("morning", JS.num 1.0); ("afternoon", JS.num 1.0);
   ("evening", JS.num 0.8); ("night", JS.num 0.4); ("late_night", JS.num 0.3)].

Definition calculateVisibility (weather : option string) (timeContext : string)
    (visibilityTrend : visibility_trend_t) : Qc :=
  let visibility := base_visibility visibilityTrend in
  let visibility :=
    visibility * JS.or_default
                   (match weather with Some w => JS.lookup w weatherImpact | None => None end)
                   (JS.num 0.8) in
  let visibility :=
    if time_dependent visibilityTrend then
      visibility * JS.or_default (JS.lookup timeContext visibility_factor) (JS.num 0.8)
    else visibility in
  JS.Math_max (JS.num 0.1) (JS.Math_min (JS.num 1.0) visibility).

Definition simpleRiskAssessment (c : Conditions.t) : SimpleRiskAssessment.assessment :=
  let weatherScores :=
    [("clear", 0); ("cloudy", 1); ("rainy", JS.num 2); ("stormy", JS.num 3);
     ("foggy", JS.num 2)] in
  let crowdScores :=
    [("isolated", 1); ("light", 0); ("moderate", 1); ("heavy", JS.num 2);
     ("overcrowded", JS.num 3)] in
  let timeScores :=
    [("dawn", 1); ("morning", 0); ("afternoon", 0); ("evening", 1);
     ("night", JS.num 2); ("late_night", JS.num 3)] in
  let find o t := match o with Some k => JS.lookup k t | None => None end in
  let score := 0 in
  let score := score + JS.or_default (find (Conditions.weather c) weatherScores) 0 in
  let score := score + JS.or_default (find (Conditions.crowd_density c) crowdScores) 0 in
  let score := score + JS.or_default (find (Conditions.time c) timeScores) 0 in
  let level := if JS.leb (JS.num 5) score then "HIGH"
               else if JS.leb (JS.num 3) score then "MEDIUM" else "LOW" in
  SimpleRiskAssessment.Assessment level score [].

Definition calculateConfidence (hoursElapsed : Qc) : Qc :=
  let baseConfidence := JS.num 0.95 in
  let decayRate := JS.num 0.05 in
  JS.Math_max (JS.num 0.3) (baseConfidence - decayRate * hoursElapsed).

Section Environment.

(** [Date.prototype.getHours] on a time in milliseconds, for the local
    time zone. *)
Variable getHours : Z -> Z.

(** [random i] is what the [i]-th call of [Math.random()] returns. *)
Variable random : nat -> Qc.

(** [Math.sin((hour - 6) * Math.PI / 12)] as a function of the hour. *)
Variable daily_cycle : Z -> Qc.

Variable Math_sqrt : Qc -> Qc.

(** [new Date(t).toLocaleTimeString()]. *)
Variable toLocaleTimeString : Z -> string.

(** Whether the page defines the global function [assessRisk]. *)
Variable assessRisk_defined : bool.

Definition Math_random : Sim Qc := fun n => (inr (random n), S n).

Definition simulateWeatherChange (initialWeather : option string)
    (weatherTrend : weather_trend_t) (hoursElapsed : Qc) : Sim (option string) :=
  let weatherStates := ["clear"; "cloudy"; "rainy"; "stormy"; "foggy"] in
  match initialWeather with
  | None => throw no_toLowerCase
  | Some w =>
      let currentIndex := JS.indexOf (JS.toLowerCase w) weatherStates in
      let changeRate := weather_rate weatherTrend * hoursElapsed in
      r <- Math_random ;;
      let randomFactor := (r - JS.num 0.5) * volatility weatherTrend in
      let newIndex :=
        if String.eqb (weather_direction weatherTrend) "deteriorating" then
          Z.min (Z.of_nat (List.length weatherStates) - 1)
                (currentIndex + JS.Math_floor (changeRate + randomFactor))
        else if String.eqb (weather_direction weatherTrend) "improving" then
          Z.max 0 (currentIndex - JS.Math_floor (changeRate + randomFactor))
        else
          Z.max 0 (Z.min (Z.of_nat (List.length weatherStates) - 1)
                         (currentIndex + JS.Math_floor (randomFactor * JS.num 2))) in
      ret (JS.at_index weatherStates newIndex)
  end.

Definition simulateCrowdChange (initialCrowd : option string)
    (crowdTrend : crowd_trend_t) (currentTime : Z) (hoursElapsed : Qc)
    : Sim (option string) :=
  let crowdLevels := ["isolated"; "light"; "moderate"; "heavy"; "overcrowded"] in
  match initialCrowd with
  | None => throw no_toLowerCase
  | Some c =>
      let found := JS.indexOf (JS.toLowerCase c) crowdLevels in
      let currentIndex := if (found =? 0)%Z then 1%Z else found in
      let currentHour := getHours currentTime in
      let modifier :=
        if String.eqb (crowd_direction crowdTrend) "cyclical" then
          let nearPeak :=
            existsb (fun peakHour => (Z.abs (currentHour - peakHour) <=? 1)%Z)
                    (peak_times crowdTrend) in
          if nearPeak then 1 else - JS.num 0.5
        else if String.eqb (crowd_direction crowdTrend) "increasing" then
          base_growth_rate crowdTrend * hoursElapsed
        else if String.eqb (crowd_direction crowdTrend) "decreasing" then
          - base_growth_rate crowdTrend * hoursElapsed
        else 0 in
      let newIndex :=
        Z.max 0 (Z.min (Z.of_nat (List.length crowdLevels) - 1)
                       (JS.Math_round (JS.int currentIndex + modifier))) in
      ret (JS.at_index crowdLevels newIndex)
  end.

Definition simulateTemperatureChange (tempTrend : temperature_trend_t)
    (currentTime : Z) (hoursElapsed : Qc) : Qc :=
  let hour := getHours currentTime in
  let dailyCycle := daily_cycle hour in
  let baseTemp := JS.num 20 + dailyCycle * daily_variation tempTrend / JS.num 2 in
  let trendAdjustment :=
    if String.eqb (temperature_direction tempTrend) "increasing" then
      temperature_rate tempTrend * hoursElapsed
    else if String.eqb (temperature_direction tempTrend) "decreasing" then
      - temperature_rate tempTrend * hoursElapsed
    else 0 in
  baseTemp + trendAdjustment.

Definition calculateConditionsAtTime (initialConditions : Conditions.t) (t : trends)
    (hoursElapsed : Qc) (currentTime : Z) : Sim Conditions.t :=
  weather <- simulateWeatherChange (Conditions.weather initialConditions)
               (weather_trend t) hoursElapsed ;;
  crowd <- simulateCrowdChange (Conditions.crowd_density initialConditions)
             (crowd_trend t) currentTime hoursElapsed ;;
  let timeContext := getTimeContext (getHours currentTime) in
  let visibility := calculateVisibility weather timeContext (visibility_trend t) in
  let temperature := simulateTemperatureChange (temperature_trend t) currentTime hoursElapsed in
  ret (Conditions.Make weather (Some timeContext) crowd
         (Conditions.location initialConditions)
         (Some (Conditions.Number visibility)) (Some temperature)).

(** [assessRiskAtTime]: the global [assessRisk] when the page has it, which
    throws on an undefined argument, else the fallback. *)
Definition assessRiskAtTime (c : Conditions.t) : Sim SimpleRiskAssessment.assessment :=
  if assessRisk_defined then
    let location := match Conditions.location c with
                    | None => "unknown location"
                    | Some "" => "unknown location"
                    | Some l => l
                    end in
    match Conditions.weather c, Conditions.time c, Conditions.crowd_density c with
    | Some weather, Some time, Some crowd =>
        ret (SimpleRiskAssessment.assessRisk location time weather crowd)
    | _, _, _ => throw no_toLowerCase
    end
  else ret (simpleRiskAssessment c).

(** The body of the loop for the index [i]. *)
Definition predict_at (startTime : Z) (initialConditions : Conditions.t)
    (t : trends) (intervalMinutes : Qc) (i : Z) : Sim prediction :=
  let currentTime :=
    JS.trunc (JS.int startTime + JS.int i * intervalMinutes * JS.num 60000) in
  let timeElapsed := JS.int i * intervalMinutes / JS.num 60 in
  c <- calculateConditionsAtTime initialConditions t timeElapsed currentTime ;;
  riskAssessment <- assessRiskAtTime c ;;
  ret (Prediction currentTime timeElapsed c riskAssessment
         (calculateConfidence timeElapsed)).

(** The loop [for (let i = 0; i <= intervals; i++)], on the list of its
    indices. *)
Fixpoint predict_all (startTime : Z) (initialConditions : Conditions.t)
    (t : trends) (intervalMinutes : Qc) (indices : list Z) : Sim (list prediction) :=
  match indices with
  | [] => ret []
  | i :: rest =>
      p <- predict_at startTime initialConditions t intervalMinutes i ;;
      ps <- predict_all startTime initialConditions t intervalMinutes rest ;;
      ret (p :: ps)
  end.

(** The indices [0, 1, ..., intervals]; none when [intervals] is negative. *)
Definition indices (intervals : Z) : list Z :=
  map Z.of_nat (seq 0 (Z.to_nat (intervals + 1))).

Definition calculateVolatility (scores : list Qc) : Qc :=
  let n := JS.int (Z.of_nat (List.length scores)) in
  let mean := JS.sum scores / n in
  let variance := JS.sum (map (fun s => (s - mean) * (s - mean)) scores) / n in
  Math_sqrt variance.

(** The level changes between neighbours. *)
Fixpoint risk_changes_of (previous : prediction) (rest : list prediction) : list risk_change :=
  match rest with
  | [] => []
  | p :: rest' =>
      let from := SimpleRiskAssessment.risk_level (risk_assessment previous) in
      let to := SimpleRiskAssessment.risk_level (risk_assessment p) in
      (if String.eqb to from then [] else [RiskChange (time p) from to])
      ++ risk_changes_of p rest'
  end.

(** [analyzeTrends]: on no prediction at all [peakTime] is undefined and
    reading [peakTime.time] throws. *)
Definition analyzeTrends (ps : list prediction) : Sim trend_analysis_t :=
  let riskScores := map (fun p => SimpleRiskAssessment.risk_score (risk_assessment p)) ps in
  match ps with
  | [] => throw "Cannot read properties of undefined (reading 'time')"
  | first :: rest =>
      let firstScore := SimpleRiskAssessment.risk_score (risk_assessment first) in
      let lastScore := last riskScores firstScore in
      let trendDirection :=
        if JS.ltb firstScore lastScore then "increasing"
        else if JS.ltb lastScore firstScore then "decreasing"
        else "stable" in
      let maxScore := fold_left JS.Math_max riskScores firstScore in
      let peakTime :=
        match find (fun p => JS.eqb (SimpleRiskAssessment.risk_score (risk_assessment p))
                                     maxScore) ps with
        | Some p => p
        | None => first
        end in
      ret (TrendAnalysis trendDirection (time peakTime)
             (SimpleRiskAssessment.risk_level (risk_assessment peakTime))
             (SimpleRiskAssessment.risk_score (risk_assessment peakTime))
             (risk_changes_of first rest)
             (JS.sum riskScores / JS.int (Z.of_nat (List.length riskScores)))
             (calculateVolatility riskScores))
  end.

Definition generateTimeBasedRecommendations (a : trend_analysis_t) : list string :=
  (if String.eqb (trend_direction a) "increasing" then
     ["Risk levels are expected to increase - prepare for escalating conditions";
      "Consider completing activities earlier than planned"]
   else if String.eqb (trend_direction a) "decreasing" then
     ["Conditions are expected to improve over time";
      "Consider delaying non-essential activities if currently high risk"]
   else []) ++
  (if String.eqb (peak_level a) "HIGH" then
     [("Peak risk expected at " ++ toLocaleTimeString (peak_time a))%string;
      "Plan activities to avoid peak risk periods"]
   else []) ++
  (if JS.ltb (JS.num 1.5) (analysis_volatility a) then
     ["Conditions are highly variable - monitor frequently";
      "Be prepared for rapid changes in risk levels"]
   else []) ++
  (if (3 <? List.length (risk_changes a))%nat then
     ["Multiple risk level changes expected - stay flexible with plans"]
   else []).

(** The [try] block of [simulateRiskProgression]. *)
Definition simulate_body (now : Z) (initialConditions : option Conditions.t)
    (t : trends_argument) (hoursAhead intervalMinutes : Qc) : Sim simulation :=
  match validateSimulationInputs initialConditions hoursAhead intervalMinutes,
        initialConditions with
  | inl message, _ => throw message
  | inr _, None => throw bad_conditions
  | inr _, Some c =>
      let intervals := JS.Math_ceil (hoursAhead * JS.num 60 / intervalMinutes) in
      let startTime := now in
      let simulationTrends := merge_trends generateDefaultTrends t in
      ps <- predict_all startTime c simulationTrends intervalMinutes (indices intervals) ;;
      analysis <- analyzeTrends ps ;;
      ret (Simulation startTime hoursAhead intervalMinutes (List.length ps) c
             simulationTrends ps analysis (generateTimeBasedRecommendations analysis))
  end.

(** [simulateRiskProgression]: the [catch] block turns a thrown message
    into the failure object.  [now] is the reading of the clock. *)
Definition simulateRiskProgression (now : Z) (initialConditions : option Conditions.t)
    (t : trends_argument) (hoursAhead intervalMinutes : Qc) (n : nat) : result * nat :=
  match simulate_body now initialConditions t hoursAhead intervalMinutes n with
  | (inr s, n') => (Success s, n')
  | (inl message, n') => (Failure message now, n')
  end.

End Environment.

End RiskSimulation.

(** ** The accuracy score in the words of the specification *)

Module Specified.

(** The place of a level on the scale LOW, MEDIUM, HIGH. *)
Definition ordinal (l : string) : Z :=
  if String.eqb l "LOW" then 0
  else if String.eqb l "MEDIUM" then 1
  else 2.

(** Modelled on the sentence of the specification, to be compared with
    [AdaptiveRiskEngine.calculatePredictionAccuracy]: 0.6 when the
    predicted level is the actual one, else 0.6 less 0.3 per level of
    distance and not below 0; plus 0.3 when "predicted HIGH" agrees with
    "incident occurred"; plus 0.1 times the multiplier; the total clamped
    to [0, 1]. *)
Definition accuracy (predicted actual : string) (incident_occurred : bool)
    (multiplier : Qc) : Qc :=
  let level_credit :=
    if String.eqb predicted actual then JS.num 0.6
    else JS.Math_max 0
           (JS.num 0.6 - JS.num 0.3 * JS.int (Z.abs (ordinal predicted - ordinal actual))) in
  let incident_credit :=
    if Bool.eqb (String.eqb predicted "HIGH") incident_occurred then JS.num 0.3 else 0 in
  JS.Math_max 0 (JS.Math_min 1 (level_credit + incident_credit + JS.num 0.1 * multiplier)).

End Specified.

(** ** Concrete runs of the engine *)

Module Scenarios.

Import AdaptiveRiskEngine.

(** [Math.pow] at whole non-negative exponents, where it is a rational
    power.  The runs below read the clock at one instant, so every age
    handed to it is 0. *)
Definition Math_pow_whole (b e : Qc) : Qc := Qcpower b (Z.to_nat (Qfloor e)).

Definition prediction_id (i : nat) : string :=
  ("pred_" ++ NilZero.string_of_uint (Nat.to_uint i))%string.

Definition report (actual : string) : actual_outcome :=
  ActualOutcome (Some actual) None None None None.

(** Round [i]: assess [c] under its own identifier, then report that the
    level observed was [actual]. *)
Definition round (c : Conditions.t) (actual : string) (i : nat) : list call :=
  [Assess 0 "" c (Some (prediction_id i));
   Record 0 (prediction_id i) (report actual)].

Definition rounds (c : Conditions.t) (actual : string) (first count : nat) : list call :=
  flat_map (round c actual) (seq first count).

(** A storm at night in a crowd on a building site, with a clear view. *)
Definition storm_clear_view : Conditions.t :=
  Conditions.Make (Some "thunderstorm") (Some "late_night") (Some "overcrowded")
    (Some "construction site") (Some (Conditions.Number (JS.num 0.9))) None.

(** Ten rounds of [storm_clear_view], each observed as HIGH. *)
Definition ten_storms : list call := rounds storm_clear_view "HIGH" 0 10.

(** The worst entry of every table. *)
Definition extreme : Conditions.t :=
  Conditions.Make (Some "tornado") (Some "late_night") (Some "dangerous")
    (Some "construction remote water mountain urban")
    (Some (Conditions.Label "zero")) None.

(** The mildest conditions. *)
Definition calm : Conditions.t :=
  Conditions.Make (Some "sunny") (Some "morning") (Some "light") None
    (Some (Conditions.Number 1)) None.

(** 175 false alarms (35 adaptations, each raising the thresholds), then
    ten calm rounds (the second of their two adaptations lowers them). *)
Definition false_alarms_then_calm : list call :=
  rounds extreme "LOW" 0 175 ++ rounds calm "LOW" 175 10.

(** The conditions assessed after that run. *)
Definition probe : Conditions.t :=
  Conditions.Make (Some "tornado") (Some "late_night") (Some "heavy")
    (Some "remote") (Some (Conditions.Number 1)) None.

(** What the run and the assessment of [probe] after it show: the two
    thresholds, the score and the level, the numbers as fractions. *)
Definition probe_after_false_alarms : Q * Q * Q * string :=
  let e := run Math_pow_whole false_alarms_then_calm new in
  let a := fst (assessRiskAdaptive 0 "" probe None e) in
  (this (low_to_medium (thresholds e)), this (medium_to_high (thresholds e)),
   this (risk_score a), assessed_risk_level a).

(** A calm assessment (level LOW), after which an incident of level HIGH
    is reported. *)
Definition missed_incident : list call :=
  [Assess 0 "" calm (Some "pred_0");
   Record 0 "pred_0" (ActualOutcome (Some "HIGH") (Some true) None None (Some 1))].

(** Noon on a Wednesday in June. *)
Definition noon : RiskBreakdownAnalyzer.clock := RiskBreakdownAnalyzer.Clock 12 3 5.

(** A run of [Math.random] that returns 0 ten times and 0.5 from then on. *)
Definition draws (i : nat) : Qc := if (i <? 10)%nat then 0 else JS.num 0.5.

(** Scenario 2 of the specification. *)
Definition scenario2 : Conditions.t :=
  Conditions.Make (Some "thunderstorm") (Some "late_night") (Some "overcrowded")
    None (Some (Conditions.Number (JS.num 0.2))) None.

(** An environment for the simulation: the hours of universal time, and
    stand-ins for the sine of the daily cycle, the square root and the
    formatted time, which the properties below do not depend on. *)
Definition utc_hours (t : Z) : Z := ((t / 3600000) mod 24)%Z.
Definition flat_cycle (hour : Z) : Qc := 0.
Definition stand_in_sqrt (x : Qc) : Qc := x.
Definition no_format (t : Z) : string := "".

(** [simulateRiskProgression] in that environment, the page defining
    [assessRisk]. *)
Definition simulate :=
  RiskSimulation.simulateRiskProgression utc_hours draws flat_cycle stand_in_sqrt
    no_format true.

(** Two calls of the analyzer in a row, on the same conditions, with the
    default weights and no assessment. *)
Definition two_breakdowns (now : RiskBreakdownAnalyzer.clock) (random : nat -> Qc)
    : RiskBreakdownAnalyzer.Rand
        ((string + RiskBreakdownAnalyzer.analysis)
         * (string + RiskBreakdownAnalyzer.analysis)) :=
  RiskBreakdownAnalyzer.bind
    (RiskBreakdownAnalyzer.analyzeRiskBreakdown now random scenario2 None None)
    (fun r1 =>
       RiskBreakdownAnalyzer.bind
         (RiskBreakdownAnalyzer.analyzeRiskBreakdown now random scenario2 None None)
         (fun r2 => RiskBreakdownAnalyzer.ret (r1, r2))).

End Scenarios.

(** * Properties *)

(** ** The state controller *)

Section StateController.

Import RiskStateMachine.

Lemma states_name (s : state_id) : states (name (state_of s)) = Some s.
Proof. destruct s; reflexivity. Qed.


Lemma mem_false_iff (x : string) (l : list string) :
  JS.mem x l = false <-> ~ In x l.
Proof.
  unfold JS.mem; split.
  - intros H Hin.
    assert (E : existsb (String.eqb x) l = true).
    { apply existsb_exists; exists x; split; [assumption | apply String.eqb_refl]. }
    congruence.
  - intros H; destruct (existsb (String.eqb x) l) eqn:E; [| reflexivity].
    apply existsb_exists in E; destruct E as [y [Hy E]].
    apply String.eqb_eq in E; subst; contradiction.
Qed.

(** C4.  For every machine [m] (whatever its current state) and every
    target name [t] that names a state of the table but is not in the
    [allowedTransitions] of the current state, [transition(t, context)]
    returns [false] and leaves the machine as it was: the current state,
    the previous state, the history, the counters and the monitoring
    profile are all unchanged. *)
Theorem C4_rejected_transition_is_noop
    (now : Z) (m : machine) (t : string) (ctx : context) (target : state_id) :
  states t = Some target ->
  ~ In t (allowedTransitions (state_of (currentState m))) ->
  transition now t ctx m = (false, m).
Proof.
  intros Hvalid Hnot.
  unfold transition; rewrite Hvalid.
  unfold transition_found, isTransitionAllowed.
  apply mem_false_iff in Hnot; rewrite Hnot; reflexivity.
Qed.

Lemma C4_rejected_transition_is_noop_witness :
  transition 0 "EMERGENCY_MODE" [] (initial 0) = (false, initial 0).
Proof.
  apply (C4_rejected_transition_is_noop 0 (initial 0) "EMERGENCY_MODE" [] EMERGENCY_MODE).
  - reflexivity.
  - simpl; intros [H | [H | []]]; discriminate H.
Defined.

End StateController.

(** ** Numbers *)

(** Orders on [Qc] are orders on the underlying fractions, where [lra]
    decides them. *)
Ltac qc_to_q :=
  unfold Qcle, Qclt, Qcminus, Qcdiv, Qcplus, Qcmult, Qcopp, Qcinv,
    JS.num, JS.int, Q2Qc in *;
  cbn [this] in *;
  rewrite ?Qred_correct in *.

Section Numbers.

Lemma leb_true_iff (a b : Qc) : JS.leb a b = true <-> a <= b.
Proof. unfold JS.leb, Qcle; apply Qle_bool_iff. Qed.

Lemma leb_false_iff (a b : Qc) : JS.leb a b = false <-> b < a.
Proof.
  unfold JS.leb, Qclt; split; intros H.
  - apply Qnot_le_lt; intros Hle; apply Qle_bool_iff in Hle; congruence.
  - destruct (Qle_bool a b) eqn:E; [| reflexivity].
    apply Qle_bool_iff in E; exfalso; exact (Qlt_not_le _ _ H E).
Qed.

Lemma ltb_true_iff (a b : Qc) : JS.ltb a b = true <-> a < b.
Proof.
  unfold JS.ltb; rewrite Bool.negb_true_iff; apply (leb_false_iff b a).
Qed.

Lemma ltb_false_iff (a b : Qc) : JS.ltb a b = false <-> b <= a.
Proof.
  unfold JS.ltb; rewrite Bool.negb_false_iff; apply (leb_true_iff b a).
Qed.

Lemma Qc_pos_neq_0 (t : Qc) : 0 < t -> t <> 0.
Proof. intros Ht E; rewrite E in Ht; exact (Qclt_not_eq _ _ Ht eq_refl). Qed.

Lemma Qc_div_lower (l c t : Qc) : 0 < t -> l * t <= c -> l <= c / t.
Proof.
  intros Ht H.
  apply (Qcmult_lt_0_le_reg_r _ _ t Ht).
  replace (c / t * t) with c; [exact H |].
  field; apply Qc_pos_neq_0; exact Ht.
Qed.

Lemma Qc_div_upper (u c t : Qc) : 0 < t -> c <= u * t -> c / t <= u.
Proof.
  intros Ht H.
  apply (Qcmult_lt_0_le_reg_r _ _ t Ht).
  replace (c / t * t) with c; [exact H |].
  field; apply Qc_pos_neq_0; exact Ht.
Qed.

(** [Math.max(lo, Math.min(hi, x))] lies between [lo] and [hi]. *)
Lemma clamp_bounds (lo hi x : Qc) :
  lo <= hi -> lo <= JS.Math_max lo (JS.Math_min hi x) <= hi.
Proof.
  intros Hlh; unfold JS.Math_max, JS.Math_min.
  destruct (JS.leb hi x) eqn:E1.
  - destruct (JS.leb lo hi) eqn:E2.
    + split; [exact Hlh | apply Qcle_refl].
    + apply leb_false_iff in E2; exfalso; exact (Qclt_not_le _ _ E2 Hlh).
  - apply leb_false_iff in E1.
    destruct (JS.leb lo x) eqn:E2.
    + apply leb_true_iff in E2; split; [exact E2 | apply Qclt_le_weak; exact E1].
    + split; [apply Qcle_refl | exact Hlh].
Qed.

End Numbers.

(** ** The adaptive engine *)

Section Engine.

Import AdaptiveRiskEngine.

(** C2 as amended.  [determineAdaptiveRiskLevel] tests [medium_to_high]
    first: a score at or above it is HIGH; a score below it is MEDIUM when
    it is at or above [low_to_medium] and LOW otherwise.  Whenever
    [low_to_medium <= medium_to_high], as for the default thresholds, a
    score below [low_to_medium] is LOW. *)
Theorem C2_level_by_thresholds (e : engine) (s : Qc) :
  (medium_to_high (thresholds e) <= s ->
   level (determineAdaptiveRiskLevel e s) = "HIGH") /\
  (low_to_medium (thresholds e) <= s -> s < medium_to_high (thresholds e) ->
   level (determineAdaptiveRiskLevel e s) = "MEDIUM") /\
  (s < low_to_medium (thresholds e) -> s < medium_to_high (thresholds e) ->
   level (determineAdaptiveRiskLevel e s) = "LOW") /\
  (low_to_medium (thresholds e) <= medium_to_high (thresholds e) ->
   s < low_to_medium (thresholds e) ->
   level (determineAdaptiveRiskLevel e s) = "LOW").
Proof.
  unfold determineAdaptiveRiskLevel.
  repeat split.
  - intros H; apply leb_true_iff in H; rewrite H; reflexivity.
  - intros Hl Hm; apply leb_false_iff in Hm; apply leb_true_iff in Hl.
    rewrite Hm, Hl; reflexivity.
  - intros Hl Hm; apply leb_false_iff in Hm; apply leb_false_iff in Hl.
    rewrite Hm, Hl; reflexivity.
  - intros Hord Hl.
    assert (Hm : s < medium_to_high (thresholds e))
      by (eapply Qclt_le_trans; eassumption).
    apply leb_false_iff in Hm; apply leb_false_iff in Hl.
    rewrite Hm, Hl; reflexivity.
Qed.

Lemma C2_level_by_thresholds_witness :
  level (determineAdaptiveRiskLevel new (JS.num 4.0)) = "HIGH" /\
  level (determineAdaptiveRiskLevel new (JS.num 3.3)) = "MEDIUM" /\
  level (determineAdaptiveRiskLevel new (JS.num 1.2)) = "LOW" /\
  level (determineAdaptiveRiskLevel new (JS.num 2.4)) = "LOW".
Proof.
  destruct (C2_level_by_thresholds new (JS.num 4.0)) as [Hhigh _].
  destruct (C2_level_by_thresholds new (JS.num 3.3)) as [_ [Hmedium _]].
  destruct (C2_level_by_thresholds new (JS.num 1.2)) as [_ [_ [Hlow _]]].
  destruct (C2_level_by_thresholds new (JS.num 2.4)) as [_ [_ [_ Hordered]]].
  split; [| split; [| split]].
  - apply Hhigh; vm_compute; discriminate.
  - apply Hmedium; vm_compute; first [discriminate | reflexivity].
  - apply Hlow; vm_compute; reflexivity.
  - apply Hordered; vm_compute; first [discriminate | reflexivity].
Defined.

Lemma probe_after_false_alarms_eq :
  Scenarios.probe_after_false_alarms = ((119 # 20)%Q, (59 # 10)%Q, (59 # 10)%Q, "HIGH").
Proof. vm_compute; reflexivity. Qed.

Lemma assessed_level_is_determined (now : Z) (fresh : string) (c : Conditions.t)
    (outcomeId : option string) (e : engine) :
  let a := fst (assessRiskAdaptive now fresh c outcomeId e) in
  assessed_risk_level a = level (determineAdaptiveRiskLevel e (risk_score a)).
Proof. reflexivity. Qed.

(** C2 fails as stated.  After 175 false alarms and ten calm rounds on a
    fresh engine the thresholds are [low_to_medium = 5.95] and
    [medium_to_high = 5.9]; the assessment of [probe] then scores 5.9,
    which is below [low_to_medium], and its level is HIGH, not LOW. *)
Lemma C2_score_below_low_to_medium_is_HIGH :
  let e := run Scenarios.Math_pow_whole Scenarios.false_alarms_then_calm new in
  let a := fst (assessRiskAdaptive 0 "" Scenarios.probe None e) in
  low_to_medium (thresholds e) = JS.num 5.95 /\
  medium_to_high (thresholds e) = JS.num 5.9 /\
  risk_score a = JS.num 5.9 /\
  risk_score a < low_to_medium (thresholds e) /\
  level (determineAdaptiveRiskLevel e (risk_score a)) = "HIGH".
Proof.
  cbv zeta.
  pose proof probe_after_false_alarms_eq as H.
  unfold Scenarios.probe_after_false_alarms in H; cbv zeta in H.
  rewrite (assessed_level_is_determined 0 "" Scenarios.probe None) in H.
  cbv zeta in H.
  remember (run Scenarios.Math_pow_whole Scenarios.false_alarms_then_calm new) as e eqn:He.
  clear He.
  remember (risk_score (fst (assessRiskAdaptive 0 "" Scenarios.probe None e))) as s eqn:Hs.
  clear Hs.
  injection H as Hlow Hhigh Hscore Hlevel.
  assert (El : low_to_medium (thresholds e) = JS.num 5.95)
    by (apply Qc_is_canon; rewrite Hlow; reflexivity).
  assert (Eh : medium_to_high (thresholds e) = JS.num 5.9)
    by (apply Qc_is_canon; rewrite Hhigh; reflexivity).
  assert (Es : s = JS.num 5.9)
    by (apply Qc_is_canon; rewrite Hscore; reflexivity).
  split; [exact El |]; split; [exact Eh |]; split; [exact Es |].
  split; [rewrite Es, El; reflexivity | exact Hlevel].
Qed.

(** C5 fails as stated: on conditions [scenario2] a fresh engine reports
    neither HIGH nor CRITICAL, and a score below 5.0. *)
Lemma C5_scenario2_is_not_HIGH :
  let a := fst (assessRiskAdaptive 0 "" Scenarios.scenario2 None new) in
  ~ ((assessed_risk_level a = "HIGH" \/ assessed_risk_level a = "CRITICAL") /\
     JS.num 5.0 <= risk_score a).
Proof.
  cbv zeta; intros [[H | H] _]; vm_compute in H; discriminate H.
Qed.

(** C5 as amended.  On conditions [scenario2] an engine with the default
    weights and thresholds, whatever the clock and the identifier, reports
    level MEDIUM and score 3.3, and recommends both the weather shelter and
    the crowd exit routes. *)
Theorem C5_scenario2_is_MEDIUM (now : Z) (fresh : string) (outcomeId : option string) :
  let a := fst (assessRiskAdaptive now fresh Scenarios.scenario2 outcomeId new) in
  assessed_risk_level a = "MEDIUM" /\
  risk_score a = JS.num 3.3 /\
  risk_score a < JS.num 5.0 /\
  In "Severe weather - seek immediate shelter" (recommendations a) /\
  In "Avoid crowded areas or identify exit routes" (recommendations a).
Proof.
  cbv zeta; unfold assessRiskAdaptive; cbn [fst].
  cbn [assessed_risk_level risk_score recommendations].
  split; [| split; [| split; [| split]]].
  - vm_compute; reflexivity.
  - apply Qc_is_canon; vm_compute; reflexivity.
  - vm_compute; reflexivity.
  - vm_compute; right; left; reflexivity.
  - vm_compute; right; right; left; reflexivity.
Qed.

(** For comparison: the unweighted [assessRisk] rates the same weather,
    time and crowd HIGH, with score 8. *)
Lemma scenario2_under_assessRisk :
  let a := SimpleRiskAssessment.assessRisk "unknown location" "late_night"
             "thunderstorm" "overcrowded" in
  SimpleRiskAssessment.risk_level a = "HIGH" /\
  this (SimpleRiskAssessment.risk_score a) = 8%Q /\
  SimpleRiskAssessment.factors a
  = ["severe weather"; "nighttime conditions"; "overcrowding hazard"].
Proof. vm_compute; split; [| split]; reflexivity. Qed.

(** *** The accuracy of one prediction *)

Lemma or_default_nonzero (x d : Qc) : x <> 0 -> JS.or_default (Some x) d = x.
Proof.
  intros H; unfold JS.or_default, JS.eqb.
  destruct (Qeq_bool _ _) eqn:E; [| reflexivity].
  apply Qeq_bool_iff in E; apply Qc_is_canon in E; contradiction.
Qed.

Lemma max0_of_nonneg (y : Qc) : 0 <= y -> JS.Math_max 0 y = y.
Proof.
  intros H; unfold JS.Math_max.
  apply leb_true_iff in H; rewrite H; reflexivity.
Qed.

Lemma min_nonneg (a b : Qc) : 0 <= a -> 0 <= b -> 0 <= JS.Math_min a b.
Proof. intros Ha Hb; unfold JS.Math_min; destruct (JS.leb a b); assumption. Qed.

Lemma clamp01_of_nonneg (x y : Qc) :
  x = y -> 0 <= y ->
  JS.Math_min (JS.num 1.0) x = JS.Math_max 0 (JS.Math_min 1 y).
Proof.
  intros -> Hy.
  replace (JS.num 1.0) with 1 by (apply Qc_is_canon; reflexivity).
  rewrite max0_of_nonneg; [reflexivity |].
  apply min_nonneg; [vm_compute; discriminate | exact Hy].
Qed.

Ltac closed_qc_eq := apply Qc_is_canon; vm_compute; reflexivity.

(** Both scores are a closed credit plus a tenth of the multiplier [m]. *)
Ltac accuracy_case m :=
  apply clamp01_of_nonneg;
  [ match goal with
    | |- ?c1 + m * ?k = ?c2 + ?k * m =>
        replace c1 with c2 by closed_qc_eq; ring
    end
  | match goal with
    | |- 0 <= ?c2 + ?k * m =>
        let c := fresh "c" in
        let Hc := fresh "Hc" in
        assert (Hc : 0 <= c2) by (vm_compute; discriminate);
        set (c := c2) in *; clearbody c; qc_to_q; lra
    end ].

(** Away from the level LOW the code computes the specified score: when
    the predicted level is the actual one, or both are among MEDIUM and
    HIGH, and the multiplier is positive. *)
Lemma accuracy_as_specified_off_LOW (p : prediction) (o : outcome) (actual : string) :
  actual_risk_level o = Some actual ->
  risk_level p = actual \/
  (In (risk_level p) ["MEDIUM"; "HIGH"] /\ In actual ["MEDIUM"; "HIGH"]) ->
  0 < environmental_accuracy o ->
  calculatePredictionAccuracy p o
  = Specified.accuracy (risk_level p) actual (incident_occurred o)
      (environmental_accuracy o).
Proof.
  intros Ha Hlevels Hm.
  unfold calculatePredictionAccuracy, Specified.accuracy.
  rewrite Ha; cbn [same_level].
  rewrite (or_default_nonzero _ _ (Qc_pos_neq_0 _ Hm)).
  set (m := environmental_accuracy o) in *.
  destruct Hlevels as [Heq | [Hp Hact]].
  - rewrite Heq, String.eqb_refl.
    destruct (Bool.eqb _ _); accuracy_case m.
  - cbn [In] in Hp, Hact.
    destruct Hp as [Hp | [Hp | []]]; destruct Hact as [Hact | [Hact | []]];
      rewrite <- Hp; subst actual;
      destruct (incident_occurred o);
      cbv [String.eqb Ascii.eqb Bool.eqb];
      accuracy_case m.
Qed.

(** C7, the code at the failing input.  A prediction of level LOW whose
    outcome is HIGH with an incident and multiplier 1 is two levels off
    and misses the incident: the specified score is 0.1.  The code scores
    it 0.4 (the fraction 2/5), because [levelMap['LOW'] || 1] reads LOW as
    level 1, the level of MEDIUM. *)
Theorem C7_LOW_prediction_scored_as_MEDIUM :
  map (fun re => match fst re with
                 | Some (RecordSuccess _ acc _ _ _) => Some (this acc)
                 | _ => None
                 end)
      (trace Scenarios.Math_pow_whole Scenarios.missed_incident new)
  = [None; Some (2 # 5)%Q] /\
  this (Specified.accuracy "LOW" "HIGH" true 1) = (1 # 10)%Q /\
  level_index (Some "LOW") = level_index (Some "MEDIUM").
Proof.
  split; [| split].
  - vm_compute; reflexivity.
  - vm_compute; reflexivity.
  - reflexivity.
Qed.

(** C10.  When no stored prediction carries [predictionId],
    [recordOutcome] returns the failure object with the message of the
    lookup and the engine is the one it was given: the outcome history,
    the metrics, the weights and the thresholds are untouched. *)
Theorem C10_unknown_prediction_is_rejected
    (Math_pow : Qc -> Qc -> Qc) (now : Z) (predictionId : string)
    (actualOutcome : actual_outcome) (e : engine) :
  (forall l p, recentPredictions e = Some l -> In p l -> id p <> predictionId) ->
  recordOutcome Math_pow now predictionId actualOutcome e
  = (RecordFailure ("Prediction " ++ predictionId ++ " not found")%string now, e).
Proof.
  intros Habsent.
  unfold recordOutcome.
  assert (E : findPrediction e predictionId = None).
  { unfold findPrediction.
    destruct (recentPredictions e) as [l |] eqn:El; [| reflexivity].
    destruct (find (fun p => String.eqb (id p) predictionId) l) as [p |] eqn:Ef;
      [| reflexivity].
    apply find_some in Ef; destruct Ef as [Hin Heq].
    apply String.eqb_eq in Heq.
    exfalso; exact (Habsent l p eq_refl Hin Heq). }
  rewrite E; reflexivity.
Qed.

Lemma C10_unknown_prediction_is_rejected_witness :
  recordOutcome Scenarios.Math_pow_whole 7 "pred_9" (Scenarios.report "LOW")
    (run Scenarios.Math_pow_whole Scenarios.missed_incident new)
  = (RecordFailure "Prediction pred_9 not found" 7,
     run Scenarios.Math_pow_whole Scenarios.missed_incident new).
Proof.
  apply (C10_unknown_prediction_is_rejected Scenarios.Math_pow_whole 7 "pred_9").
  intros l p Hl Hin.
  vm_compute in Hl; injection Hl as Hl; subst l.
  destruct Hin as [Hp | []]; subst p; vm_compute; discriminate.
Defined.

(** *** When adaptation runs *)




Lemma assessRiskAdaptive_keeps_threshold (now : Z) (fresh : string) (c : Conditions.t)
    (outcomeId : option string) (e : engine) :
  adaptationThreshold (snd (assessRiskAdaptive now fresh c outcomeId e))
  = adaptationThreshold e.
Proof. reflexivity. Qed.



(** On [ten_storms] the fifth and the tenth report, and only they, run an
    adaptation step. *)
Lemma ten_storms_adaptations :
  map (fun re => match fst re with
                 | Some r => Some (adaptation_triggered_of r)
                 | None => None
                 end)
      (trace Scenarios.Math_pow_whole Scenarios.ten_storms new)
  = [None; Some false; None; Some false; None; Some false; None; Some false;
     None; Some true;
     None; Some false; None; Some false; None; Some false; None; Some false;
     None; Some true].
Proof. vm_compute; reflexivity. Qed.

(** *** The weights after an adaptation step *)

(** C1.  The code breaks the bound it sets itself.  The last report of
    [ten_storms] runs an adaptation step (the second of the run):
    [applyWeightAdjustments] clamps every weight to [0.05, 0.5] and then
    divides by their total, and the weight of visibility it leaves lies
    between 0.047 and 0.048, below the bound 0.05. *)
Theorem C1_visibility_weight_below_floor :
  let '(r, e) := last (trace Scenarios.Math_pow_whole Scenarios.ten_storms new)
                      (None, new) in
  match r with Some r => adaptation_triggered_of r | None => false end = true /\
  get (weights e) Visibility < JS.num 0.05 /\
  JS.num 0.047 < get (weights e) Visibility /\
  get (weights e) Visibility < JS.num 0.048.
Proof.
  vm_compute; split; [reflexivity |]; split; [reflexivity |]; split; reflexivity.
Qed.

End Engine.

(** ** The breakdown analyzer *)

Section Analyzer.

Import RiskBreakdownAnalyzer.

(** A call of [calculateFactorScores] makes ten calls of [Math.random], and
    its scores are a function of the ten values. *)
Lemma calculateFactorScores_draws (now : clock) (random : nat -> Qc)
    (c : Conditions.t) (n : nat) :
  calculateFactorScores now random c n
  = (fst (calculateFactorScores now (fun k => random (k + n)%nat) c 0%nat),
     (10 + n)%nat).
Proof. reflexivity. Qed.

Lemma calculateFactorScores_ext (now : clock) (d d' : nat -> Qc) (c : Conditions.t) :
  (forall k, (k < 10)%nat -> d k = d' k) ->
  fst (calculateFactorScores now d c 0%nat) = fst (calculateFactorScores now d' c 0%nat).
Proof.
  intros H.
  cbv [calculateFactorScores calculateWeatherScore calculateCrowdScore
       calculateLocationScore calculateVisibilityScore
       getWeatherStability getForecastTrend getSeasonalAppropriateness
       getCrowdBehavior getCrowdFlowPattern getCrowdDemographics
       getLocationAccessibility getInfrastructureQuality getHistoricalIncidentRisk
       getVisibilityObstacles placeholder Math_random bind ret fst].
  rewrite !H by lia; reflexivity.
Qed.

Lemma analyzeRiskBreakdown_draws (now : clock) (random : nat -> Qc)
    (c : Conditions.t) (weights : option (list (string * Qc)))
    (riskAssessment : option risk) (n : nat) :
  snd (analyzeRiskBreakdown now random c weights riskAssessment n) = (10 + n)%nat.
Proof.
  unfold analyzeRiskBreakdown, bind.
  rewrite calculateFactorScores_draws.
  destruct (calculatePercentageBreakdown _) as [| ? [| ? ?]]; reflexivity.
Qed.

(** C6 as amended.  The percentages and the ranks that
    [analyzeRiskBreakdown] returns are a function of the conditions, the
    weights, the clock reading and the ten values that the call draws from
    [Math.random]: two calls that agree on these return the same
    percentages and ranks, whatever the assessment passed along. *)
Theorem C6_breakdown_determined_by_draws
    (now : clock) (random random' : nat -> Qc) (c : Conditions.t)
    (weights : option (list (string * Qc))) (a a' : option risk) (n n' : nat) :
  (forall k, (k < 10)%nat -> random (k + n)%nat = random' (k + n')%nat) ->
  percentages_and_ranks (fst (analyzeRiskBreakdown now random c weights a n))
  = percentages_and_ranks (fst (analyzeRiskBreakdown now random' c weights a' n')).
Proof.
  intros H.
  unfold analyzeRiskBreakdown, bind.
  rewrite (calculateFactorScores_draws now random c n).
  rewrite (calculateFactorScores_draws now random' c n').
  rewrite (calculateFactorScores_ext now _ (fun k => random' (k + n')%nat) c H).
  destruct (calculatePercentageBreakdown _) as [| ? [| ? ?]]; reflexivity.
Qed.

Lemma C6_breakdown_determined_by_draws_witness :
  percentages_and_ranks
    (fst (analyzeRiskBreakdown Scenarios.noon Scenarios.draws Scenarios.scenario2
            None None 10%nat))
  = percentages_and_ranks
      (fst (analyzeRiskBreakdown Scenarios.noon (fun _ => JS.num 0.5)
              Scenarios.scenario2 None (Some (Risk "MEDIUM" (JS.num 3.3))) 0%nat)).
Proof.
  apply (C6_breakdown_determined_by_draws Scenarios.noon Scenarios.draws
           (fun _ => JS.num 0.5) Scenarios.scenario2 None None
           (Some (Risk "MEDIUM" (JS.num 3.3))) 10 0).
  intros k Hk; unfold Scenarios.draws.
  destruct (Nat.ltb_spec (k + 10) 10) as [Hlt | _]; [lia | reflexivity].
Defined.

(** C6 fails as stated.  Two calls in a row on [scenario2] at noon, with
    the default weights, the first drawing ten times 0 and the second ten
    times 0.5, return different percentages and ranks: for the weather
    41.3 then 40.5, and the time factor is ranked fourth, then fifth. *)
Lemma C6_consecutive_breakdowns_differ :
  let '(r1, r2) := fst (Scenarios.two_breakdowns Scenarios.noon Scenarios.draws 0%nat) in
  option_map (map (fun x : string * Qc * nat => (fst (fst x), this (snd (fst x)), snd x)))
    (percentages_and_ranks r1)
  = Some [("weather", (413 # 10)%Q, 1%nat); ("time", (53 # 5)%Q, 4%nat);
          ("crowd", (291 # 10)%Q, 2%nat); ("location", (79 # 10)%Q, 5%nat);
          ("visibility", (111 # 10)%Q, 3%nat)] /\
  option_map (map (fun x : string * Qc * nat => (fst (fst x), this (snd (fst x)), snd x)))
    (percentages_and_ranks r2)
  = Some [("weather", (81 # 2)%Q, 1%nat); ("time", (42 # 5)%Q, 5%nat);
          ("crowd", (156 # 5)%Q, 2%nat); ("location", (101 # 10)%Q, 3%nat);
          ("visibility", (97 # 10)%Q, 4%nat)] /\
  percentages_and_ranks r1 <> percentages_and_ranks r2.
Proof.
  vm_compute; split; [reflexivity | split; [reflexivity |]].
  intros H; discriminate H.
Qed.

End Analyzer.

(** ** The simulation engine *)

Section Simulation.

Import RiskSimulation.

Variable getHours : Z -> Z.
Variable random : nat -> Qc.
Variable daily_cycle : Z -> Qc.
Variable Math_sqrt : Qc -> Qc.
Variable toLocaleTimeString : Z -> string.
Variable assessRisk_defined : bool.

Local Notation "'simulateRiskProgression'" :=
  (RiskSimulation.simulateRiskProgression getHours random daily_cycle Math_sqrt
     toLocaleTimeString assessRisk_defined) (only parsing).

(** C9 as amended.  A call whose [hoursAhead] is outside (0, 48] or whose
    [intervalMinutes] is outside (0, 240] throws nothing: it returns the
    failure object, whose keys are [success], [error] and [timestamp], with
    the message of the first check of [validateSimulationInputs] that
    fails, and without a call of [Math.random]. *)
Theorem C9_invalid_horizon_returns_failure
    (now : Z) (c : option Conditions.t) (t : trends_argument)
    (hoursAhead intervalMinutes : Qc) (n : nat) :
  hoursAhead <= 0 \/ JS.num 48 < hoursAhead \/
  intervalMinutes <= 0 \/ JS.num 240 < intervalMinutes ->
  exists message : string,
    simulateRiskProgression now c t hoursAhead intervalMinutes n
    = (Failure message now, n) /\
    keys (Failure message now) = ["success"; "error"; "timestamp"] /\
    message =
      match c with
      | None => bad_conditions
      | Some _ =>
          if (JS.leb hoursAhead 0 || JS.ltb (JS.num 48) hoursAhead)%bool
          then bad_hours else bad_interval
      end.
Proof.
  intros Hbad.
  unfold RiskSimulation.simulateRiskProgression, simulate_body,
    validateSimulationInputs.
  destruct c as [c |].
  2:{ eexists; split; [reflexivity | split; reflexivity]. }
  destruct (JS.leb hoursAhead 0 || JS.ltb (JS.num 48) hoursAhead)%bool eqn:Eh.
  { eexists; split; [reflexivity | split; reflexivity]. }
  destruct (JS.leb intervalMinutes 0 || JS.ltb (JS.num 240) intervalMinutes)%bool eqn:Ei.
  { eexists; split; [reflexivity | split; reflexivity]. }
  exfalso.
  apply Bool.orb_false_iff in Eh; destruct Eh as [Eh1 Eh2].
  apply Bool.orb_false_iff in Ei; destruct Ei as [Ei1 Ei2].
  apply leb_false_iff in Eh1; apply ltb_false_iff in Eh2.
  apply leb_false_iff in Ei1; apply ltb_false_iff in Ei2.
  destruct Hbad as [H | [H | [H | H]]].
  - exact (Qclt_not_le _ _ Eh1 H).
  - exact (Qclt_not_le _ _ H Eh2).
  - exact (Qclt_not_le _ _ Ei1 H).
  - exact (Qclt_not_le _ _ H Ei2).
Qed.

(** *** The default horizon *)

Lemma at_index_in_range {A : Type} (l : list A) (i : Z) :
  (0 <= i < Z.of_nat (List.length l))%Z -> exists x, JS.at_index l i = Some x.
Proof.
  intros [H0 H1]; unfold JS.at_index.
  destruct (Z.ltb_spec i 0) as [Hneg | _]; [lia |].
  destruct (nth_error l (Z.to_nat i)) as [x |] eqn:E; [exists x; reflexivity |].
  apply nth_error_None in E; lia.
Qed.

(** Under the default weather trend a defined weather stays defined, at
    the cost of one call of [Math.random]. *)
Lemma simulateWeatherChange_default (w : string) (hoursElapsed : Qc) (n : nat) :
  exists w' : string,
    simulateWeatherChange random (Some w) (weather_trend generateDefaultTrends)
      hoursElapsed n
    = (inr (Some w'), S n).
Proof.
  unfold simulateWeatherChange, bind, Math_random, ret.
  cbn [generateDefaultTrends weather_trend weather_direction String.eqb Ascii.eqb
       Bool.eqb].
  match goal with
  | |- context [JS.at_index ?l ?i] => destruct (at_index_in_range l i) as [w' Hw']
  end.
  { cbn [List.length]; lia. }
  exists w'; rewrite Hw'; reflexivity.
Qed.

Lemma simulateCrowdChange_defined (c : string) (crowdTrend : crowd_trend_t)
    (currentTime : Z) (hoursElapsed : Qc) (n : nat) :
  exists c' : string,
    simulateCrowdChange getHours (Some c) crowdTrend currentTime hoursElapsed n
    = (inr (Some c'), n).
Proof.
  unfold simulateCrowdChange, ret.
  match goal with
  | |- context [JS.at_index ?l ?i] => destruct (at_index_in_range l i) as [c' Hc']
  end.
  { cbn [List.length]; lia. }
  exists c'; rewrite Hc'; reflexivity.
Qed.

Lemma bind_inr {A B : Type} (m : Sim A) (k : A -> Sim B) (n n' : nat) (a : A) :
  m n = (inr a, n') -> bind m k n = k a n'.
Proof. intros H; unfold bind; rewrite H; reflexivity. Qed.

Lemma calculateConditionsAtTime_default (c : Conditions.t) (w cr : string)
    (hoursElapsed : Qc) (currentTime : Z) (n : nat) :
  Conditions.weather c = Some w ->
  Conditions.crowd_density c = Some cr ->
  exists (c' : Conditions.t) (w' t' cr' : string),
    calculateConditionsAtTime getHours random daily_cycle c generateDefaultTrends
      hoursElapsed currentTime n
    = (inr c', S n) /\
    Conditions.weather c' = Some w' /\
    Conditions.time c' = Some t' /\
    Conditions.crowd_density c' = Some cr'.
Proof.
  intros Hw Hc; unfold calculateConditionsAtTime; rewrite Hw, Hc.
  destruct (simulateWeatherChange_default w hoursElapsed n) as [w' Ew].
  destruct (simulateCrowdChange_defined cr (crowd_trend generateDefaultTrends)
              currentTime hoursElapsed (S n)) as [cr' Ec].
  rewrite (bind_inr _ _ _ _ _ Ew), (bind_inr _ _ _ _ _ Ec).
  unfold ret.
  eexists; exists w'; eexists; exists cr'.
  split; [reflexivity |]; repeat split.
Qed.

Lemma assessRiskAtTime_defined (c : Conditions.t) (w t cr : string) (n : nat) :
  Conditions.weather c = Some w ->
  Conditions.time c = Some t ->
  Conditions.crowd_density c = Some cr ->
  exists a, assessRiskAtTime assessRisk_defined c n = (inr a, n).
Proof.
  intros Hw Ht Hc; unfold assessRiskAtTime; rewrite Hw, Ht, Hc.
  destruct assessRisk_defined; eexists; reflexivity.
Qed.

(** One round of the loop under the default trends, on conditions whose
    weather and crowd density are defined: it succeeds after one call of
    [Math.random]. *)
Lemma predict_at_default (startTime : Z) (c : Conditions.t) (w cr : string)
    (intervalMinutes : Qc) (i : Z) (n : nat) :
  Conditions.weather c = Some w ->
  Conditions.crowd_density c = Some cr ->
  exists p : prediction,
    predict_at getHours random daily_cycle assessRisk_defined startTime c
      generateDefaultTrends intervalMinutes i n
    = (inr p, S n) /\
    hours_from_start p = JS.int i * intervalMinutes / JS.num 60 /\
    confidence p = calculateConfidence (JS.int i * intervalMinutes / JS.num 60).
Proof.
  intros Hw Hc.
  unfold predict_at.
  set (elapsed := JS.int i * intervalMinutes / JS.num 60).
  set (currentTime := JS.trunc _).
  destruct (calculateConditionsAtTime_default c w cr elapsed currentTime n Hw Hc)
    as [c' [w' [t' [cr' [Ec [Hw' [Ht' Hc']]]]]]].
  destruct (assessRiskAtTime_defined c' w' t' cr' (S n) Hw' Ht' Hc') as [a Ea].
  rewrite (bind_inr _ _ _ _ _ Ec), (bind_inr _ _ _ _ _ Ea).
  unfold ret; eexists; split; [reflexivity | split; reflexivity].
Qed.

Lemma predict_all_default (startTime : Z) (c : Conditions.t) (w cr : string)
    (intervalMinutes : Qc) (l : list Z) (n : nat) :
  Conditions.weather c = Some w ->
  Conditions.crowd_density c = Some cr ->
  exists ps : list prediction,
    predict_all getHours random daily_cycle assessRisk_defined startTime c
      generateDefaultTrends intervalMinutes l n
    = (inr ps, (List.length l + n)%nat) /\
    map hours_from_start ps
    = map (fun i => JS.int i * intervalMinutes / JS.num 60) l /\
    map confidence ps
    = map (fun i => calculateConfidence (JS.int i * intervalMinutes / JS.num 60)) l.
Proof.
  intros Hw Hc; revert n; induction l as [| i rest IH]; intros n.
  - exists []; repeat split.
  - destruct (predict_at_default startTime c w cr intervalMinutes i n Hw Hc)
      as [p [Ep [Hh Hconf]]].
    destruct (IH (S n)) as [ps [Eps [Hhs Hconfs]]].
    exists (p :: ps); split; [| split].
    + cbn [predict_all].
      rewrite (bind_inr _ _ _ _ _ Ep), (bind_inr _ _ _ _ _ Eps); unfold ret.
      cbn [List.length]; f_equal; lia.
    + cbn [map]; rewrite Hh, Hhs; reflexivity.
    + cbn [map]; rewrite Hconf, Hconfs; reflexivity.
Qed.

Lemma analyzeTrends_nonempty (p : prediction) (ps : list prediction) (n : nat) :
  exists a : trend_analysis_t, analyzeTrends Math_sqrt (p :: ps) n = (inr a, n).
Proof. eexists; reflexivity. Qed.


End Simulation.

Lemma C9_invalid_horizon_returns_failure_witness :
  exists message : string,
    Scenarios.simulate 1000 (Some Scenarios.calm) RiskSimulation.no_trends
      (JS.num 49) (JS.num 30) 0%nat
    = (RiskSimulation.Failure message 1000, 0%nat) /\
    RiskSimulation.keys (RiskSimulation.Failure message 1000)
    = ["success"; "error"; "timestamp"] /\
    message = RiskSimulation.bad_hours.
Proof.
  apply (C9_invalid_horizon_returns_failure Scenarios.utc_hours Scenarios.draws
           Scenarios.flat_cycle Scenarios.stand_in_sqrt Scenarios.no_format true
           1000 (Some Scenarios.calm) RiskSimulation.no_trends (JS.num 49) (JS.num 30) 0).
  right; left; vm_compute; reflexivity.
Defined.

(** C9 fails as stated: the failure object returned for [hoursAhead = 0]
    has no key [fallback]. *)
Lemma C9_failure_object_has_no_fallback :
  let r := fst (Scenarios.simulate 1000 (Some Scenarios.calm) RiskSimulation.no_trends
                  0 (JS.num 30) 0%nat) in
  r = RiskSimulation.Failure "Hours ahead must be between 1 and 48" 1000 /\
  ~ In "fallback" (RiskSimulation.keys r).
Proof.
  cbv zeta; split; [vm_compute; reflexivity |].
  vm_compute; intros [H | [H | [H | []]]]; discriminate H.
Qed.



(** * Further properties *)

(** ** The state controller: executed, rejected and forced transitions *)

Section StateControllerCalls.

Import RiskStateMachine.

Lemma mem_true_iff (x : string) (l : list string) : JS.mem x l = true <-> In x l.
Proof.
  unfold JS.mem; rewrite existsb_exists; split.
  - intros [y [Hy E]]; apply String.eqb_eq in E; subst; exact Hy.
  - intros H; exists x; split; [exact H | apply String.eqb_refl].
Qed.






Lemma inherited_name_is_never_allowed (m : machine) (t : string) :
  JS.inherited t = true -> isTransitionAllowed m t = false /\ states t = None.
Proof.
  intros H; unfold JS.inherited, JS.Object_prototype_keys in H.
  apply mem_true_iff in H; cbn [In] in H.
  unfold isTransitionAllowed.
  repeat (destruct H as [<- | H]; [destruct (currentState m); split; reflexivity |]).
  destruct H.
Qed.



(** X3.  No state allows a transition to itself: [transition] to the name
    of the current state returns [false] and changes nothing. *)
Theorem transition_to_current_state_is_rejected (now : Z) (m : machine) (ctx : context) :
  transition now (name (state_of (currentState m))) ctx m = (false, m).
Proof.
  unfold transition; rewrite states_name.
  unfold transition_found, isTransitionAllowed.
  destruct (currentState m); reflexivity.
Qed.

(** X4.  [handleEmergency] moves the machine to EMERGENCY_MODE from
    HIGH_RISK and from CRITICAL_RISK and does nothing in any other state;
    [handleRecovery] moves it to RECOVERY from EMERGENCY_MODE and does
    nothing in any other state. *)
Theorem emergency_and_recovery_by_state
    (now : Z) (d : context_value) (m : machine) :
  handleEmergency now d m
  = match currentState m with
    | HIGH_RISK | CRITICAL_RISK =>
        snd (executeTransition now EMERGENCY_MODE
               [("reason", Text "emergency_escalation"); ("emergency_data", d);
                ("timestamp", Instant now)] m)
    | _ => m
    end /\
  handleRecovery now d m
  = match currentState m with
    | EMERGENCY_MODE =>
        snd (executeTransition now RECOVERY
               [("reason", Text "emergency_recovery"); ("recovery_data", d);
                ("timestamp", Instant now)] m)
    | _ => m
    end.
Proof.
  unfold handleEmergency, handleRecovery, transition, transition_found,
    isTransitionAllowed.
  destruct (currentState m); split; reflexivity.
Qed.


(** X5.  [determineStateFromRisk] always answers with one of the five
    names LOW_RISK, MEDIUM_RISK, HIGH_RISK, CRITICAL_RISK and MONITORING,
    each a key of [this.states], whatever the assessment holds. *)
Theorem determineStateFromRisk_names_a_state (a : risk_assessment) :
  In (determineStateFromRisk a)
     ["LOW_RISK"; "MEDIUM_RISK"; "HIGH_RISK"; "CRITICAL_RISK"; "MONITORING"] /\
  exists s : state_id, states (determineStateFromRisk a) = Some s.
Proof.
  unfold determineStateFromRisk.
  repeat match goal with
         | |- context [if ?b then _ else _] => destruct b
         | |- context [match ?o with Some _ => _ | None => _ end] => destruct o
         end;
    (split; [cbn; tauto | eexists; reflexivity]).
Qed.



(** *** Invariants along sequences of calls *)









End StateControllerCalls.

(** ** The adaptive engine: scores, outcomes, storage and runs *)
Section EngineScores.

Import AdaptiveRiskEngine.

Lemma or_default_zero (x : Qc) : JS.or_default (Some x) 0 = x.
Proof.
  unfold JS.or_default, JS.eqb.
  destruct (Qeq_bool _ _) eqn:E; [| reflexivity].
  apply Qeq_bool_iff in E; symmetry; apply Qc_is_canon; exact E.
Qed.

Lemma or_default_lookup_bounds (key : option string) (table : list (string * Qc))
    (d lo hi : Qc) :
  Forall (fun kv => lo <= JS.or_default (Some (snd kv)) d <= hi) table ->
  lo <= d <= hi ->
  lo <= JS.or_default (JS.lookup_lower key table) d <= hi.
Proof.
  intros Ht Hd; destruct key as [k |]; [| exact Hd]; cbn [JS.lookup_lower].
  induction Ht as [| [k' v] r Hv _ IH]; [exact Hd |].
  cbn [JS.lookup]; destruct (String.eqb _ k'); [exact Hv | exact IH].
Qed.

Ltac table_bounds :=
  repeat (constructor; [split; vm_compute; discriminate |]); constructor.

Lemma calculateLocationScore_bounds (loc : option string) :
  0 <= calculateLocationScore loc <= JS.num 5.
Proof.
  assert (H0 : 0 <= (0 : Qc) <= JS.num 5) by (split; vm_compute; discriminate).
  destruct loc as [[| a s] |]; [exact H0 | | exact H0].
  unfold calculateLocationScore.
  repeat match goal with
         | |- context [if (?a || ?b)%bool then _ else _] => destruct (a || b)%bool
         end;
    split; vm_compute; discriminate.
Qed.

Lemma calculateVisibilityScore_bounds (v : option Conditions.visibility_value) :
  0 <= calculateVisibilityScore v /\
  match v with
  | Some (Conditions.Number x) => True
  | _ => 1 <= calculateVisibilityScore v <= JS.num 4
  end.
Proof.
  destruct v as [[x | s] |]; cbn [calculateVisibilityScore].
  - split; [| exact I].
    unfold JS.Math_max; destruct (JS.leb 0 _) eqn:E;
      [apply leb_true_iff in E; exact E | vm_compute; discriminate].
  - assert (H : 1 <= JS.or_default (JS.lookup_lower (Some s) visibilityScores) 1
                <= JS.num 4).
    { apply or_default_lookup_bounds; [table_bounds | split; vm_compute; discriminate]. }
    cbn [JS.lookup_lower] in H; split; [| exact H].
    destruct H as [H _]; revert H; generalize (JS.or_default (JS.lookup (JS.toLowerCase s) visibilityScores) 1).
    intros q H; qc_to_q; lra.
  - split; [| split]; vm_compute; discriminate.
Qed.

(** X9.  The base scores of conditions whose texts are ASCII and whose
    table keys are not inherited from [Object.prototype]: the weather and
    crowd scores are never below 1, because a table entry of 0 ("clear",
    "sunny", "light") is replaced by the default 1 of [||]; likewise a
    labelled or missing visibility scores between 1 and 4, while a numeric
    one scores [max(0, (1 - v) * 3)]. *)
Theorem base_scores_ranges (c : Conditions.t) :
  Conditions.plain c = true ->
  let b := calculateBaseScores c in
  1 <= weather b <= JS.num 10 /\
  0 <= time b <= JS.num 3 /\
  1 <= crowd b <= JS.num 5 /\
  0 <= location b <= JS.num 5 /\
  0 <= visibility b /\
  match Conditions.visibility c with
  | Some (Conditions.Number x) => visibility b = JS.Math_max 0 ((1 - x) * JS.num 3)
  | _ => 1 <= visibility b <= JS.num 4
  end.
Proof.
  intros _.
  cbv zeta; unfold calculateBaseScores; cbn [weather time crowd location visibility].
  split; [apply or_default_lookup_bounds; [table_bounds | split; vm_compute; discriminate] |].
  split; [apply or_default_lookup_bounds; [table_bounds | split; vm_compute; discriminate] |].
  split; [apply or_default_lookup_bounds; [table_bounds | split; vm_compute; discriminate] |].
  split; [apply calculateLocationScore_bounds |].
  destruct (calculateVisibilityScore_bounds (Conditions.visibility c)) as [H0 H1].
  split; [exact H0 |].
  destruct (Conditions.visibility c) as [[x | s] |]; [reflexivity | exact H1 | exact H1].
Qed.

Lemma base_scores_ranges_witness :
  let b := calculateBaseScores Scenarios.storm_clear_view in
  1 <= weather b <= JS.num 10 /\
  0 <= time b <= JS.num 3 /\
  1 <= crowd b <= JS.num 5 /\
  0 <= location b <= JS.num 5 /\
  0 <= visibility b /\
  visibility b = JS.Math_max 0 ((1 - JS.num 0.9) * JS.num 3).
Proof.
  apply (base_scores_ranges Scenarios.storm_clear_view); reflexivity.
Defined.

Lemma applyAdaptiveWeights_eq (e : engine) (b : per_factor) :
  applyAdaptiveWeights e b
  = JS.round1 (0 + weather b * weather (weights e) + time b * time (weights e)
               + crowd b * crowd (weights e) + location b * location (weights e)
               + visibility b * visibility (weights e)).
Proof.
  unfold applyAdaptiveWeights, entries, keys; cbn [map fold_left fst snd get].
  rewrite !or_default_zero; reflexivity.
Qed.

Lemma round1_monotone (x y : Qc) : x <= y -> JS.round1 x <= JS.round1 y.
Proof.
  intros H; unfold JS.round1, JS.Math_round.
  assert (Hf : (Qfloor (x * JS.num 10 + JS.num 0.5) <= Qfloor (y * JS.num 10 + JS.num 0.5))%Z).
  { apply Qfloor_resp_le. qc_to_q. lra. }
  assert (Ht : / JS.num 10 = JS.num 0.1) by (apply Qc_is_canon; vm_compute; reflexivity).
  unfold Qcdiv; rewrite Ht; clear Ht.
  rewrite Zle_Qle in Hf.
  qc_to_q; lra.
Qed.

(** X10.  With non-negative weights the weighted score is monotone in
    the base scores: raising any factor's score never lowers the result. *)
Theorem applyAdaptiveWeights_monotone (e : engine) (b b' : per_factor) :
  (forall f, 0 <= get (weights e) f) ->
  (forall f, get b f <= get b' f) ->
  applyAdaptiveWeights e b <= applyAdaptiveWeights e b'.
Proof.
  intros Hw Hb; rewrite !applyAdaptiveWeights_eq; apply round1_monotone.
  pose proof (Hw Weather); pose proof (Hw Time); pose proof (Hw Crowd);
    pose proof (Hw Location); pose proof (Hw Visibility).
  pose proof (Hb Weather); pose proof (Hb Time); pose proof (Hb Crowd);
    pose proof (Hb Location); pose proof (Hb Visibility).
  cbn [get] in *.
  destruct (weights e) as [w1 w2 w3 w4 w5], b as [b1 b2 b3 b4 b5],
    b' as [c1 c2 c3 c4 c5]; cbn [weather time crowd location visibility] in *.
  qc_to_q; nra.
Qed.

Lemma applyAdaptiveWeights_monotone_witness :
  applyAdaptiveWeights new (calculateBaseScores Scenarios.calm)
  <= applyAdaptiveWeights new (calculateBaseScores Scenarios.extreme).
Proof.
  apply (applyAdaptiveWeights_monotone new (calculateBaseScores Scenarios.calm)
           (calculateBaseScores Scenarios.extreme)).
  - intros []; vm_compute; discriminate.
  - intros []; vm_compute; discriminate.
Defined.

(** X11.  With the constructor's weights no conditions whose texts are
    ASCII and whose table keys are not inherited from [Object.prototype]
    score below 0.6: the weather and crowd scores are at least 1 each, so
    the weighted sum is at least 0.55, which rounds to 0.6. *)
Theorem default_weights_score_floor (e : engine) (c : Conditions.t) :
  weights e = weights new ->
  Conditions.plain c = true ->
  JS.num 0.6 <= applyAdaptiveWeights e (calculateBaseScores c).
Proof.
  intros Hw _; rewrite applyAdaptiveWeights_eq, Hw.
  replace (JS.num 0.6) with (JS.round1 (JS.num 0.55))
    by (apply Qc_is_canon; vm_compute; reflexivity).
  apply round1_monotone.
  unfold calculateBaseScores; cbn [weather time crowd location visibility new weights].
  assert (H1 : 1 <= JS.or_default (JS.lookup_lower (Conditions.weather c) weatherScores) 1
               <= JS.num 10)
    by (apply or_default_lookup_bounds; [table_bounds | split; vm_compute; discriminate]).
  assert (H2 : 0 <= JS.or_default (JS.lookup_lower (Conditions.time c) timeScores) 0
               <= JS.num 3)
    by (apply or_default_lookup_bounds; [table_bounds | split; vm_compute; discriminate]).
  assert (H3 : 1 <= JS.or_default (JS.lookup_lower (Conditions.crowd_density c) crowdScores) 1
               <= JS.num 5)
    by (apply or_default_lookup_bounds; [table_bounds | split; vm_compute; discriminate]).
  pose proof (calculateLocationScore_bounds (Conditions.location c)) as H4.
  destruct (calculateVisibilityScore_bounds (Conditions.visibility c)) as [H5 _].
  revert H1 H2 H3 H4 H5.
  generalize (JS.or_default (JS.lookup_lower (Conditions.weather c) weatherScores) 1),
    (JS.or_default (JS.lookup_lower (Conditions.time c) timeScores) 0),
    (JS.or_default (JS.lookup_lower (Conditions.crowd_density c) crowdScores) 1),
    (calculateLocationScore (Conditions.location c)),
    (calculateVisibilityScore (Conditions.visibility c)).
  intros q1 q2 q3 q4 q5 H1 H2 H3 H4 H5.
  qc_to_q; lra.
Qed.

Lemma default_weights_score_floor_witness :
  JS.num 0.6 <= applyAdaptiveWeights new (calculateBaseScores Scenarios.calm).
Proof.
  apply (default_weights_score_floor new Scenarios.calm); reflexivity.
Defined.

End EngineScores.

Section EngineOutcomes.

Import AdaptiveRiskEngine.

Variable Math_pow : Qc -> Qc -> Qc.

Lemma level_part (p a : string) :
  In p ["LOW"; "MEDIUM"; "HIGH"] -> In a ["LOW"; "MEDIUM"; "HIGH"] ->
  (if same_level p (Some a) then 0 + JS.num 0.6
   else 0 + JS.Math_max 0
              (JS.num 0.6
               - JS.Math_abs (level_index (Some p) - level_index (Some a)) * JS.num 0.3))
  = if Bool.eqb (String.eqb p "HIGH") (String.eqb a "HIGH")
    then JS.num 0.6 else JS.num 0.3.
Proof.
  intros Hp Ha; cbn [In] in Hp, Ha.
  destruct Hp as [<- | [<- | [<- | []]]]; destruct Ha as [<- | [<- | [<- | []]]];
    apply Qc_is_canon; vm_compute; reflexivity.
Qed.

(** X12.  For levels among LOW, MEDIUM and HIGH the accuracy of a
    prediction depends on the two levels only through whether each is
    HIGH: 0.6 when both or neither are (so LOW against MEDIUM counts as a
    full match), 0.3 otherwise; plus 0.3 when a HIGH prediction coincides
    with an incident, plus a tenth of the environmental accuracy, capped
    at 1. *)
Theorem accuracy_depends_on_HIGH_only (p : prediction) (o : outcome) (actual : string) :
  In (risk_level p) ["LOW"; "MEDIUM"; "HIGH"] ->
  actual_risk_level o = Some actual ->
  In actual ["LOW"; "MEDIUM"; "HIGH"] ->
  environmental_accuracy o <> 0 ->
  calculatePredictionAccuracy p o
  = JS.Math_min (JS.num 1.0)
      ((if Bool.eqb (String.eqb (risk_level p) "HIGH") (String.eqb actual "HIGH")
        then JS.num 0.6 else JS.num 0.3)
       + (if Bool.eqb (String.eqb (risk_level p) "HIGH") (incident_occurred o)
          then JS.num 0.3 else 0)
       + environmental_accuracy o * JS.num 0.1).
Proof.
  intros Hp Ha Hin Henv; unfold calculatePredictionAccuracy.
  rewrite Ha, (level_part _ _ Hp Hin), (or_default_nonzero _ _ Henv).
  f_equal.
  destruct (Bool.eqb (String.eqb (risk_level p) "HIGH") (incident_occurred o));
    [reflexivity | ring].
Qed.

Lemma accuracy_depends_on_HIGH_only_witness :
  let p := Prediction "pred_0" 0 Scenarios.calm (calculateBaseScores Scenarios.calm)
             (weights new) (JS.num 0.6) "LOW" (thresholds new) (JS.num 0.7) true in
  let o := Outcome "pred_0" 0 (Some "MEDIUM") false 0 None 1 in
  calculatePredictionAccuracy p o
  = JS.Math_min (JS.num 1.0) (JS.num 0.6 + JS.num 0.3 + 1 * JS.num 0.1).
Proof.
  cbv zeta.
  apply (accuracy_depends_on_HIGH_only
           (Prediction "pred_0" 0 Scenarios.calm (calculateBaseScores Scenarios.calm)
              (weights new) (JS.num 0.6) "LOW" (thresholds new) (JS.num 0.7) true)
           (Outcome "pred_0" 0 (Some "MEDIUM") false 0 None 1) "MEDIUM").
  - cbn; tauto.
  - reflexivity.
  - cbn; tauto.
  - vm_compute; discriminate.
Defined.

(** *** What [recordOutcome] changes *)

Lemma performAdaptation_frame (now : Z) (e : engine) :
  let e' := snd (performAdaptation Math_pow now e) in
  recentPredictions e' = recentPredictions e /\
  performanceMetrics e' = performanceMetrics e /\
  outcomeHistory e' = outcomeHistory e /\
  learningRate e' = learningRate e /\
  maxWeightChange e' = maxWeightChange e /\
  confidenceDecay e' = confidenceDecay e /\
  adaptationThreshold e' = adaptationThreshold e /\
  adaptationHistory e' = adaptationHistory e ++ [fst (performAdaptation Math_pow now e)].
Proof.
  cbv zeta; unfold performAdaptation; cbn.
  split; [reflexivity |]. split; [reflexivity |]. split; [reflexivity |].
  split; [reflexivity |]. split; [reflexivity |]. split; [reflexivity |].
  split; reflexivity.
Qed.

(** The outcome record that [recordOutcome] builds. *)
Lemma recordOutcome_found (now : Z) (predictionId : string) (ao : actual_outcome)
    (e : engine) (p : prediction) (l : string) :
  findPrediction e predictionId = Some p ->
  ao_actual_risk_level ao = Some l ->
  JS.mem l ["LOW"; "MEDIUM"; "HIGH"] = true ->
  exists (o : outcome) (acc : Qc),
    let e2 := updatePerformanceMetrics p o acc
                (with_outcomeHistory e (outcomeHistory e ++ [HistoryEntry o p acc])) in
    actual_risk_level o = Some l /\
    acc = calculatePredictionAccuracy p o /\
    recordOutcome Math_pow now predictionId ao e
    = if shouldTriggerAdaptation e2
      then (RecordSuccess true acc (performanceMetrics e2) true
              (Some (fst (performAdaptation Math_pow now e2))),
            snd (performAdaptation Math_pow now e2))
      else (RecordSuccess true acc (performanceMetrics e2) false None, e2).
Proof.
  intros Hf Hl Hm; unfold recordOutcome, validateOutcome; rewrite Hf, Hl, Hm.
  set (o := Outcome predictionId now (Some l)
              (match ao_incident_occurred ao with Some b => b | None => false end)
              (JS.or_default (ao_incident_severity ao) 0)
              (match ao_user_feedback ao with Some "" => None | f => f end)
              (JS.or_default (ao_environmental_accuracy ao) (JS.num 1.0))).
  exists o, (calculatePredictionAccuracy p o); cbv zeta.
  split; [reflexivity |]; split; [reflexivity |].
  - match goal with |- context [shouldTriggerAdaptation ?e2] =>
      destruct (shouldTriggerAdaptation e2) end; [| reflexivity].
    match goal with |- context [performAdaptation Math_pow now ?e2] =>
      destruct (performAdaptation Math_pow now e2) as [a e3] eqn:Ea end.
    cbn [fst snd].
    pose proof (performAdaptation_frame now) as Hfr; cbv zeta in Hfr.
    match type of Ea with performAdaptation _ _ ?e2 = _ =>
      destruct (Hfr e2) as [_ [Hpm _]]; rewrite Ea in Hpm; cbn [snd] in Hpm end.
    rewrite Hpm; reflexivity.
Qed.

Lemma recordOutcome_found_effects (now : Z) (predictionId : string)
    (ao : actual_outcome) (e : engine) (p : prediction) (l : string) :
  findPrediction e predictionId = Some p ->
  ao_actual_risk_level ao = Some l ->
  JS.mem l ["LOW"; "MEDIUM"; "HIGH"] = true ->
  success (fst (recordOutcome Math_pow now predictionId ao e)) = true /\
  List.length (outcomeHistory (snd (recordOutcome Math_pow now predictionId ao e)))
  = S (List.length (outcomeHistory e)) /\
  recentPredictions (snd (recordOutcome Math_pow now predictionId ao e))
  = recentPredictions e.
Proof.
  intros Hf Hl Hm.
  destruct (recordOutcome_found now predictionId ao e p l Hf Hl Hm)
    as [o [acc [_ [_ Hr]]]]; cbv zeta in Hr; rewrite Hr; clear Hr.
  match goal with |- context [shouldTriggerAdaptation ?x] => set (e2 := x) end.
  destruct (shouldTriggerAdaptation e2); cbn [fst snd success].
  - pose proof (performAdaptation_frame now e2) as Hfr; cbv zeta in Hfr.
    destruct Hfr as [Hrp [_ [Hoh _]]]; rewrite Hrp, Hoh.
    split; [reflexivity |]; split; [| reflexivity].
    unfold e2; cbn; rewrite length_app; cbn; lia.
  - split; [reflexivity |]; split; [| reflexivity].
    unfold e2; cbn; rewrite length_app; cbn; lia.
Qed.

Lemma recordOutcome_success_inv (now : Z) (predictionId : string)
    (ao : actual_outcome) (e : engine) :
  success (fst (recordOutcome Math_pow now predictionId ao e)) = true ->
  exists (p : prediction) (l : string),
    findPrediction e predictionId = Some p /\
    ao_actual_risk_level ao = Some l /\
    JS.mem l ["LOW"; "MEDIUM"; "HIGH"] = true.
Proof.
  unfold recordOutcome, validateOutcome.
  destruct (findPrediction e predictionId) as [p |]; [| intros H; discriminate H].
  destruct (ao_actual_risk_level ao) as [l |]; [| intros H; discriminate H].
  destruct (JS.mem l ["LOW"; "MEDIUM"; "HIGH"]) eqn:Hm; [| intros H; discriminate H].
  intros _; exists p, l; split; [reflexivity |]; split; [reflexivity | exact Hm].
Qed.

(** X13.  [recordOutcome] succeeds exactly when the prediction is found
    and [actual_risk_level] is LOW, MEDIUM or HIGH.  A failed call leaves
    the engine as it was; a successful one appends one entry to the
    outcome history and keeps the stored predictions. *)
Theorem recordOutcome_accepts_exactly (now : Z) (predictionId : string)
    (ao : actual_outcome) (e : engine) :
  let r := fst (recordOutcome Math_pow now predictionId ao e) in
  let e' := snd (recordOutcome Math_pow now predictionId ao e) in
  success r
  = match findPrediction e predictionId, ao_actual_risk_level ao with
    | Some _, Some l => JS.mem l ["LOW"; "MEDIUM"; "HIGH"]
    | _, _ => false
    end /\
  if success r
  then List.length (outcomeHistory e') = S (List.length (outcomeHistory e)) /\
       recentPredictions e' = recentPredictions e
  else e' = e.
Proof.
  cbv zeta.
  destruct (findPrediction e predictionId) as [p |] eqn:Hf;
    [| unfold recordOutcome; rewrite Hf; cbn; split; reflexivity].
  destruct (ao_actual_risk_level ao) as [l |] eqn:Hl;
    [| unfold recordOutcome, validateOutcome; rewrite Hf, Hl; cbn; split; reflexivity].
  destruct (JS.mem l ["LOW"; "MEDIUM"; "HIGH"]) eqn:Hm;
    [| unfold recordOutcome, validateOutcome; rewrite Hf, Hl, Hm; cbn; split; reflexivity].
  destruct (recordOutcome_found_effects now predictionId ao e p l Hf Hl Hm)
    as [Hs [Hlen Hrp]].
  rewrite Hs; split; [reflexivity |]; split; [exact Hlen | exact Hrp].
Qed.

(** X14.  A prediction stays stored after its outcome is recorded, so a
    second report for the same identifier is accepted as well and is
    appended to the history like the first. *)
Theorem same_prediction_can_be_reported_twice
    (now now' : Z) (predictionId : string) (ao ao' : actual_outcome) (e : engine) :
  success (fst (recordOutcome Math_pow now predictionId ao e)) = true ->
  validateOutcome ao' = inr tt ->
  let e1 := snd (recordOutcome Math_pow now predictionId ao e) in
  let e2 := snd (recordOutcome Math_pow now' predictionId ao' e1) in
  success (fst (recordOutcome Math_pow now' predictionId ao' e1)) = true /\
  List.length (outcomeHistory e2) = S (S (List.length (outcomeHistory e))) /\
  findPrediction e2 predictionId = findPrediction e predictionId.
Proof.
  intros H1 Hv; cbv zeta.
  destruct (recordOutcome_success_inv now predictionId ao e H1) as [p [l [Hf [Hl Hm]]]].
  destruct (recordOutcome_found_effects now predictionId ao e p l Hf Hl Hm)
    as [_ [Hlen1 Hrp1]].
  set (e1 := snd (recordOutcome Math_pow now predictionId ao e)) in *.
  assert (Hf1 : findPrediction e1 predictionId = Some p)
    by (unfold findPrediction in *; rewrite Hrp1; exact Hf).
  assert (Hvalid : exists l', ao_actual_risk_level ao' = Some l' /\
                              JS.mem l' ["LOW"; "MEDIUM"; "HIGH"] = true).
  { unfold validateOutcome in Hv.
    destruct (ao_actual_risk_level ao') as [l' |]; [| discriminate Hv].
    exists l'; split; [reflexivity |].
    destruct (JS.mem l' _); [reflexivity | discriminate Hv]. }
  destruct Hvalid as [l' [Hl' Hm']].
  destruct (recordOutcome_found_effects now' predictionId ao' e1 p l' Hf1 Hl' Hm')
    as [Hs2 [Hlen2 Hrp2]].
  split; [exact Hs2 |]; split; [rewrite Hlen2, Hlen1; reflexivity |].
  unfold findPrediction in *; rewrite Hrp2, Hf1, Hf; reflexivity.
Qed.

End EngineOutcomes.

Lemma same_prediction_can_be_reported_twice_witness :
  let e := snd (AdaptiveRiskEngine.assessRiskAdaptive 0 "" Scenarios.calm (Some "pred_0")
                  AdaptiveRiskEngine.new) in
  let e1 := snd (AdaptiveRiskEngine.recordOutcome Scenarios.Math_pow_whole 1 "pred_0"
                   (Scenarios.report "LOW") e) in
  let e2 := snd (AdaptiveRiskEngine.recordOutcome Scenarios.Math_pow_whole 2 "pred_0"
                   (Scenarios.report "HIGH") e1) in
  AdaptiveRiskEngine.success
    (fst (AdaptiveRiskEngine.recordOutcome Scenarios.Math_pow_whole 2 "pred_0"
            (Scenarios.report "HIGH") e1)) = true /\
  List.length (AdaptiveRiskEngine.outcomeHistory e2)
  = S (S (List.length (AdaptiveRiskEngine.outcomeHistory e))) /\
  AdaptiveRiskEngine.findPrediction e2 "pred_0"
  = AdaptiveRiskEngine.findPrediction e "pred_0".
Proof.
  apply (same_prediction_can_be_reported_twice Scenarios.Math_pow_whole 1 2 "pred_0"
           (Scenarios.report "LOW") (Scenarios.report "HIGH")
           (snd (AdaptiveRiskEngine.assessRiskAdaptive 0 "" Scenarios.calm
                   (Some "pred_0") AdaptiveRiskEngine.new))).
  - vm_compute; reflexivity.
  - reflexivity.
Defined.

Section EngineStorage.

Import AdaptiveRiskEngine.

Lemma find_app_none {A : Type} (f : A -> bool) (l l' : list A) :
  find f l = None -> find f (l ++ l') = find f l'.
Proof.
  induction l as [| x r IH]; cbn; [reflexivity |].
  destruct (f x); [discriminate | exact IH].
Qed.

Lemma find_app_some {A : Type} (f : A -> bool) (l l' : list A) (x : A) :
  find f l = Some x -> find f (l ++ l') = Some x.
Proof.
  induction l as [| y r IH]; cbn; [discriminate |].
  destruct (f y); [trivial | exact IH].
Qed.

Lemma find_skipn_none {A : Type} (f : A -> bool) (n : nat) (l : list A) :
  find f l = None -> find f (skipn n l) = None.
Proof.
  revert l; induction n as [| n IH]; intros [| x r]; cbn; trivial.
  destruct (f x); [discriminate | apply IH].
Qed.

(** The list that [storePrediction] leaves: the old one with [p] pushed,
    cut to its last 100 entries. *)
Lemma storePrediction_list (p : prediction) (e : engine) :
  let l := match recentPredictions e with Some l => l | None => [] end in
  recentPredictions (storePrediction p e)
  = Some (skipn (List.length l + 1 - 100) l ++ [p]) /\
  (List.length (skipn (List.length l + 1 - 100) l ++ [p]) <= 100)%nat /\
  ((List.length l < 100)%nat -> recentPredictions (storePrediction p e) = Some (l ++ [p])).
Proof.
  cbv zeta; unfold storePrediction; cbn [recentPredictions with_recentPredictions].
  set (l := match recentPredictions e with Some l => l | None => [] end).
  assert (Hlen : List.length (l ++ [p]) = (List.length l + 1)%nat)
    by (rewrite length_app; reflexivity).
  assert (Hcut : (List.length (skipn (List.length l + 1 - 100) l ++ [p]) <= 100)%nat)
    by (rewrite length_app, length_skipn; cbn; lia).
  destruct (Nat.ltb_spec 100 (List.length (l ++ [p]))) as [Hlt | Hle].
  - unfold JS.slice_from; cbn [Z.ltb Z.compare].
    replace (Z.to_nat (Z.max (Z.of_nat (List.length (l ++ [p])) + -100) 0))
      with (List.length l + 1 - 100)%nat by lia.
    rewrite skipn_app.
    replace (List.length l + 1 - 100 - List.length l)%nat with 0%nat by lia.
    split; [reflexivity |]; split; [exact Hcut |]; intros H; lia.
  - replace (List.length l + 1 - 100)%nat with 0%nat in * by lia.
    split; [reflexivity |]; split; [exact Hcut |]; intros _; reflexivity.
Qed.

(** X15.  An assessment under an identifier that no stored prediction
    bears is found again by [findPrediction], with the level, score, clock
    reading and conditions of that assessment. *)
Theorem new_prediction_is_found (now : Z) (fresh : string) (c : Conditions.t)
    (outcomeId : option string) (e : engine) :
  let a := fst (assessRiskAdaptive now fresh c outcomeId e) in
  let e' := snd (assessRiskAdaptive now fresh c outcomeId e) in
  findPrediction e (assessed_prediction_id a) = None ->
  exists p : prediction,
    findPrediction e' (assessed_prediction_id a) = Some p /\
    id p = assessed_prediction_id a /\
    risk_level p = assessed_risk_level a /\
    weighted_score p = risk_score a /\
    timestamp p = now /\
    conditions p = c.
Proof.
  cbv zeta; unfold assessRiskAdaptive; cbn [fst snd assessed_prediction_id
    assessed_risk_level risk_score].
  set (pid := match outcomeId with Some "" => fresh | Some i => i | None => fresh end).
  match goal with |- context [storePrediction ?x e] => set (p := x) end.
  intros Hnone; exists p.
  split; [| split; [reflexivity |]; split; [reflexivity |]; split; [reflexivity |];
            split; reflexivity].
  destruct (storePrediction_list p e) as [Hl _]; cbv zeta in Hl.
  unfold findPrediction in *; rewrite Hl.
  rewrite find_app_none.
  - cbn [find]; unfold p at 1; cbn [id]; rewrite String.eqb_refl; reflexivity.
  - apply find_skipn_none.
    destruct (recentPredictions e); [exact Hnone | reflexivity].
Qed.

Lemma new_prediction_is_found_witness :
  let a := fst (assessRiskAdaptive 3 "pred_x" Scenarios.calm None new) in
  let e' := snd (assessRiskAdaptive 3 "pred_x" Scenarios.calm None new) in
  exists p : prediction,
    findPrediction e' (assessed_prediction_id a) = Some p /\
    id p = assessed_prediction_id a /\
    risk_level p = assessed_risk_level a /\
    weighted_score p = risk_score a /\
    timestamp p = 3%Z /\
    conditions p = Scenarios.calm.
Proof.
  apply (new_prediction_is_found 3 "pred_x" Scenarios.calm None new).
  reflexivity.
Defined.

(** X16.  [findPrediction] returns the oldest stored prediction with the
    identifier.  After an assessment made under an identifier that is
    still stored, [findPrediction], which [recordOutcome] reads, still
    returns the older prediction, not the new one. *)
Theorem reused_identifier_finds_older_prediction (now : Z) (fresh : string)
    (c : Conditions.t) (a : ascii) (s : string) (e : engine)
    (l : list prediction) (p0 : prediction) :
  recentPredictions e = Some l ->
  (List.length l < 100)%nat ->
  findPrediction e (String a s) = Some p0 ->
  assessed_prediction_id (fst (assessRiskAdaptive now fresh c (Some (String a s)) e))
  = String a s /\
  findPrediction (snd (assessRiskAdaptive now fresh c (Some (String a s)) e)) (String a s)
  = Some p0.
Proof.
  intros Hl Hlen Hf; unfold assessRiskAdaptive; cbn [fst snd assessed_prediction_id].
  split; [reflexivity |].
  match goal with |- context [storePrediction ?x e] => set (p := x) end.
  destruct (storePrediction_list p e) as [_ [_ Hs]]; cbv zeta in Hs.
  rewrite Hl in Hs; specialize (Hs Hlen).
  unfold findPrediction in *; rewrite Hs; rewrite Hl in Hf.
  apply find_app_some; exact Hf.
Qed.

Lemma reused_identifier_finds_older_prediction_witness :
  let e := snd (assessRiskAdaptive 0 "" Scenarios.calm (Some "pred_0") new) in
  assessed_prediction_id
    (fst (assessRiskAdaptive 9 "" Scenarios.extreme (Some "pred_0") e)) = "pred_0" /\
  findPrediction (snd (assessRiskAdaptive 9 "" Scenarios.extreme (Some "pred_0") e))
    "pred_0"
  = findPrediction e "pred_0".
Proof.
  cbv zeta.
  assert (Hone : option_map (@List.length prediction)
                   (recentPredictions
                      (snd (assessRiskAdaptive 0 "" Scenarios.calm (Some "pred_0") new)))
                 = Some 1%nat) by (vm_compute; reflexivity).
  destruct (findPrediction (snd (assessRiskAdaptive 0 "" Scenarios.calm (Some "pred_0") new))
              "pred_0") as [p0 |] eqn:Hf; [| vm_compute in Hf; discriminate Hf].
  destruct (recentPredictions (snd (assessRiskAdaptive 0 "" Scenarios.calm (Some "pred_0") new)))
    as [l |] eqn:Hl; [| vm_compute in Hl; discriminate Hl].
  apply (reused_identifier_finds_older_prediction 9 "" Scenarios.extreme "p" "red_0"
           (snd (assessRiskAdaptive 0 "" Scenarios.calm (Some "pred_0") new)) l p0).
  - exact Hl.
  - cbn [option_map] in Hone; injection Hone as ->; lia.
  - exact Hf.
Defined.

End EngineStorage.

Section EngineRuns.

Import AdaptiveRiskEngine.

Variable Math_pow : Qc -> Qc -> Qc.

(** The engine after [recordOutcome]: unchanged, or with one entry more
    and the metrics updated, and then possibly adapted. *)
Lemma recordOutcome_shape (now : Z) (predictionId : string) (ao : actual_outcome)
    (e : engine) :
  snd (recordOutcome Math_pow now predictionId ao e) = e \/
  exists (p : prediction) (o : outcome) (acc : Qc),
    let e2 := updatePerformanceMetrics p o acc
                (with_outcomeHistory e (outcomeHistory e ++ [HistoryEntry o p acc])) in
    shouldTriggerAdaptation e2 = false /\
    snd (recordOutcome Math_pow now predictionId ao e) = e2 \/
    shouldTriggerAdaptation e2 = true /\
    snd (recordOutcome Math_pow now predictionId ao e)
    = snd (performAdaptation Math_pow now e2).
Proof.
  unfold recordOutcome.
  destruct (findPrediction e predictionId) as [p |]; [| left; reflexivity].
  destruct (validateOutcome ao); [left; reflexivity |].
  right.
  match goal with |- context [HistoryEntry ?o p ?acc] => exists p, o, acc end; cbv zeta.
  match goal with |- context [shouldTriggerAdaptation ?x] =>
    destruct (shouldTriggerAdaptation x) end.
  - right; split; [reflexivity |].
    match goal with |- context [performAdaptation Math_pow now ?x] =>
      destruct (performAdaptation Math_pow now x) end; reflexivity.
  - left; split; reflexivity.
Qed.

Lemma run_invariant (P : engine -> Prop) :
  (forall now fresh c outcomeId e,
      P e -> P (snd (assessRiskAdaptive now fresh c outcomeId e))) ->
  (forall now predictionId ao e,
      P e -> P (snd (recordOutcome Math_pow now predictionId ao e))) ->
  forall calls e, P e -> P (run Math_pow calls e).
Proof.
  intros Ha Hr calls; unfold run.
  induction calls as [| k rest IH]; intros e He; [exact He |].
  cbn [fold_left]; apply IH.
  destruct k as [now fresh c outcomeId | now predictionId ao]; cbn [step snd].
  - apply Ha; exact He.
  - pose proof (Hr now predictionId ao e He) as H.
    destruct (recordOutcome Math_pow now predictionId ao e); exact H.
Qed.

(** X17.  Along every sequence of calls the engine retains at most 100
    predictions. *)
Theorem at_most_100_predictions_are_kept (calls : list call) (e : engine) :
  match recentPredictions e with
  | Some l => (List.length l <= 100)%nat
  | None => True
  end ->
  match recentPredictions (run Math_pow calls e) with
  | Some l => (List.length l <= 100)%nat
  | None => True
  end.
Proof.
  revert calls e.
  apply (run_invariant
           (fun e => match recentPredictions e with
                     | Some l => (List.length l <= 100)%nat
                     | None => True
                     end)).
  - intros now fresh c outcomeId e _; unfold assessRiskAdaptive; cbn [snd].
    match goal with |- context [storePrediction ?x e] => set (p := x) end.
    destruct (storePrediction_list p e) as [Hl [Hlen _]]; cbv zeta in Hl, Hlen.
    rewrite Hl; exact Hlen.
  - intros now predictionId ao e He.
    destruct (recordOutcome_shape now predictionId ao e)
      as [-> | [p [o [acc [[_ ->] | [_ ->]]]]]]; [exact He | exact He |].
    destruct (performAdaptation_frame Math_pow now
                (updatePerformanceMetrics p o acc
                   (with_outcomeHistory e (outcomeHistory e ++ [HistoryEntry o p acc]))))
      as [-> _].
    exact He.
Qed.

Lemma clamp_threshold_range (t : thresholds_t) (ka : threshold_key * Qc) :
  JS.num 1 <= low_to_medium t <= JS.num 6 /\ JS.num 1 <= medium_to_high t <= JS.num 6 ->
  JS.num 1 <= low_to_medium (clamp_threshold t ka) <= JS.num 6 /\
  JS.num 1 <= medium_to_high (clamp_threshold t ka) <= JS.num 6.
Proof.
  intros [Hl Hh]; unfold clamp_threshold.
  assert (Hb : forall x, JS.num 1 <= JS.Math_max (JS.num 1.0) (JS.Math_min (JS.num 6.0) x)
                         <= JS.num 6).
  { intros x.
    replace (JS.num 1) with (JS.num 1.0) by (apply Qc_is_canon; reflexivity).
    replace (JS.num 6) with (JS.num 6.0) by (apply Qc_is_canon; reflexivity).
    apply clamp_bounds; vm_compute; discriminate. }
  destruct (fst ka); cbn [low_to_medium medium_to_high]; split; auto.
Qed.

(** X18.  Thresholds that lie between 1 and 6 stay there along every
    sequence of calls. *)
Theorem thresholds_stay_between_1_and_6 (calls : list call) (e : engine) :
  JS.num 1 <= low_to_medium (thresholds e) <= JS.num 6 /\
  JS.num 1 <= medium_to_high (thresholds e) <= JS.num 6 ->
  JS.num 1 <= low_to_medium (thresholds (run Math_pow calls e)) <= JS.num 6 /\
  JS.num 1 <= medium_to_high (thresholds (run Math_pow calls e)) <= JS.num 6.
Proof.
  revert calls e.
  apply (run_invariant
           (fun e => JS.num 1 <= low_to_medium (thresholds e) <= JS.num 6 /\
                     JS.num 1 <= medium_to_high (thresholds e) <= JS.num 6)).
  - intros now fresh c outcomeId e He; exact He.
  - intros now predictionId ao e He.
    destruct (recordOutcome_shape now predictionId ao e)
      as [-> | [p [o [acc [[_ ->] | [_ ->]]]]]]; [exact He | exact He |].
    unfold performAdaptation, applyThresholdAdjustments, applyWeightAdjustments;
      cbn [snd thresholds with_adaptationHistory with_thresholds with_weights
           updatePerformanceMetrics with_performanceMetrics with_outcomeHistory].
    match goal with |- context [calculateThresholdAdjustments ?x] =>
      generalize (calculateThresholdAdjustments x) end.
    intros adj; revert He; generalize (thresholds e).
    induction adj as [| ka r IH]; intros t Ht; [exact Ht |].
    cbn [fold_left]; apply IH, clamp_threshold_range, Ht.
Qed.

(** X19.  On an engine started by the constructor the performance metrics
    are counts over the outcome history: [totalPredictions] is its length,
    [correctPredictions] the number of entries with accuracy at least 0.7,
    [falsePositives] the HIGH predictions without incident,
    [falseNegatives] the other predictions with an incident, and
    [accuracy] their quotient. *)
Theorem metrics_count_the_history (calls : list call) :
  let e := run Math_pow calls new in
  let h := outcomeHistory e in
  let m := performanceMetrics e in
  let high x := String.eqb (risk_level (entry_prediction x)) "HIGH" in
  let incident x := incident_occurred (entry_outcome x) in
  totalPredictions m = Z.of_nat (List.length h) /\
  correctPredictions m
  = Z.of_nat (List.length (filter (fun x => JS.leb (JS.num 0.7) (entry_accuracy x)) h)) /\
  falsePositives m
  = Z.of_nat (List.length (filter (fun x => (high x && negb (incident x))%bool) h)) /\
  falseNegatives m
  = Z.of_nat (List.length (filter (fun x => (negb (high x) && incident x)%bool) h)) /\
  accuracy m
  = match h with
    | [] => 0
    | _ => JS.int (correctPredictions m) / JS.int (totalPredictions m)
    end.
Proof.
  cbv zeta.
  apply (run_invariant
           (fun e =>
              totalPredictions (performanceMetrics e)
              = Z.of_nat (List.length (outcomeHistory e)) /\
              correctPredictions (performanceMetrics e)
              = Z.of_nat (List.length
                            (filter (fun x => JS.leb (JS.num 0.7) (entry_accuracy x))
                               (outcomeHistory e))) /\
              falsePositives (performanceMetrics e)
              = Z.of_nat (List.length
                            (filter (fun x =>
                                       (String.eqb (risk_level (entry_prediction x)) "HIGH"
                                        && negb (incident_occurred (entry_outcome x)))%bool)
                               (outcomeHistory e))) /\
              falseNegatives (performanceMetrics e)
              = Z.of_nat (List.length
                            (filter (fun x =>
                                       (negb (String.eqb (risk_level (entry_prediction x)) "HIGH")
                                        && incident_occurred (entry_outcome x))%bool)
                               (outcomeHistory e))) /\
              accuracy (performanceMetrics e)
              = match outcomeHistory e with
                | [] => 0
                | _ => JS.int (correctPredictions (performanceMetrics e))
                       / JS.int (totalPredictions (performanceMetrics e))
                end)).
  - intros now fresh c outcomeId e He; exact He.
  - intros now predictionId ao e He.
    assert (Hstep : forall p o acc,
               let e2 := updatePerformanceMetrics p o acc
                           (with_outcomeHistory e
                              (outcomeHistory e ++ [HistoryEntry o p acc])) in
               totalPredictions (performanceMetrics e2)
               = Z.of_nat (List.length (outcomeHistory e2)) /\
               correctPredictions (performanceMetrics e2)
               = Z.of_nat (List.length
                             (filter (fun x => JS.leb (JS.num 0.7) (entry_accuracy x))
                                (outcomeHistory e2))) /\
               falsePositives (performanceMetrics e2)
               = Z.of_nat (List.length
                             (filter (fun x =>
                                        (String.eqb (risk_level (entry_prediction x)) "HIGH"
                                         && negb (incident_occurred (entry_outcome x)))%bool)
                                (outcomeHistory e2))) /\
               falseNegatives (performanceMetrics e2)
               = Z.of_nat (List.length
                             (filter (fun x =>
                                        (negb (String.eqb (risk_level (entry_prediction x)) "HIGH")
                                         && incident_occurred (entry_outcome x))%bool)
                                (outcomeHistory e2))) /\
               accuracy (performanceMetrics e2)
               = match outcomeHistory e2 with
                 | [] => 0
                 | _ => JS.int (correctPredictions (performanceMetrics e2))
                        / JS.int (totalPredictions (performanceMetrics e2))
                 end).
    { intros p o acc; cbv zeta.
      destruct He as [Ht [Hc [Hfp [Hfn _]]]].
      unfold updatePerformanceMetrics;
        cbn [performanceMetrics with_performanceMetrics with_outcomeHistory outcomeHistory
             totalPredictions correctPredictions falsePositives falseNegatives accuracy].
      rewrite !filter_app, !length_app; cbn [filter List.length entry_accuracy
        entry_prediction entry_outcome].
      rewrite Ht, Hc, Hfp, Hfn.
      split; [lia |].
      split; [destruct (JS.leb (JS.num 0.7) acc); cbn [List.length]; lia |].
      split; [destruct (String.eqb (risk_level p) "HIGH"), (incident_occurred o);
              cbn [negb andb List.length]; lia |].
      split; [destruct (String.eqb (risk_level p) "HIGH"), (incident_occurred o);
              cbn [negb andb List.length]; lia |].
      destruct (outcomeHistory e); reflexivity. }
    destruct (recordOutcome_shape now predictionId ao e)
      as [-> | [p [o [acc [[_ ->] | [_ ->]]]]]]; [exact He | apply Hstep |].
    destruct (performAdaptation_frame Math_pow now
                (updatePerformanceMetrics p o acc
                   (with_outcomeHistory e (outcomeHistory e ++ [HistoryEntry o p acc]))))
      as [_ [-> [-> _]]].
    apply Hstep.
  - cbn. split; [reflexivity |]. split; [reflexivity |]. split; [reflexivity |].
    split; reflexivity.
Qed.

(** X20.  On an engine started by the constructor the number of
    adaptations performed is the number of recorded outcomes divided by
    five, rounded down. *)
Theorem one_adaptation_per_five_outcomes (calls : list call) :
  let e := run Math_pow calls new in
  Z.of_nat (List.length (adaptationHistory e))
  = (Z.of_nat (List.length (outcomeHistory e)) / 5)%Z.
Proof.
  cbv zeta.
  enough (H : adaptationThreshold (run Math_pow calls new) = 5%Z /\
              Z.of_nat (List.length (adaptationHistory (run Math_pow calls new)))
              = (Z.of_nat (List.length (outcomeHistory (run Math_pow calls new))) / 5)%Z)
    by exact (proj2 H).
  apply (run_invariant
           (fun e => adaptationThreshold e = 5%Z /\
                     Z.of_nat (List.length (adaptationHistory e))
                     = (Z.of_nat (List.length (outcomeHistory e)) / 5)%Z)).
  - intros now fresh c outcomeId e He; exact He.
  - intros now predictionId ao e [Hthr Hcount].
    destruct (recordOutcome_shape now predictionId ao e)
      as [-> | [p [o [acc Hcase]]]]; [split; assumption |].
    cbv zeta in Hcase.
    set (e2 := updatePerformanceMetrics p o acc
                 (with_outcomeHistory e (outcomeHistory e ++ [HistoryEntry o p acc]))) in *.
    assert (Hlen : List.length (outcomeHistory e2) = S (List.length (outcomeHistory e)))
      by (unfold e2; cbn; rewrite length_app; cbn; lia).
    assert (Hthr2 : adaptationThreshold e2 = 5%Z) by exact Hthr.
    assert (Hah2 : adaptationHistory e2 = adaptationHistory e) by reflexivity.
    destruct Hcase as [[Htrig ->] | [Htrig ->]].
    + split; [exact Hthr2 |].
      rewrite Hah2, Hlen, Hcount.
      unfold shouldTriggerAdaptation, JS.rem in Htrig; rewrite Hthr2, Hlen in Htrig.
      cbn [Z.eqb] in Htrig.
      destruct (Z.leb_spec 5 (Z.of_nat (S (List.length (outcomeHistory e)))));
        cbn [andb] in Htrig.
      * apply Z.eqb_neq in Htrig.
        pose proof (Z.rem_mod_nonneg (Z.of_nat (S (List.length (outcomeHistory e)))) 5
                      ltac:(lia) ltac:(lia)) as Hrm.
        rewrite Hrm in Htrig.
        Z.div_mod_to_equations; lia.
      * Z.div_mod_to_equations; lia.
    + destruct (performAdaptation_frame Math_pow now e2)
        as [_ [_ [Hoh [_ [_ [_ [Hth Hah]]]]]]].
      split; [rewrite Hth; exact Hthr2 |].
      rewrite Hah, Hoh, length_app, Hah2, Hlen; cbn [List.length].
      unfold shouldTriggerAdaptation, JS.rem in Htrig; rewrite Hthr2, Hlen in Htrig.
      cbn [Z.eqb] in Htrig.
      apply andb_prop in Htrig; destruct Htrig as [Hge Hrem].
      apply Z.leb_le in Hge; apply Z.eqb_eq in Hrem.
      pose proof (Z.rem_mod_nonneg (Z.of_nat (S (List.length (outcomeHistory e)))) 5
                    ltac:(lia) ltac:(lia)) as Hrm.
      rewrite Hrm in Hrem.
      Z.div_mod_to_equations; lia.
  - split; reflexivity.
Qed.

End EngineRuns.

Lemma at_most_100_predictions_are_kept_witness :
  match
    AdaptiveRiskEngine.recentPredictions
      (AdaptiveRiskEngine.run Scenarios.Math_pow_whole Scenarios.ten_storms
         AdaptiveRiskEngine.new)
  with
  | Some l => (List.length l <= 100)%nat
  | None => True
  end.
Proof.
  apply (at_most_100_predictions_are_kept Scenarios.Math_pow_whole Scenarios.ten_storms
           AdaptiveRiskEngine.new).
  exact I.
Defined.

Lemma thresholds_stay_between_1_and_6_witness :
  let e := AdaptiveRiskEngine.run Scenarios.Math_pow_whole Scenarios.ten_storms
             AdaptiveRiskEngine.new in
  JS.num 1 <= AdaptiveRiskEngine.low_to_medium (AdaptiveRiskEngine.thresholds e)
  <= JS.num 6 /\
  JS.num 1 <= AdaptiveRiskEngine.medium_to_high (AdaptiveRiskEngine.thresholds e)
  <= JS.num 6.
Proof.
  apply (thresholds_stay_between_1_and_6 Scenarios.Math_pow_whole Scenarios.ten_storms
           AdaptiveRiskEngine.new).
  split; split; vm_compute; discriminate.
Defined.

Section EngineAdaptation.

Import AdaptiveRiskEngine.

Variable Math_pow : Qc -> Qc -> Qc.

Lemma int_of_nat_pos (n : nat) : (0 < n)%nat -> 0 < JS.int (Z.of_nat n).
Proof.
  intros H; qc_to_q; unfold Qlt; cbn -[Z.mul Z.of_nat]; lia.
Qed.

Lemma ratio_above (k a b : Qc) : 0 < b -> (k < a / b <-> k * b < a).
Proof.
  intros Hb.
  assert (Ha : a = a / b * b) by (field; apply Qc_pos_neq_0; exact Hb).
  set (q := a / b) in *; clearbody q; subst a.
  qc_to_q; split; intros H; nra.
Qed.

Lemma ratio_below (k a b : Qc) : 0 < b -> (a / b < k <-> a < k * b).
Proof.
  intros Hb.
  assert (Ha : a = a / b * b) by (field; apply Qc_pos_neq_0; exact Hb).
  set (q := a / b) in *; clearbody q; subst a.
  qc_to_q; split; intros H; nra.
Qed.

Lemma filter_and_length {A : Type} (f g : A -> bool) (l : list A) :
  (List.length (filter (fun x => (f x && g x)%bool) l) <= List.length (filter f l))%nat.
Proof.
  induction l as [| x r IH]; cbn; [lia |].
  destruct (f x), (g x); cbn; lia.
Qed.

Lemma adjustments_by_counts (high alarms : nat) :
  (alarms <= high)%nat ->
  (let falsePositiveRate :=
     if (0 <? high)%nat then JS.int (Z.of_nat alarms) / JS.int (Z.of_nat high) else 0 in
   if JS.ltb (JS.num 0.3) falsePositiveRate then
     [(Medium_to_high, JS.num 0.2); (Low_to_medium, JS.num 0.1)]
   else if JS.ltb falsePositiveRate (JS.num 0.1) then
     [(Medium_to_high, - (JS.num 0.1)); (Low_to_medium, - (JS.num 0.05))]
   else [])
  = if (3 * high <? 10 * alarms)%nat then
      [(Medium_to_high, JS.num 0.2); (Low_to_medium, JS.num 0.1)]
    else if ((high =? 0) || (10 * alarms <? high))%nat%bool then
      [(Medium_to_high, - JS.num 0.1); (Low_to_medium, - JS.num 0.05)]
    else [].
Proof.
  intros Hle; cbv zeta.
  destruct (Nat.ltb_spec 0 high) as [Hpos | Hzero].
  - pose proof (int_of_nat_pos high Hpos) as Hh.
    replace (high =? 0)%nat with false by (symmetry; apply Nat.eqb_neq; lia).
    cbn [orb].
    assert (Hup : JS.ltb (JS.num 0.3) (JS.int (Z.of_nat alarms) / JS.int (Z.of_nat high))
                  = (3 * high <? 10 * alarms)%nat).
    { destruct (Nat.ltb_spec (3 * high) (10 * alarms)) as [H | H].
      - apply ltb_true_iff, ratio_above; [exact Hh |].
        qc_to_q; unfold Qlt; cbn -[Z.mul Z.of_nat]; lia.
      - apply ltb_false_iff.
        destruct (Qclt_le_dec (JS.num 0.3) (JS.int (Z.of_nat alarms) / JS.int (Z.of_nat high)))
          as [Hgt | Hle']; [| exact Hle'].
        apply ratio_above in Hgt; [| exact Hh].
        exfalso; revert Hgt; qc_to_q; unfold Qlt; cbn -[Z.mul Z.of_nat]; lia. }
    assert (Hdown : JS.ltb (JS.int (Z.of_nat alarms) / JS.int (Z.of_nat high)) (JS.num 0.1)
                    = (10 * alarms <? high)%nat).
    { destruct (Nat.ltb_spec (10 * alarms) high) as [H | H].
      - apply ltb_true_iff, ratio_below; [exact Hh |].
        qc_to_q; unfold Qlt; cbn -[Z.mul Z.of_nat]; lia.
      - apply ltb_false_iff.
        destruct (Qclt_le_dec (JS.int (Z.of_nat alarms) / JS.int (Z.of_nat high)) (JS.num 0.1))
          as [Hlt | Hge]; [| exact Hge].
        apply ratio_below in Hlt; [| exact Hh].
        exfalso; revert Hlt; qc_to_q; unfold Qlt; cbn -[Z.mul Z.of_nat]; lia. }
    rewrite Hup, Hdown; reflexivity.
  - assert (Hh0 : high = 0%nat) by lia.
    assert (Ha0 : alarms = 0%nat) by lia.
    rewrite Hh0, Ha0; reflexivity.
Qed.

(** X21.  The thresholds move with the share of false alarms among the
    HIGH predictions of the window: they are raised by 0.2 and 0.1 when
    more than three in ten HIGH predictions were not observed as HIGH, and
    lowered by 0.1 and 0.05 when fewer than one in ten were, which
    includes every window without any HIGH prediction. *)
Theorem thresholds_follow_false_alarm_share (outcomes : list history_entry) :
  let high :=
    List.length
      (filter (fun h => String.eqb (risk_level (entry_prediction h)) "HIGH") outcomes) in
  let alarms :=
    List.length
      (filter (fun h => (String.eqb (risk_level (entry_prediction h)) "HIGH" &&
                         not_level "HIGH" (actual_risk_level (entry_outcome h)))%bool)
              outcomes) in
  calculateThresholdAdjustments outcomes
  = if (3 * high <? 10 * alarms)%nat then
      [(Medium_to_high, JS.num 0.2); (Low_to_medium, JS.num 0.1)]
    else if ((high =? 0) || (10 * alarms <? high))%nat%bool then
      [(Medium_to_high, - JS.num 0.1); (Low_to_medium, - JS.num 0.05)]
    else [].
Proof.
  cbv zeta; unfold calculateThresholdAdjustments; cbv beta zeta.
  apply adjustments_by_counts.
  apply (filter_and_length
           (fun h => String.eqb (risk_level (entry_prediction h)) "HIGH")
           (fun h => not_level "HIGH" (actual_risk_level (entry_outcome h)))).
Qed.

Lemma performance_fold_bounds (e : engine) (now : Z) (f : factor)
    (outcomes : list history_entry) (acc : Qc * Qc) :
  (forall age, 0 <= Math_pow (confidenceDecay e) age) ->
  0 <= fst acc <= snd acc ->
  0 <= fst (fold_left (performance_step Math_pow e now f) outcomes acc)
  <= snd (fold_left (performance_step Math_pow e now f) outcomes acc).
Proof.
  intros Hpow; revert acc; induction outcomes as [| h r IH]; intros acc Hacc;
    [exact Hacc |].
  cbn [fold_left]; apply IH.
  unfold performance_step.
  match goal with |- context [Math_pow ?b ?a] =>
    pose proof (Hpow a) as Hw; set (w := Math_pow b a) in * end.
  clearbody w.
  destruct acc as [c t]; cbn [fst snd] in *.
  destruct (_ || _)%bool; cbn [fst snd]; qc_to_q; lra.
Qed.

(** X22.  When [Math.pow] of the decay is never negative, the performance
    of a factor is a share between 0 and 1.  With the constructor's
    learning rate 0.05 and limit 0.1 the adjustment is then
    [(performance - 0.7) * 0.05], between -0.035 and 0.015: the limit
    [maxWeightChange] is never reached. *)
Theorem weight_adjustment_range (e : engine) (now : Z) (f : factor)
    (outcomes : list history_entry) :
  (forall age, 0 <= Math_pow (confidenceDecay e) age) ->
  learningRate e = JS.num 0.05 ->
  maxWeightChange e = JS.num 0.1 ->
  let performance := analyzeFactorPerformance Math_pow e now f outcomes in
  0 <= performance <= 1 /\
  calculateWeightAdjustment e performance = (performance - JS.num 0.7) * JS.num 0.05 /\
  - JS.num 0.035 <= calculateWeightAdjustment e performance <= JS.num 0.015.
Proof.
  intros Hpow Hlr Hmax; cbv zeta.
  assert (Hperf : 0 <= analyzeFactorPerformance Math_pow e now f outcomes <= 1).
  { unfold analyzeFactorPerformance.
    pose proof (performance_fold_bounds e now f outcomes (0, 0) Hpow) as Hb.
    destruct (fold_left _ outcomes (0, 0)) as [c t]; cbn [fst snd] in Hb.
    assert (H00 : 0 <= (0 : Qc) <= 0) by (split; apply Qcle_refl).
    specialize (Hb H00).
    destruct (JS.ltb 0 t) eqn:Ht.
    - apply ltb_true_iff in Ht; split.
      + apply Qc_div_lower; [exact Ht |]. destruct Hb; qc_to_q; lra.
      + apply Qc_div_upper; [exact Ht |]. destruct Hb; qc_to_q; lra.
    - split; vm_compute; discriminate. }
  split; [exact Hperf |].
  revert Hperf; generalize (analyzeFactorPerformance Math_pow e now f outcomes).
  intros q Hq.
  assert (Hadj : calculateWeightAdjustment e q = (q - JS.num 0.7) * JS.num 0.05).
  { unfold calculateWeightAdjustment, JS.Math_max, JS.Math_min; rewrite Hlr, Hmax.
    destruct (JS.leb (JS.num 0.1) _) eqn:E1.
    - apply leb_true_iff in E1; exfalso; revert E1; destruct Hq; qc_to_q; lra.
    - destruct (JS.leb (- JS.num 0.1) _) eqn:E2; [reflexivity |].
      apply leb_false_iff in E2; exfalso; revert E2; destruct Hq; qc_to_q; lra. }
  split; [exact Hadj |].
  rewrite Hadj; destruct Hq; split; qc_to_q; lra.
Qed.

End EngineAdaptation.

Lemma Math_pow_whole_nonneg (b e : Qc) : 0 <= b -> 0 <= Scenarios.Math_pow_whole b e.
Proof.
  intros Hb; unfold Scenarios.Math_pow_whole.
  induction (Z.to_nat (Qfloor e)) as [| n IH]; cbn [Qcpower].
  - vm_compute; discriminate.
  - revert IH; generalize (Qcpower b n); intros q Hq; qc_to_q; nra.
Qed.

Lemma weight_adjustment_range_witness :
  let performance :=
    AdaptiveRiskEngine.analyzeFactorPerformance Scenarios.Math_pow_whole
      AdaptiveRiskEngine.new 0 AdaptiveRiskEngine.Weather [] in
  0 <= performance <= 1 /\
  AdaptiveRiskEngine.calculateWeightAdjustment AdaptiveRiskEngine.new performance
  = (performance - JS.num 0.7) * JS.num 0.05 /\
  - JS.num 0.035
  <= AdaptiveRiskEngine.calculateWeightAdjustment AdaptiveRiskEngine.new performance
  <= JS.num 0.015.
Proof.
  apply (weight_adjustment_range Scenarios.Math_pow_whole AdaptiveRiskEngine.new 0
           AdaptiveRiskEngine.Weather []).
  - intros age; apply Math_pow_whole_nonneg; vm_compute; discriminate.
  - reflexivity.
  - reflexivity.
Defined.

(** ** The breakdown analyzer: ranks and percentages *)

Section AnalyzerRanks.

Import RiskBreakdownAnalyzer.

Lemma insert_desc_perm {A : Type} (key : A -> Qc) (x : A) (l : list A) :
  Permutation (JS.insert_desc key x l) (x :: l).
Proof.
  induction l as [| y r IH]; cbn [JS.insert_desc]; [apply Permutation_refl |].
  destruct (JS.leb (key y) (key x)); [apply Permutation_refl |].
  apply perm_trans with (y :: x :: r); [apply perm_skip, IH | apply perm_swap].
Qed.

Lemma sort_desc_perm {A : Type} (key : A -> Qc) (l : list A) :
  Permutation (JS.sort_desc key l) l.
Proof.
  unfold JS.sort_desc; induction l as [| x r IH]; cbn [fold_right]; [apply perm_nil |].
  apply perm_trans with (x :: fold_right (JS.insert_desc key) [] r);
    [apply insert_desc_perm | apply perm_skip, IH].
Qed.

Lemma insert_desc_sorted {A : Type} (key : A -> Qc) (x : A) (l : list A) :
  StronglySorted (fun a b => key b <= key a) l ->
  StronglySorted (fun a b => key b <= key a) (JS.insert_desc key x l).
Proof.
  induction l as [| y r IH]; intros Hs; cbn [JS.insert_desc].
  - constructor; constructor.
  - inversion Hs as [| ? ? Hr Hy]; subst.
    destruct (JS.leb (key y) (key x)) eqn:E.
    + apply leb_true_iff in E.
      constructor; [exact Hs |].
      constructor; [exact E |].
      eapply Forall_impl; [| exact Hy].
      intros z Hz; cbv beta in *; eapply Qcle_trans; eassumption.
    + apply leb_false_iff in E.
      constructor; [apply IH; exact Hr |].
      apply (Permutation_Forall (Permutation_sym (insert_desc_perm key x r))).
      constructor; [apply Qclt_le_weak; exact E | exact Hy].
Qed.

Lemma sort_desc_sorted {A : Type} (key : A -> Qc) (l : list A) :
  StronglySorted (fun a b => key b <= key a) (JS.sort_desc key l).
Proof.
  unfold JS.sort_desc; induction l as [| x r IH]; cbn [fold_right];
    [constructor | apply insert_desc_sorted, IH].
Qed.

Lemma rank_in_present (f : string) (b : breakdown) (l : list (string * breakdown)) :
  In (f, b) l -> (1 <= rank_in f l <= List.length l)%nat.
Proof.
  induction l as [| [h bh] r IH]; intros Hin; [destruct Hin |].
  cbn [rank_in List.length].
  destruct (String.eqb f h) eqn:E; [lia |].
  destruct Hin as [Heq | Hin].
  - injection Heq as -> _; rewrite String.eqb_refl in E; discriminate E.
  - specialize (IH Hin); lia.
Qed.

Lemma rank_in_order (l : list (string * breakdown)) (f g : string) (bf bg : breakdown) :
  StronglySorted (fun a b => percentage (snd b) <= percentage (snd a)) l ->
  NoDup (map fst l) ->
  In (f, bf) l -> In (g, bg) l ->
  percentage bg < percentage bf ->
  (rank_in f l < rank_in g l)%nat.
Proof.
  induction l as [| [h bh] r IH]; intros Hs Hnd Hf Hg Hlt; [destruct Hf |].
  inversion Hs as [| ? ? Hr Hh]; subst.
  cbn [map fst] in Hnd; inversion Hnd as [| ? ? Hnotin Hnd']; subst.
  assert (Hhead : forall k bk, In (k, bk) ((h, bh) :: r) -> k = h -> bk = bh).
  { intros k bk [Heq | Hin] Hk; [injection Heq as _ <-; reflexivity |].
    subst k; exfalso; apply Hnotin.
    change h with (fst (h, bk)); apply in_map; exact Hin. }
  cbn [rank_in].
  destruct (String.eqb f h) eqn:Ef; destruct (String.eqb g h) eqn:Eg.
  - apply String.eqb_eq in Ef, Eg.
    rewrite (Hhead f bf Hf Ef), (Hhead g bg Hg Eg) in Hlt.
    exfalso; revert Hlt; apply Qcle_not_lt, Qcle_refl.
  - apply String.eqb_neq in Eg.
    destruct Hg as [Heq | Hg]; [injection Heq as -> _; contradiction |].
    pose proof (rank_in_present g bg r Hg); lia.
  - apply String.eqb_eq in Eg; apply String.eqb_neq in Ef.
    rewrite (Hhead g bg Hg Eg) in Hlt.
    destruct Hf as [Heq | Hf]; [injection Heq as -> _; contradiction |].
    rewrite Forall_forall in Hh; specialize (Hh (f, bf) Hf); cbn [snd] in Hh.
    exfalso; revert Hlt; apply Qcle_not_lt; exact Hh.
  - apply String.eqb_neq in Ef, Eg.
    destruct Hf as [Heq | Hf]; [injection Heq as -> _; contradiction |].
    destruct Hg as [Heq | Hg]; [injection Heq as -> _; contradiction |].
    specialize (IH Hr Hnd' Hf Hg Hlt); lia.
Qed.

(** X23.  The ranks of a breakdown follow its percentages: of two factors
    the one with the strictly larger percentage has the smaller rank, and
    every rank lies between 1 and the number of factors. *)
Theorem ranks_follow_percentages (contributions : list (string * contribution))
    (f g : string) (bf bg : breakdown) :
  NoDup (map fst contributions) ->
  In (f, bf) (calculatePercentageBreakdown contributions) ->
  In (g, bg) (calculatePercentageBreakdown contributions) ->
  percentage bg < percentage bf ->
  (1 <= rank bf < rank bg)%nat /\ (rank bg <= List.length contributions)%nat.
Proof.
  intros Hnd Hf Hg Hlt; unfold calculatePercentageBreakdown in Hf, Hg; cbv zeta in Hf, Hg.
  match type of Hf with In _ (map _ ?x) => set (pb := x) in Hf, Hg end.
  set (sorted := JS.sort_desc (fun fb => percentage (snd fb)) pb) in *.
  assert (Hnames : map fst pb = map fst contributions)
    by (unfold pb; rewrite map_map; reflexivity).
  assert (Hperm : Permutation sorted pb) by apply sort_desc_perm.
  assert (Hss : StronglySorted
                  (fun a b : string * breakdown => percentage (snd b) <= percentage (snd a))
                  sorted)
    by apply (sort_desc_sorted (fun fb : string * breakdown => percentage (snd fb))).
  assert (Hnds : NoDup (map fst sorted)).
  { apply (Permutation_NoDup (l := map fst pb)).
    - apply Permutation_map, Permutation_sym, Hperm.
    - rewrite Hnames; exact Hnd. }
  assert (Hlen : List.length sorted = List.length contributions).
  { rewrite (Permutation_length Hperm); unfold pb; apply length_map. }
  apply in_map_iff in Hf; destruct Hf as [[f' bf'] [Hef Hinf]].
  apply in_map_iff in Hg; destruct Hg as [[g' bg'] [Heg Hing]].
  cbn [fst snd] in Hef, Heg.
  injection Hef as -> <-; injection Heg as -> <-.
  cbn [rank percentage] in *.
  apply (Permutation_in _ (Permutation_sym Hperm)) in Hinf, Hing.
  pose proof (rank_in_order sorted f g bf' bg' Hss Hnds Hinf Hing Hlt).
  pose proof (rank_in_present f bf' sorted Hinf).
  pose proof (rank_in_present g bg' sorted Hing).
  lia.
Qed.

End AnalyzerRanks.

Lemma ranks_follow_percentages_witness :
  let cs := [("weather", RiskBreakdownAnalyzer.Contribution (JS.num 3) (JS.num 0.5)
                           (JS.num 1.5) 0);
             ("time", RiskBreakdownAnalyzer.Contribution 1 (JS.num 0.5) (JS.num 0.5) 0)] in
  let r := RiskBreakdownAnalyzer.calculatePercentageBreakdown cs in
  let d := ("", RiskBreakdownAnalyzer.Breakdown 0 0 0 0 "" 0) in
  (1 <= RiskBreakdownAnalyzer.rank (snd (nth 0 r d))
   < RiskBreakdownAnalyzer.rank (snd (nth 1 r d)))%nat /\
  (RiskBreakdownAnalyzer.rank (snd (nth 1 r d)) <= List.length cs)%nat.
Proof.
  cbv zeta.
  apply (ranks_follow_percentages
           [("weather", RiskBreakdownAnalyzer.Contribution (JS.num 3) (JS.num 0.5)
                          (JS.num 1.5) 0);
            ("time", RiskBreakdownAnalyzer.Contribution 1 (JS.num 0.5) (JS.num 0.5) 0)]
           "weather" "time").
  - cbn [map fst]; constructor; [cbn; intros [H | []]; discriminate H |].
    constructor; [intros [] | constructor].
  - left; reflexivity.
  - right; left; reflexivity.
  - vm_compute; reflexivity.
Defined.

Section AnalyzerPercentages.

Import RiskBreakdownAnalyzer.

Lemma sum_from (l : list Qc) (a : Qc) : fold_left Qcplus l a = a + JS.sum l.
Proof.
  unfold JS.sum; revert a; induction l as [| x r IH]; intros a; cbn [fold_left].
  - ring.
  - rewrite (IH (a + x)), (IH (0 + x)); ring.
Qed.

Lemma sum_cons (x : Qc) (l : list Qc) : JS.sum (x :: l) = x + JS.sum l.
Proof.
  unfold JS.sum at 1; cbn [fold_left]; rewrite sum_from; ring.
Qed.

Lemma round1_error (p : Qc) :
  p - JS.num 0.05 <= JS.round1 p <= p + JS.num 0.05.
Proof.
  unfold JS.round1, JS.Math_round.
  match goal with |- context [Qfloor ?x] =>
    pose proof (Qfloor_le x) as Hlo; pose proof (Qlt_floor x) as Hhi;
    set (z := Qfloor x) in *
  end.
  rewrite inject_Z_plus in Hhi.
  assert (Ht : / JS.num 10 = JS.num 0.1) by (apply Qc_is_canon; vm_compute; reflexivity).
  unfold Qcdiv; rewrite Ht; clear Ht.
  change (inject_Z 1) with 1%Q in Hhi.
  clearbody z.
  qc_to_q; split; lra.
Qed.

Lemma int_succ (n : nat) : JS.int (Z.of_nat (S n)) = JS.int (Z.of_nat n) + 1.
Proof.
  apply Qc_is_canon; qc_to_q.
  rewrite Nat2Z.inj_succ; unfold Z.succ; rewrite inject_Z_plus; reflexivity.
Qed.

Lemma sum_within {A : Type} (f g : A -> Qc) (d : Qc) (l : list A) :
  (forall x, g x - d <= f x <= g x + d) ->
  JS.sum (map g l) - d * JS.int (Z.of_nat (List.length l))
  <= JS.sum (map f l)
  <= JS.sum (map g l) + d * JS.int (Z.of_nat (List.length l)).
Proof.
  intros H; induction l as [| x r IH].
  - cbn [map List.length Z.of_nat]; unfold JS.sum; cbn [fold_left].
    split; qc_to_q; change (inject_Z 0) with 0%Q; lra.
  - cbn [map List.length]; rewrite !sum_cons, int_succ.
    specialize (H x); revert H IH.
    generalize (JS.sum (map g r)), (JS.sum (map f r)), (JS.int (Z.of_nat (List.length r))),
      (f x), (g x).
    intros sg sf n fx gx H IH; destruct H, IH; split; qc_to_q; nra.
Qed.

Lemma sum_scaled {A : Type} (h : A -> Qc) (t c : Qc) (l : list A) :
  t <> 0 ->
  JS.sum (map (fun x => h x / t * c) l) = JS.sum (map h l) / t * c.
Proof.
  intros Ht; induction l as [| x r IH].
  - cbn; field; exact Ht.
  - cbn [map]; rewrite !sum_cons, IH; field; exact Ht.
Qed.

(** X24.  When the weighted scores add up to a positive total, the
    percentages of a breakdown add up to 100 within the rounding of each
    to one decimal: at most 0.05 per factor. *)
Theorem percentages_add_up_to_about_100 (contributions : list (string * contribution)) :
  0 < JS.sum (map (fun fc => weighted_score (snd fc)) contributions) ->
  let total :=
    JS.sum (map (fun fb => percentage (snd fb))
              (calculatePercentageBreakdown contributions)) in
  let slack := JS.num 0.05 * JS.int (Z.of_nat (List.length contributions)) in
  JS.num 100 - slack <= total <= JS.num 100 + slack.
Proof.
  intros Hpos; cbv zeta; unfold calculatePercentageBreakdown; cbv zeta.
  rewrite !map_map; cbn [snd percentage].
  apply ltb_true_iff in Hpos as Hb; rewrite Hb.
  set (t := JS.sum (map (fun fc : string * contribution => weighted_score (snd fc))
                      contributions)) in *.
  assert (Hexact : JS.sum (map (fun fc : string * contribution =>
                                  weighted_score (snd fc) / t * JS.num 100) contributions)
                   = JS.num 100).
  { rewrite (sum_scaled (fun fc : string * contribution => weighted_score (snd fc))
               t (JS.num 100) contributions (Qc_pos_neq_0 t Hpos)).
    fold t; generalize (JS.num 100); intros c; field; apply Qc_pos_neq_0; exact Hpos. }
  pose proof (sum_within
                (fun fc : string * contribution =>
                   JS.round1 (weighted_score (snd fc) / t * JS.num 100))
                (fun fc : string * contribution => weighted_score (snd fc) / t * JS.num 100)
                (JS.num 0.05) contributions
                (fun x => round1_error (weighted_score (snd x) / t * JS.num 100)))
    as Hsum.
  rewrite Hexact in Hsum; exact Hsum.
Qed.

End AnalyzerPercentages.

Lemma percentages_add_up_to_about_100_witness :
  let cs := [("weather", RiskBreakdownAnalyzer.Contribution (JS.num 3) (JS.num 0.5)
                           (JS.num 1.5) 0);
             ("time", RiskBreakdownAnalyzer.Contribution 1 (JS.num 0.5) (JS.num 0.5) 0)] in
  let total :=
    JS.sum (map (fun fb => RiskBreakdownAnalyzer.percentage (snd fb))
              (RiskBreakdownAnalyzer.calculatePercentageBreakdown cs)) in
  let slack := JS.num 0.05 * JS.int (Z.of_nat (List.length cs)) in
  JS.num 100 - slack <= total <= JS.num 100 + slack.
Proof.
  apply (percentages_add_up_to_about_100
           [("weather", RiskBreakdownAnalyzer.Contribution (JS.num 3) (JS.num 0.5)
                          (JS.num 1.5) 0);
            ("time", RiskBreakdownAnalyzer.Contribution 1 (JS.num 0.5) (JS.num 0.5) 0)]).
  vm_compute; reflexivity.
Defined.

(** ** The simulation: runs, steps and the trend analysis *)

Section SimulationRuns.

Import RiskSimulation.

Variable getHours : Z -> Z.
Variable random : nat -> Qc.
Variable daily_cycle : Z -> Qc.
Variable Math_sqrt : Qc -> Qc.
Variable toLocaleTimeString : Z -> string.

Lemma validateSimulationInputs_accepts (c : Conditions.t) (hoursAhead intervalMinutes : Qc) :
  0 < hoursAhead /\ hoursAhead <= JS.num 48 ->
  0 < intervalMinutes /\ intervalMinutes <= JS.num 240 ->
  validateSimulationInputs (Some c) hoursAhead intervalMinutes = inr tt.
Proof.
  intros [Hh0 Hh1] [Hi0 Hi1]; unfold validateSimulationInputs.
  apply leb_false_iff in Hh0, Hi0; apply ltb_false_iff in Hh1, Hi1.
  rewrite Hh0, Hh1, Hi0, Hi1; reflexivity.
Qed.

Lemma intervals_positive (hoursAhead intervalMinutes : Qc) :
  0 < hoursAhead -> 0 < intervalMinutes ->
  (1 <= JS.Math_ceil (hoursAhead * JS.num 60 / intervalMinutes))%Z.
Proof.
  intros Hh Hi; unfold JS.Math_ceil.
  assert (Hx : 0 < hoursAhead * JS.num 60 / intervalMinutes).
  { apply ratio_above; [exact Hi |]. revert Hh; qc_to_q; intros Hh; lra. }
  pose proof (Qle_ceiling (hoursAhead * JS.num 60 / intervalMinutes)%Qc) as Hc.
  assert (Hz : (inject_Z 0
                < inject_Z (Qceiling (hoursAhead * JS.num 60 / intervalMinutes)%Qc))%Q).
  { eapply Qlt_le_trans; [| exact Hc]. exact Hx. }
  rewrite <- Zlt_Qlt in Hz; lia.
Qed.

Lemma indices_eq (intervals : Z) :
  (0 <= intervals)%Z ->
  indices intervals = 0%Z :: map Z.of_nat (seq 1 (Z.to_nat intervals)).
Proof.
  intros H; unfold indices.
  replace (Z.to_nat (intervals + 1)) with (S (Z.to_nat intervals)) by lia.
  reflexivity.
Qed.

Lemma int_bounds (z lo hi : Z) :
  (lo <= z <= hi)%Z -> JS.int lo <= JS.int z /\ JS.int z <= JS.int hi.
Proof.
  intros [Hlo Hhi]; split; qc_to_q; rewrite <- Zle_Qle; assumption.
Qed.

(** X25.  With the default trends, for a horizon of a whole number of
    hours from 1 to 48 and an interval of a whole number of minutes from
    1 to 240, on initial conditions whose weather and crowd density are
    defined, the simulation succeeds with
    [ceil(hoursAhead * 60 / intervalMinutes) + 1] predictions, at least
    two, and calls [Math.random] once per prediction. *)
Theorem default_trends_simulation_succeeds
    (assessRisk_defined : bool) (now : Z) (c : Conditions.t) (w cr : string)
    (hoursAhead intervalMinutes : Z) (n : nat) :
  Conditions.weather c = Some w ->
  Conditions.crowd_density c = Some cr ->
  (1 <= hoursAhead <= 48)%Z ->
  (1 <= intervalMinutes <= 240)%Z ->
  let count :=
    Z.to_nat (JS.Math_ceil (JS.int hoursAhead * JS.num 60 / JS.int intervalMinutes) + 1) in
  exists s : simulation,
    simulateRiskProgression getHours random daily_cycle Math_sqrt toLocaleTimeString
      assessRisk_defined now (Some c) no_trends (JS.int hoursAhead)
      (JS.int intervalMinutes) n
    = (Success s, (count + n)%nat) /\
    total_predictions s = count /\
    List.length (predictions s) = count /\
    (2 <= count)%nat.
Proof.
  intros Hw Hc Hhz Hiz; cbv zeta.
  assert (Hh : 0 < JS.int hoursAhead /\ JS.int hoursAhead <= JS.num 48).
  { destruct (int_bounds hoursAhead 1 48 Hhz) as [H1 H2]; split.
    - eapply Qclt_le_trans; [| exact H1]; vm_compute; reflexivity.
    - eapply Qcle_trans; [exact H2 |]; vm_compute; discriminate. }
  assert (Hi : 0 < JS.int intervalMinutes /\ JS.int intervalMinutes <= JS.num 240).
  { destruct (int_bounds intervalMinutes 1 240 Hiz) as [H1 H2]; split.
    - eapply Qclt_le_trans; [| exact H1]; vm_compute; reflexivity.
    - eapply Qcle_trans; [exact H2 |]; vm_compute; discriminate. }
  pose proof (intervals_positive (JS.int hoursAhead) (JS.int intervalMinutes)
                (proj1 Hh) (proj1 Hi)) as Hpos.
  unfold simulateRiskProgression, simulate_body.
  rewrite (validateSimulationInputs_accepts c (JS.int hoursAhead)
             (JS.int intervalMinutes) Hh Hi).
  change (merge_trends generateDefaultTrends no_trends) with generateDefaultTrends.
  set (intervals := JS.Math_ceil (JS.int hoursAhead * JS.num 60 / JS.int intervalMinutes))
    in *.
  destruct (predict_all_default getHours random daily_cycle assessRisk_defined now c w cr
              (JS.int intervalMinutes) (indices intervals) n Hw Hc)
    as [ps [Eps [Hhs _]]].
  assert (Hcount : List.length (indices intervals) = Z.to_nat (intervals + 1))
    by (unfold indices; rewrite length_map, length_seq; reflexivity).
  rewrite Hcount in Eps.
  rewrite (bind_inr _ _ _ _ _ Eps).
  assert (Hlen : List.length ps = Z.to_nat (intervals + 1)).
  { rewrite <- (length_map hours_from_start), Hhs, length_map; exact Hcount. }
  destruct ps as [| p ps]; [cbn [List.length] in Hlen; lia |].
  destruct (analyzeTrends_nonempty Math_sqrt p ps (Z.to_nat (intervals + 1) + n)) as [a Ea].
  rewrite (bind_inr _ _ _ _ _ Ea); unfold ret.
  eexists; split; [reflexivity |].
  cbn [predictions total_predictions].
  split; [exact Hlen |]; split; [exact Hlen | lia].
Qed.

(** X26.  A deteriorating weather trend can lose the weather.  From
    "clear", when the first draw of [Math.random] is below 0.5 and the
    volatility is positive, the first step computes the index -1, the
    weather becomes undefined, and on a page that defines [assessRisk] the
    whole simulation ends in the failure object of the [TypeError], after
    that one draw. *)
Theorem deteriorating_trend_loses_clear_weather
    (now : Z) (c : Conditions.t) (w cr : string) (t : trends_argument)
    (wt : weather_trend_t) (hoursAhead intervalMinutes : Qc) (n : nat) :
  Conditions.weather c = Some w ->
  JS.toLowerCase w = "clear" ->
  Conditions.crowd_density c = Some cr ->
  given_weather_trend t = Some wt ->
  weather_direction wt = "deteriorating" ->
  0 < volatility wt ->
  random n < JS.num 0.5 ->
  0 < hoursAhead /\ hoursAhead <= JS.num 48 ->
  0 < intervalMinutes /\ intervalMinutes <= JS.num 240 ->
  simulateRiskProgression getHours random daily_cycle Math_sqrt toLocaleTimeString
    true now (Some c) t hoursAhead intervalMinutes n
  = (Failure no_toLowerCase now, S n).
Proof.
  intros Hw Hclear Hc Ht Hdir Hvol Hr Hh Hi.
  pose proof (intervals_positive hoursAhead intervalMinutes (proj1 Hh) (proj1 Hi)) as Hpos.
  unfold simulateRiskProgression, simulate_body.
  rewrite (validateSimulationInputs_accepts c hoursAhead intervalMinutes Hh Hi).
  rewrite indices_eq by lia.
  cbn [predict_all].
  assert (Hfirst : predict_at getHours random daily_cycle true now c
                     (merge_trends generateDefaultTrends t) intervalMinutes 0 n
                   = (inl no_toLowerCase, S n)).
  { assert (Ew : simulateWeatherChange random (Some w)
                   (weather_trend (merge_trends generateDefaultTrends t))
                   (JS.int 0 * intervalMinutes / JS.num 60) n
                 = (inr None, S n)).
    { unfold simulateWeatherChange, merge_trends; cbn [weather_trend].
      rewrite Ht, Hclear, Hdir; unfold bind, Math_random, ret.
      cbn [String.eqb Ascii.eqb Bool.eqb JS.indexOf List.length].
      match goal with |- context [JS.Math_floor ?x] =>
        assert (Hneg : (JS.Math_floor x <= -1)%Z) end.
      { unfold JS.Math_floor.
        match goal with |- (Qfloor ?x <= _)%Z =>
          pose proof (Qfloor_le x) as Hfl;
          assert (Hx : (x < 0)%Q); [| set (z := Qfloor x) in *; clearbody z] end.
        - assert (H0 : JS.int 0 * intervalMinutes / JS.num 60 = 0)
            by (unfold Qcdiv; replace (JS.int 0) with (0 : Qc)
                  by (apply Qc_is_canon; reflexivity); ring).
          rewrite H0; revert Hvol Hr; generalize (random n), (volatility wt), (weather_rate wt).
          intros r v k Hvol Hr; qc_to_q; nra.
        - assert (Hz : (inject_Z z < inject_Z 0)%Q)
            by (eapply Qle_lt_trans; [exact Hfl | exact Hx]).
          rewrite <- Zlt_Qlt in Hz; lia. }
      unfold JS.at_index.
      match goal with |- context [(?i <? 0)%Z] =>
        replace (i <? 0)%Z with true by (symmetry; apply Z.ltb_lt; lia) end.
      reflexivity. }
    destruct (simulateCrowdChange_defined getHours cr
                (crowd_trend (merge_trends generateDefaultTrends t))
                (JS.trunc (JS.int now + JS.int 0 * intervalMinutes * JS.num 60000))
                (JS.int 0 * intervalMinutes / JS.num 60) (S n)) as [cr' Ec].
    assert (Econd : exists c',
               calculateConditionsAtTime getHours random daily_cycle c
                 (merge_trends generateDefaultTrends t)
                 (JS.int 0 * intervalMinutes / JS.num 60)
                 (JS.trunc (JS.int now + JS.int 0 * intervalMinutes * JS.num 60000)) n
               = (inr c', S n) /\ Conditions.weather c' = None).
    { unfold calculateConditionsAtTime; rewrite Hw, Hc.
      rewrite (bind_inr _ _ _ _ _ Ew), (bind_inr _ _ _ _ _ Ec).
      unfold ret; eexists; split; reflexivity. }
    destruct Econd as [c' [Econd Hnone]].
    unfold predict_at; rewrite (bind_inr _ _ _ _ _ Econd).
    unfold bind, assessRiskAtTime; rewrite Hnone; reflexivity. }
  unfold bind at 1; unfold bind at 1; rewrite Hfirst; reflexivity.
Qed.

End SimulationRuns.

Lemma default_trends_simulation_succeeds_witness :
  let count := Z.to_nat (JS.Math_ceil (JS.int 2 * JS.num 60 / JS.int 45) + 1) in
  exists s : RiskSimulation.simulation,
    RiskSimulation.simulateRiskProgression Scenarios.utc_hours Scenarios.draws
      Scenarios.flat_cycle Scenarios.stand_in_sqrt Scenarios.no_format true
      1000 (Some Scenarios.calm) RiskSimulation.no_trends (JS.int 2) (JS.int 45) 0%nat
    = (RiskSimulation.Success s, (count + 0)%nat) /\
    RiskSimulation.total_predictions s = count /\
    List.length (RiskSimulation.predictions s) = count /\
    (2 <= count)%nat.
Proof.
  apply (default_trends_simulation_succeeds Scenarios.utc_hours Scenarios.draws
           Scenarios.flat_cycle Scenarios.stand_in_sqrt Scenarios.no_format true
           1000 Scenarios.calm "sunny" "light" 2 45 0%nat).
  - reflexivity.
  - reflexivity.
  - lia.
  - lia.
Defined.

Lemma deteriorating_trend_loses_clear_weather_witness :
  RiskSimulation.simulateRiskProgression Scenarios.utc_hours Scenarios.draws
    Scenarios.flat_cycle Scenarios.stand_in_sqrt Scenarios.no_format true 1000
    (Some (Conditions.Make (Some "Clear") (Some "morning") (Some "light") None None None))
    (RiskSimulation.TrendsArgument
       (Some (RiskSimulation.WeatherTrend "deteriorating" (JS.num 0.1) (JS.num 0.2)))
       None None None)
    (JS.num 6) (JS.num 30) 0%nat
  = (RiskSimulation.Failure RiskSimulation.no_toLowerCase 1000, 1%nat).
Proof.
  apply (deteriorating_trend_loses_clear_weather Scenarios.utc_hours Scenarios.draws
           Scenarios.flat_cycle Scenarios.stand_in_sqrt Scenarios.no_format 1000
           (Conditions.Make (Some "Clear") (Some "morning") (Some "light") None None None)
           "Clear" "light"
           (RiskSimulation.TrendsArgument
              (Some (RiskSimulation.WeatherTrend "deteriorating" (JS.num 0.1) (JS.num 0.2)))
              None None None)
           (RiskSimulation.WeatherTrend "deteriorating" (JS.num 0.1) (JS.num 0.2))
           (JS.num 6) (JS.num 30) 0%nat).
  - reflexivity.
  - reflexivity.
  - reflexivity.
  - reflexivity.
  - reflexivity.
  - vm_compute; reflexivity.
  - vm_compute; reflexivity.
  - split; [vm_compute; reflexivity | vm_compute; discriminate].
  - split; [vm_compute; reflexivity | vm_compute; discriminate].
Defined.

Section SimulationSteps.

Import RiskSimulation.

Variable getHours : Z -> Z.
Variable Math_sqrt : Qc -> Qc.

Lemma Qfloor_unique (z : Z) (x : Q) :
  (inject_Z z <= x)%Q -> (x < inject_Z (z + 1))%Q -> Qfloor x = z.
Proof.
  intros Hlo Hhi.
  pose proof (Qfloor_resp_le _ _ Hlo) as H1; rewrite Qfloor_Z in H1.
  pose proof (Qfloor_le x) as H2.
  assert (H3 : (inject_Z (Qfloor x) < inject_Z (z + 1))%Q)
    by (eapply Qle_lt_trans; eassumption).
  rewrite <- Zlt_Qlt in H3; lia.
Qed.

Lemma Math_round_near (z : Z) (q : Qc) :
  - JS.num 0.5 <= q -> q < JS.num 0.5 ->
  JS.Math_round (JS.int z + q) = z.
Proof.
  intros Hlo Hhi; unfold JS.Math_round; apply Qfloor_unique.
  - revert Hlo; qc_to_q; intros Hlo; lra.
  - rewrite inject_Z_plus; change (inject_Z 1) with 1%Q.
    revert Hhi; qc_to_q; intros Hhi; lra.
Qed.

Lemma Math_round_one (z : Z) : JS.Math_round (JS.int z + 1) = (z + 1)%Z.
Proof.
  unfold JS.Math_round; apply Qfloor_unique.
  - rewrite inject_Z_plus; change (inject_Z 1) with 1%Q; qc_to_q; lra.
  - rewrite !inject_Z_plus; change (inject_Z 1) with 1%Q; qc_to_q; lra.
Qed.

(** X27.  Under a cyclical crowd trend the crowd never thins: away from
    the peak hours the modifier -0.5 is rounded away and the level stays,
    within an hour of a peak it rises by one level, up to "overcrowded".
    The level "isolated" is first taken for "light", and an unknown level
    ends as "isolated".  No call of [Math.random] is made. *)
Theorem cyclical_crowd_never_thins (c : string) (crowdTrend : crowd_trend_t)
    (currentTime : Z) (hoursElapsed : Qc) (n : nat) :
  crowd_direction crowdTrend = "cyclical" ->
  let crowdLevels := ["isolated"; "light"; "moderate"; "heavy"; "overcrowded"] in
  let found := JS.indexOf (JS.toLowerCase c) crowdLevels in
  let currentIndex := if (found =? 0)%Z then 1%Z else found in
  let nearPeak :=
    existsb (fun peakHour => (Z.abs (getHours currentTime - peakHour) <=? 1)%Z)
      (peak_times crowdTrend) in
  simulateCrowdChange getHours (Some c) crowdTrend currentTime hoursElapsed n
  = (inr (JS.at_index crowdLevels
            (Z.max 0 (Z.min 4 (if nearPeak then currentIndex + 1 else currentIndex)))),
     n).
Proof.
  intros Hdir; cbv zeta; unfold simulateCrowdChange, ret; rewrite Hdir.
  cbn [String.eqb Ascii.eqb Bool.eqb List.length].
  destruct (existsb _ (peak_times crowdTrend)).
  - rewrite Math_round_one; reflexivity.
  - rewrite Math_round_near; [reflexivity | |]; vm_compute; [discriminate | reflexivity].
Qed.

Lemma fold_max_ge (l : list Qc) (a : Qc) :
  a <= fold_left JS.Math_max l a /\
  Forall (fun x => x <= fold_left JS.Math_max l a) l /\
  In (fold_left JS.Math_max l a) (a :: l).
Proof.
  revert a; induction l as [| x r IH]; intros a; cbn [fold_left].
  - split; [apply Qcle_refl |]; split; [constructor | left; reflexivity].
  - destruct (IH (JS.Math_max a x)) as [Hge [Hall Hin]].
    assert (Hmax : a <= JS.Math_max a x /\ x <= JS.Math_max a x /\
                   (JS.Math_max a x = a \/ JS.Math_max a x = x)).
    { unfold JS.Math_max; destruct (JS.leb a x) eqn:E.
      - apply leb_true_iff in E; split; [exact E |]; split; [apply Qcle_refl | right; reflexivity].
      - apply leb_false_iff in E; split; [apply Qcle_refl |];
          split; [apply Qclt_le_weak; exact E | left; reflexivity]. }
    destruct Hmax as [Ha [Hx Hcase]].
    split; [eapply Qcle_trans; eassumption |].
    split; [constructor; [eapply Qcle_trans; eassumption | exact Hall] |].
    destruct Hin as [Hin | Hin].
    + destruct Hcase as [Hc | Hc];
        [left | right; left]; rewrite <- Hin; symmetry; exact Hc.
    + right; right; exact Hin.
Qed.

Lemma eqb_eq (a b : Qc) : JS.eqb a b = true <-> a = b.
Proof.
  unfold JS.eqb; rewrite Qeq_bool_iff; split; intros H.
  - apply Qc_is_canon; exact H.
  - rewrite H; reflexivity.
Qed.

(** X28.  The peak that [analyzeTrends] reports is one of the predictions
    with the highest risk score: its time, level and score are reported,
    and no prediction scores higher. *)
Theorem peak_is_a_highest_prediction (first : prediction) (rest : list prediction)
    (n : nat) :
  exists (a : trend_analysis_t) (p : prediction),
    analyzeTrends Math_sqrt (first :: rest) n = (inr a, n) /\
    In p (first :: rest) /\
    peak_time a = time p /\
    peak_level a = SimpleRiskAssessment.risk_level (risk_assessment p) /\
    peak_score a = SimpleRiskAssessment.risk_score (risk_assessment p) /\
    Forall (fun q => SimpleRiskAssessment.risk_score (risk_assessment q)
                     <= peak_score a) (first :: rest).
Proof.
  unfold analyzeTrends, ret.
  set (score := fun p : prediction => SimpleRiskAssessment.risk_score (risk_assessment p)).
  set (ps := first :: rest).
  set (maxScore := fold_left JS.Math_max (map score ps) (score first)).
  destruct (fold_max_ge (map score ps) (score first)) as [_ [Hall Hin]].
  fold maxScore in Hall, Hin.
  assert (Hex : exists p, In p ps /\ score p = maxScore).
  { destruct Hin as [Hin | Hin].
    - exists first; split; [left; reflexivity | exact Hin].
    - apply in_map_iff in Hin; destruct Hin as [p [Hp Hinp]]; exists p; split; assumption. }
  match goal with |- context [find ?f ?l] => destruct (find f l) as [p |] eqn:Hfind end.
  - apply find_some in Hfind; destruct Hfind as [Hinp Heq]; apply eqb_eq in Heq.
    change (score p = maxScore) in Heq.
    eexists; exists p; split; [reflexivity |].
    cbn [peak_time peak_level peak_score].
    split; [exact Hinp |]; split; [reflexivity |]; split; [reflexivity |];
      split; [reflexivity |].
    fold (score p); rewrite Heq.
    rewrite Forall_forall in Hall |- *; intros q Hq.
    apply (Hall (score q)), in_map, Hq.
  - exfalso; destruct Hex as [p [Hinp Hp]].
    pose proof (find_none _ _ Hfind p Hinp) as Hno; cbv beta in Hno.
    change (JS.eqb (score p) maxScore = false) in Hno.
    apply eqb_eq in Hp; rewrite Hp in Hno; discriminate Hno.
Qed.

(** X29.  The confidence of a prediction is [0.95 - 0.05 * hours] until
    it reaches its floor 0.3 at 13 hours, and it never rises with the
    hours elapsed. *)
Theorem confidence_decays_to_floor (h h' : Qc) :
  h <= h' ->
  calculateConfidence h' <= calculateConfidence h /\
  calculateConfidence h
  = (if JS.leb (JS.num 13) h then JS.num 0.3 else JS.num 0.95 - JS.num 0.05 * h) /\
  JS.num 0.3 <= calculateConfidence h.
Proof.
  intros Hle.
  assert (Hform : forall x, calculateConfidence x
                            = if JS.leb (JS.num 13) x then JS.num 0.3
                              else JS.num 0.95 - JS.num 0.05 * x).
  { intros x; unfold calculateConfidence, JS.Math_max.
    destruct (JS.leb (JS.num 13) x) eqn:E13;
      destruct (JS.leb (JS.num 0.3) (JS.num 0.95 - JS.num 0.05 * x)) eqn:E; try reflexivity.
    - apply leb_true_iff in E13, E; apply Qc_is_canon.
      revert E13 E; qc_to_q; intros E13 E.
      assert (Hx : (x == 13)%Q) by lra. rewrite Hx; reflexivity.
    - apply leb_false_iff in E13, E; exfalso; revert E13 E; qc_to_q; lra. }
  split; [| split; [apply Hform |]].
  - rewrite !Hform.
    destruct (JS.leb (JS.num 13) h) eqn:E; destruct (JS.leb (JS.num 13) h') eqn:E'.
    + apply Qcle_refl.
    + apply leb_true_iff in E; apply leb_false_iff in E'.
      exfalso; revert Hle E E'; qc_to_q; lra.
    + apply leb_false_iff in E; revert E; qc_to_q; lra.
    + revert Hle; qc_to_q; lra.
  - rewrite Hform; destruct (JS.leb (JS.num 13) h) eqn:E.
    + apply Qcle_refl.
    + apply leb_false_iff in E; revert E; qc_to_q; lra.
Qed.

End SimulationSteps.

Lemma cyclical_crowd_never_thins_witness :
  let crowdLevels := ["isolated"; "light"; "moderate"; "heavy"; "overcrowded"] in
  let found := JS.indexOf (JS.toLowerCase "Isolated") crowdLevels in
  let currentIndex := if (found =? 0)%Z then 1%Z else found in
  let nearPeak :=
    existsb (fun peakHour => (Z.abs (Scenarios.utc_hours 0 - peakHour) <=? 1)%Z)
      (RiskSimulation.peak_times
         (RiskSimulation.crowd_trend RiskSimulation.generateDefaultTrends)) in
  RiskSimulation.simulateCrowdChange Scenarios.utc_hours (Some "Isolated")
    (RiskSimulation.crowd_trend RiskSimulation.generateDefaultTrends) 0 0 0%nat
  = (inr (JS.at_index crowdLevels
            (Z.max 0 (Z.min 4 (if nearPeak then currentIndex + 1 else currentIndex)))),
     0%nat).
Proof.
  apply (cyclical_crowd_never_thins Scenarios.utc_hours "Isolated"
           (RiskSimulation.crowd_trend RiskSimulation.generateDefaultTrends) 0 0 0%nat).
  reflexivity.
Defined.

Lemma confidence_decays_to_floor_witness :
  RiskSimulation.calculateConfidence (JS.num 14)
  <= RiskSimulation.calculateConfidence (JS.num 2) /\
  RiskSimulation.calculateConfidence (JS.num 2)
  = (if JS.leb (JS.num 13) (JS.num 2) then JS.num 0.3
     else JS.num 0.95 - JS.num 0.05 * JS.num 2) /\
  JS.num 0.3 <= RiskSimulation.calculateConfidence (JS.num 2).
Proof.
  apply (confidence_decays_to_floor (JS.num 2) (JS.num 14)).
  vm_compute; discriminate.
Defined.

(** ** The function [assessRisk] *)

Section SimpleAssessment.

Import SimpleRiskAssessment.

Lemma lower_upper_ascii (c : ascii) :
  JS.lower_ascii (JS.upper_ascii c) = JS.lower_ascii c.
Proof.
  destruct c as [[] [] [] [] [] [] [] []]; reflexivity.
Qed.

Lemma lower_lower_ascii (c : ascii) :
  JS.lower_ascii (JS.lower_ascii c) = JS.lower_ascii c.
Proof.
  destruct c as [[] [] [] [] [] [] [] []]; reflexivity.
Qed.

Lemma toLowerCase_toUpperCase (s : string) :
  JS.toLowerCase (JS.toUpperCase s) = JS.toLowerCase s.
Proof.
  induction s as [| c r IH]; cbn [JS.toUpperCase JS.toLowerCase]; [reflexivity |].
  rewrite lower_upper_ascii, IH; reflexivity.
Qed.

Lemma toLowerCase_idempotent (s : string) :
  JS.toLowerCase (JS.toLowerCase s) = JS.toLowerCase s.
Proof.
  induction s as [| c r IH]; cbn [JS.toLowerCase]; [reflexivity |].
  rewrite lower_lower_ascii, IH; reflexivity.
Qed.

(** X30.  On ASCII arguments the level, score and factors that
    [assessRisk] returns do not depend on the case of the letters.  Every
    factor named adds between 1 and 3 to the score, there are at most four
    of them, and the score lies between 0 and 10. *)
Theorem assessRisk_ignores_case (location time weather crowdDensity : string) :
  JS.is_ascii location = true ->
  JS.is_ascii time = true ->
  JS.is_ascii weather = true ->
  JS.is_ascii crowdDensity = true ->
  let a := assessRisk location time weather crowdDensity in
  assessRisk (JS.toUpperCase location) (JS.toUpperCase time) (JS.toUpperCase weather)
    (JS.toUpperCase crowdDensity) = a /\
  assessRisk (JS.toLowerCase location) (JS.toLowerCase time) (JS.toLowerCase weather)
    (JS.toLowerCase crowdDensity) = a /\
  (List.length (factors a) <= 4)%nat /\
  JS.int (Z.of_nat (List.length (factors a))) <= risk_score a /\
  risk_score a <= JS.num 3 * JS.int (Z.of_nat (List.length (factors a))) /\
  risk_score a <= JS.num 10.
Proof.
  intros _ _ _ _; cbv zeta.
  split; [unfold assessRisk; rewrite !toLowerCase_toUpperCase; reflexivity |].
  split; [unfold assessRisk; rewrite !toLowerCase_idempotent; reflexivity |].
  unfold assessRisk.
  repeat (match goal with
          | |- context [if (?a || ?b)%bool then _ else _] => destruct (a || b)%bool
          end; cbv beta iota).
  all: cbn [risk_score factors].
  all: split; [vm_compute; lia |]; split; [vm_compute; discriminate |];
    split; vm_compute; discriminate.
Qed.

Lemma assessRisk_ignores_case_witness :
  let a := assessRisk "Construction Site" "Late Night" "Thunderstorm" "Overcrowded" in
  assessRisk (JS.toUpperCase "Construction Site") (JS.toUpperCase "Late Night")
    (JS.toUpperCase "Thunderstorm") (JS.toUpperCase "Overcrowded") = a /\
  assessRisk (JS.toLowerCase "Construction Site") (JS.toLowerCase "Late Night")
    (JS.toLowerCase "Thunderstorm") (JS.toLowerCase "Overcrowded") = a /\
  (List.length (factors a) <= 4)%nat /\
  JS.int (Z.of_nat (List.length (factors a))) <= risk_score a /\
  risk_score a <= JS.num 3 * JS.int (Z.of_nat (List.length (factors a))) /\
  risk_score a <= JS.num 10.
Proof.
  apply (assessRisk_ignores_case "Construction Site" "Late Night" "Thunderstorm"
           "Overcrowded"); reflexivity.
Defined.

End SimpleAssessment.
